(** * AI-library: catalog builder, ranking client and search engine

    A shallow embedding of [backend/catalog_builder.py],
    [backend/ai_client.py] and [backend/search_engine.py], and the
    properties of the catalog pipeline and of the two-stage search that
    follow from the code.

    Conventions.
    - A Python [str] is a list of Unicode code points ([list N]); [len] is
      the length of that list.  [py "..."] turns a literal into such a list.
    - A Python [int] is a [Z].
    - Code that can raise lives in the monad [res]; [try_except] is the
      [try: ... except Exception as e: ...] statement.
    - The pure library functions whose tables are not part of the program
      (Unicode character classes outside ASCII, MD5, the UTF-8 decoder,
      [str] of a dict, ...) are the fields of the class [PyRuntime].
    - Everything the program reads from outside (the file system, the
      document parsers, the clock, the AI backend) is a field of a record
      that the functions take as an argument; so are the standard output
      and the errors that the store meets.
    - A [print] of the catalog builder or of [generate_description] can
      raise: its text holds a path of the file system or a character
      outside ASCII.  The other [print]s, of an ASCII literal followed by
      the message of an exception, are taken to return. *)

From Stdlib Require Import ZArith NArith List Ascii String Bool Lia DecimalString.
From Stdlib Require DecimalZ.
From Stdlib Require Import QArith Sorted.
From stdpp Require Import base option list gmap.

Local Open Scope Z_scope.

(** ** Exceptions and the result monad *)

Record PyExc := mk_exc { exc_class : string; exc_str : list N }.

Inductive res (A : Type) : Type :=
| Ok (a : A)
| Raise (e : PyExc).
Arguments Ok {A} a.
Arguments Raise {A} e.

#[global] Instance res_ret : MRet res := fun A a => Ok a.
#[global] Instance res_bind : MBind res := fun A B f m =>
  match m with
  | Ok a => f a
  | Raise e => Raise e
  end.

(** [try: body  except Exception as e: handler e] *)
Definition try_except {A} (body : res A) (handler : PyExc -> res A) : res A :=
  match body with
  | Ok a => Ok a
  | Raise e => handler e
  end.

(** A [try] whose handler cannot raise always yields a value. *)
Definition try_value {A} (body : res A) (handler : PyExc -> A) : A :=
  match body with
  | Ok a => a
  | Raise e => handler e
  end.

(** The list comprehension [[f x for x in l if cond x]] where [f] may
    raise: the elements are visited from left to right and the first
    exception escapes. *)
Fixpoint comprehension_if {A B} (f : A -> res B) (cond : A -> bool) (l : list A) : res (list B) :=
  match l with
  | [] => Ok []
  | x :: l' =>
      if cond x then
        match f x with
        | Raise e => Raise e
        | Ok y =>
            match comprehension_if f cond l' with
            | Raise e => Raise e
            | Ok ys => Ok (y :: ys)
            end
        end
      else comprehension_if f cond l'
  end.

(** [l[i]] on a list: negative indices count from the end, and an index
    out of range raises [IndexError]. *)
Definition list_index {A} (l : list A) (i : Z) : res A :=
  let n := Z.of_nat (length l) in
  let j := if i <? 0 then i + n else i in
  if (0 <=? j) && (j <? n)
  then match l !! Z.to_nat j with
       | Some x => Ok x
       | None => Raise (mk_exc "IndexError" [])
       end
  else Raise (mk_exc "IndexError" []).

(** ** The standard output

    [print(text)] either returns or raises: a text that the encoding of
    the stream cannot take raises [UnicodeEncodeError].  A standard output
    is known by what it does with each text: [None] when [print] returns,
    the exception otherwise. *)
Definition stdout : Type := list N -> option PyExc.

Definition py_print (out : stdout) (text : list N) : res unit :=
  match out text with
  | Some e => Raise e
  | None => Ok tt
  end.

(** ** Python strings *)

Module PyStr.

Definition py (s : string) : list N := map N_of_ascii (list_ascii_of_string s).

(** [len] of a string or of a list *)
Definition len {A} (s : list A) : Z := Z.of_nat (length s).

Definition str_eqb (s t : list N) : bool := bool_decide (s = t).

(** [str(n)] for an [int]. *)
Definition str_of_Z (z : Z) : list N := py (NilZero.string_of_int (Z.to_int z)).

(** *** Searching: [s.find(sub)] *)

Fixpoint starts_with (sub s : list N) : bool :=
  match sub, s with
  | [], _ => true
  | _ :: _, [] => false
  | c :: sub', d :: s' => N.eqb c d && starts_with sub' s'
  end.

Fixpoint find_from (sub s : list N) (i : Z) : Z :=
  if starts_with sub s then i
  else match s with
       | [] => -1
       | _ :: s' => find_from sub s' (i + 1)
       end.

Definition find (s sub : list N) : Z := find_from sub s 0.

(** *** Slicing: [s[i:j]], [s[i:]], [s[:j]] with Python's clamping *)

Definition clamp_index (n i : Z) : Z :=
  if i <? 0 then Z.max (i + n) 0 else Z.min i n.

Definition slice (s : list N) (i j : Z) : list N :=
  let a := clamp_index (len s) i in
  let b := clamp_index (len s) j in
  take (Z.to_nat (b - a)) (drop (Z.to_nat a) s).

Definition slice_from (s : list N) (i : Z) : list N :=
  drop (Z.to_nat (clamp_index (len s) i)) s.

Definition slice_to (s : list N) (j : Z) : list N :=
  take (Z.to_nat (clamp_index (len s) j)) s.

(** *** Character classes *)

(** [str.isspace] of one code point: the complete table of CPython's
    [_PyUnicode_IsWhitespace]. *)
Definition isspace (c : N) : bool :=
  ((9 <=? c) && (c <=? 13) || (28 <=? c) && (c <=? 32) ||
   (c =? 133) || (c =? 160) || (c =? 5760) ||
   (8192 <=? c) && (c <=? 8202) || (c =? 8232) || (c =? 8233) ||
   (c =? 8239) || (c =? 8287) || (c =? 12288))%N.

(** C's [isspace] on ASCII, as used by the integer parser. *)
Definition c_isspace (c : N) : bool :=
  ((9 <=? c) && (c <=? 13) || (c =? 32))%N.

Definition is_ascii (c : N) : bool := (c <? 128)%N.

Definition ascii_digit (c : N) : bool := ((48 <=? c) && (c <=? 57))%N.

Definition ascii_lower (c : N) : N :=
  if ((65 <=? c) && (c <=? 90))%N then (c + 32)%N else c.

(** The surrogate code points, U+D800 to U+DFFF: a [str] may hold them
    (a file name that is not valid UTF-8 is decoded with
    [surrogateescape]), but UTF-8 cannot encode them. *)
Definition surrogate (c : N) : bool := ((55296 <=? c) && (c <=? 57343))%N.

(** Whether [s.encode('utf-8')] returns *)
Definition utf8_encodable (s : list N) : bool := forallb (fun c => negb (surrogate c)) s.

(** *** [strip], [split], [join] *)

Fixpoint lstrip (s : list N) : list N :=
  match s with
  | [] => []
  | c :: s' => if isspace c then lstrip s' else s
  end.

Definition rstrip (s : list N) : list N := rev (lstrip (rev s)).

Definition strip (s : list N) : list N := rstrip (lstrip s).

(** [s.split()]: the maximal runs of non-whitespace characters. *)
Fixpoint split_ws_from (cur : list N) (s : list N) : list (list N) :=
  match s with
  | [] => match cur with [] => [] | _ => [rev cur] end
  | c :: s' =>
      if isspace c
      then match cur with
           | [] => split_ws_from [] s'
           | _ => rev cur :: split_ws_from [] s'
           end
      else split_ws_from (c :: cur) s'
  end.

Definition split_ws (s : list N) : list (list N) := split_ws_from [] s.

(** [s.split(sep)] for a one-character separator: never an empty list. *)
Fixpoint split_on (sep : N) (s : list N) : list (list N) :=
  match s with
  | [] => [[]]
  | c :: s' =>
      if N.eqb c sep then [] :: split_on sep s'
      else match split_on sep s' with
           | [] => [[c]]
           | w :: ws => (c :: w) :: ws
           end
  end.

(** [sep.join(l)] *)
Fixpoint join (sep : list N) (l : list (list N)) : list N :=
  match l with
  | [] => []
  | [w] => w
  | w :: ws => w ++ sep ++ join sep ws
  end.

End PyStr.
Import PyStr.

(** ** Python values that end up in metadata dictionaries *)

(** [VOther r] is a value of any other type (a float, a tuple, ...), known
    by its [str()]. *)
Inductive pyval :=
| VNone
| VStr (s : list N)
| VInt (z : Z)
| VOther (repr : list N).

Definition str_of_val (v : pyval) : list N :=
  match v with
  | VNone => py "None"
  | VStr s => s
  | VInt z => str_of_Z z
  | VOther r => r
  end.

(** A [dict] with string keys keeps insertion order; assigning to a key
    that is present replaces the value in place. *)
Fixpoint dict_set {V} (k : list N) (v : V) (d : list (list N * V)) : list (list N * V) :=
  match d with
  | [] => [(k, v)]
  | (k', v') :: d' =>
      if str_eqb k k' then (k, v) :: d' else (k', v') :: dict_set k v d'
  end.

Fixpoint dict_get {V} (k : list N) (d : list (list N * V)) : option V :=
  match d with
  | [] => None
  | (k', v') :: d' => if str_eqb k k' then Some v' else dict_get k d'
  end.

Definition nl : list N := [10%N].

(** ** The pure library functions the program relies on *)

Class PyRuntime := {
  (** [str.isdigit] of a code point above ASCII *)
  u_isdigit : N -> bool;
  (** [Py_UNICODE_TODECIMAL] of a code point above ASCII *)
  u_decimal : N -> option N;
  (** [str.lower] of a string that is not pure ASCII *)
  u_lower : list N -> list N;
  (** [sys.get_int_max_str_digits()]; [0] switches the limit off *)
  int_max_str_digits : Z;
  (** [hashlib.md5(b).hexdigest()]: the digest of a byte stream *)
  md5 : list N -> list N;
  (** the hash object: its initial state, [update] and [hexdigest]; feeding
      a stream chunk by chunk gives the digest of the whole stream *)
  md5_state : Type;
  md5_new : md5_state;
  md5_update : md5_state -> list N -> md5_state;
  md5_hexdigest : md5_state -> list N;
  md5_streamed : forall chunks : list (list N),
    md5_hexdigest (fold_left md5_update chunks md5_new) = md5 (concat chunks);
  (** what a text-mode file object opened with [encoding='utf-8',
      errors='ignore'] makes of the bytes of a file *)
  utf8_decode_ignore : list N -> list N;
  (** [mimetypes.guess_type(path)[0]] *)
  guess_type : list N -> option (list N);
  (** [datetime.fromtimestamp(t).isoformat()]; [fromtimestamp] raises for
      a time outside the range of the platform *)
  isoformat : Z -> res (list N);
  (** the [UnicodeEncodeError] that encoding [s] as UTF-8 raises, for a
      string that holds a surrogate *)
  utf8_encode_error : list N -> PyExc;
  (** [str(d)] for a dict *)
  dict_str : list (list N * pyval) -> list N;
  (** [round(size / (1024 * 1024), 2)] *)
  round_mb : Z -> pyval;
}.

(** ** [ai_client.py] *)

Module AIClient.

Section WithRuntime.
Context `{RT : PyRuntime}.

(** *** [str.isdigit], [str.lower], [int(str)] *)

Definition char_isdigit (c : N) : bool :=
  if is_ascii c then ascii_digit c else u_isdigit c.

Definition isdigit (s : list N) : bool :=
  match s with
  | [] => false
  | _ => forallb char_isdigit s
  end.

Definition lower (s : list N) : list N :=
  if forallb is_ascii s then map ascii_lower s else u_lower s.

Definition ValueError : PyExc := mk_exc "ValueError" (py "invalid literal for int() with base 10").

(** CPython's [_PyUnicode_TransformDecimalAndSpaceToASCII]: Unicode spaces
    become a blank, Unicode decimals their ASCII digit, and the first other
    character above ASCII becomes [?] and ends the string. *)
Fixpoint to_ascii_decimal (s : list N) : list N :=
  match s with
  | [] => []
  | c :: s' =>
      if is_ascii c then c :: to_ascii_decimal s'
      else if isspace c then 32%N :: to_ascii_decimal s'
      else match u_decimal c with
           | Some d => (48 + d)%N :: to_ascii_decimal s'
           | None => [63%N]
           end
  end.

Fixpoint skip_c_space (s : list N) : list N :=
  match s with
  | [] => []
  | c :: s' => if c_isspace c then skip_c_space s' else s
  end.

(** The digit scanner of [PyLong_FromString] in base 10: digits with single
    underscores between them.  Returns the value, the number of digits and
    the rest of the input. *)
Fixpoint scan_digits (prev : N) (acc ndig : Z) (s : list N) : option (Z * Z * list N) :=
  match s with
  | [] => if (prev =? 95)%N then None else Some (acc, ndig, [])
  | c :: s' =>
      if ascii_digit c then scan_digits c (10 * acc + Z.of_N (c - 48)) (ndig + 1) s'
      else if (c =? 95)%N then
        if (prev =? 95)%N then None else scan_digits c acc ndig s'
      else if (prev =? 95)%N then None else Some (acc, ndig, s)
  end.

Definition parse_sign (s : list N) : bool * list N :=
  match s with
  | c :: s' =>
      if (c =? 43)%N then (false, s')
      else if (c =? 45)%N then (true, s')
      else (false, s)
  | [] => (false, [])
  end.

Definition leading_underscore (s : list N) : bool :=
  match s with
  | c :: _ => (c =? 95)%N
  | [] => false
  end.

(** [int(s)] for a [str] *)
Definition py_int (s : list N) : res Z :=
  let (negative, t) := parse_sign (skip_c_space (to_ascii_decimal s)) in
  if leading_underscore t then Raise ValueError
  else
    match scan_digits 0 0 0 t with
    | None => Raise ValueError
    | Some (v, ndig, rest) =>
        if ndig =? 0 then Raise ValueError
        else match skip_c_space rest with
             | _ :: _ => Raise ValueError
             | [] =>
                 if (0 <? int_max_str_digits) && (int_max_str_digits <? ndig)
                 then Raise ValueError
                 else Ok (if negative then - v else v)
             end
    end.

(** *** The client *)

Record client := {
  ai_type : list N;
  (** the HTTP round trip of [_call_api] and of [_call_local] *)
  call_api : list N -> res (list N);
  call_local : list N -> res (list N);
}.

Definition _call_ai (self : client) (prompt : list N) : res (list N) :=
  if str_eqb (ai_type self) (py "api") then call_api self prompt
  else if str_eqb (ai_type self) (py "local") then call_local self prompt
  else Raise (mk_exc "ValueError" (py "Unknown AI type: " ++ ai_type self)).

(** [file_path.split('/')[-1]] *)
Definition basename (file_path : list N) : list N :=
  List.last (split_on 47%N file_path) [].

Definition _create_description_prompt (file_path : list N) (file_content : list N)
    (metadata : list (list N * pyval)) : list N :=
  let filename := basename file_path in
  let prompt := py "Describe this file in 1-2 sentences for search purposes:" ++ nl in
  let prompt := prompt ++ py "Filename: " ++ filename ++ nl in
  let prompt :=
    match metadata with
    | [] => prompt
    | _ =>
        let prompt :=
          match dict_get (py "size") metadata with
          | Some v => prompt ++ py "Size: " ++ str_of_val v ++ py " bytes" ++ nl
          | None => prompt
          end in
        let prompt :=
          match dict_get (py "modified") metadata with
          | Some v => prompt ++ py "Modified: " ++ str_of_val v ++ nl
          | None => prompt
          end in
        match dict_get (py "file_type") metadata with
        | Some v => prompt ++ py "Type: " ++ str_of_val v ++ nl
        | None => prompt
        end
    end in
  let prompt :=
    match file_content with
    | [] => prompt
    | _ =>
        let content_preview :=
          if 2000 <? len file_content
          then slice_to file_content 2000 ++ py "..."
          else file_content in
        prompt ++ py "Content preview: " ++ content_preview ++ nl
    end in
  prompt ++ nl ++ py "Provide a concise description focusing on what this file contains and what someone might search for to find it:".

(** [out] is the standard output of the process. *)
Definition generate_description (out : stdout) (self : client) (file_path file_content : list N)
    (metadata : list (list N * pyval)) : res (list N) :=
  try_except
    (response ← _call_ai self (_create_description_prompt file_path file_content metadata);
     mret (strip response))
    (fun e =>
       _ ← py_print out (py "Error generating description for " ++ file_path ++
                         py ": " ++ exc_str e);
       mret (py "File: " ++ basename file_path)).

(** One entry of the list that [SearchEngine._get_file_descriptions]
    returns. *)
Record file_desc := {
  fd_id : Z;
  fd_name : list N;
  fd_path : list N;
  fd_description : list N;
  fd_file_type : list N;
  fd_size : option Z;
}.

Definition prompt_line (i : nat) (file_info : file_desc) : list N :=
  str_of_Z (Z.of_nat i + 1) ++ py ". " ++ fd_name file_info ++ py " - " ++
  fd_description file_info ++ nl.

Fixpoint prompt_lines (i : nat) (l : list file_desc) : list N :=
  match l with
  | [] => []
  | file_info :: l' => prompt_line i file_info ++ prompt_lines (S i) l'
  end.

Definition _create_search_prompt (query : list N) (file_descriptions : list file_desc) : list N :=
  let prompt := py "User is searching for: '" ++ query ++ py "'" ++ nl ++ nl in
  let prompt := prompt ++ py "Here are the available files with their descriptions:" ++ nl ++ nl in
  let prompt := prompt ++ prompt_lines 0 (take 50 file_descriptions) in
  let prompt := prompt ++ nl ++ py "Based on the user's query '" ++ query ++
                py "', which files are most relevant? " in
  let prompt := prompt ++ py "Respond with a helpful message and list the relevant file numbers (if any). " in
  prompt ++ py "Format your response as: MESSAGE: [your helpful message] FILES: [comma-separated list of file numbers, or 'none' if no matches]".

(** The dictionary a ranking call returns: the keys [message],
    [file_numbers] and [files], each present or not. *)
Record ai_response := {
  ar_message : option (list N);
  ar_file_numbers : option (list Z);
  ar_files : option (list file_desc);
}.

Definition _parse_search_response (response query : list N) : ai_response :=
  try_value
    (let message_start := find response (py "MESSAGE:") in
     let files_start := find response (py "FILES:") in
     if negb (message_start =? -1) && negb (files_start =? -1) then
       let message := strip (slice response (message_start + 8) files_start) in
       let files_text := strip (slice_from response (files_start + 6)) in
       let file_numbers :=
         if negb (str_eqb (lower files_text) (py "none")) then
           try_value
             (comprehension_if (fun x => py_int (strip x)) (fun x => isdigit (strip x))
                (split_on 44%N files_text))
             (fun _ => [])
         else [] in
       mret {| ar_message := Some message;
               ar_file_numbers := Some file_numbers;
               ar_files := None |}
     else
       mret {| ar_message := Some response;
               ar_file_numbers := Some [];
               ar_files := None |})
    (fun e =>
       {| ar_message := Some (py "I found some information related to '" ++ query ++
                              py "', but had trouble formatting the response.");
          ar_file_numbers := Some [];
          ar_files := None |}).

Definition search_query (self : client) (query : list N)
    (file_descriptions : list file_desc) : ai_response :=
  try_value
    (response ← _call_ai self (_create_search_prompt query file_descriptions);
     mret (_parse_search_response response query))
    (fun e =>
       {| ar_message := Some (py "I encountered an error while searching. Please try again.");
          ar_file_numbers := None;
          ar_files := Some [] |}).

End WithRuntime.
End AIClient.
Import AIClient.

(** ** The SQLite catalog: table [files] and its full-text index [files_fts] *)

Module Store.

(** A row of [files] without its [id]. *)
Record file_row := {
  r_path : list N;
  r_name : list N;
  r_size : option Z;
  r_modified_time : list N;
  r_file_type : list N;
  r_mime_type : list N;
  r_content_hash : list N;
  r_description : list N;
  r_content_text : list N;
  r_metadata_json : list N;
  r_indexed_time : list N;
}.

(** What the full-text index holds for one rowid. *)
Record fts_doc := {
  d_name : list N;
  d_description : list N;
  d_content_text : list N;
}.

Record database := {
  (** the rows of [files] with their [id], in insertion order *)
  files : list (Z * file_row);
  (** [sqlite_sequence]: the largest [id] handed out so far *)
  files_seq : Z;
  (** the documents of the index [files_fts], by rowid; the table is an
      external-content table ([content='files']): only a statement on
      [files_fts] itself changes the index, and for such a table FTS5
      treats [OR REPLACE] as a plain insertion under the given rowid *)
  files_fts : gmap Z fts_doc;
  (** [last_insert_rowid()] of the connection *)
  last_insert_rowid : Z;
}.

Definition empty_db : database :=
  {| files := []; files_seq := 0; files_fts := ∅; last_insert_rowid := 0 |}.

Definition max_rowid (rows : list (Z * file_row)) : Z :=
  fold_right (fun r m => Z.max (fst r) m) 0 rows.

(** [INSERT OR REPLACE INTO files (path, ...) VALUES (...)]: the row that
    holds the same [path] (the column is [UNIQUE]) is deleted, and the new
    row gets a fresh [AUTOINCREMENT] id. *)
Definition insert_or_replace_file (db : database) (row : file_row) : database :=
  let kept := List.filter (fun r => negb (str_eqb (r_path (snd r)) (r_path row))) (files db) in
  let id := Z.max (files_seq db) (max_rowid (files db)) + 1 in
  {| files := kept ++ [(id, row)];
     files_seq := id;
     files_fts := files_fts db;
     last_insert_rowid := id |}.

(** [INSERT OR REPLACE INTO files_fts (rowid, name, description,
    content_text) VALUES (last_insert_rowid(), ?, ?, ?)] *)
Definition insert_or_replace_fts (db : database) (doc : fts_doc) : database :=
  {| files := files db;
     files_seq := files_seq db;
     files_fts := <[last_insert_rowid db := doc]> (files_fts db);
     last_insert_rowid := last_insert_rowid db |}.

(** [SELECT content_hash FROM files WHERE path = ?] followed by
    [fetchone()] *)
Definition select_content_hash (db : database) (path : list N) : option (list N) :=
  match List.find (fun r => str_eqb (r_path (snd r)) path) (files db) with
  | Some r => Some (r_content_hash (snd r))
  | None => None
  end.

(** The row of [files] with a given [id] *)
Definition row_by_id (db : database) (id : Z) : option file_row :=
  match List.find (fun r => fst r =? id) (files db) with
  | Some r => Some (snd r)
  | None => None
  end.

(** Code-point order on strings, the order of the [BINARY] collation *)
Fixpoint str_leb (s t : list N) : bool :=
  match s, t with
  | [], _ => true
  | _ :: _, [] => false
  | c :: s', d :: t' =>
      if (c <? d)%N then true else if (d <? c)%N then false else str_leb s' t'
  end.

Fixpoint insert_by_name (r : Z * file_row) (l : list (Z * file_row)) : list (Z * file_row) :=
  match l with
  | [] => [r]
  | r' :: l' =>
      if str_leb (r_name (snd r')) (r_name (snd r))
      then r' :: insert_by_name r l'
      else r :: l
  end.

(** [SELECT ... FROM files ORDER BY name] *)
Definition order_by_name (rows : list (Z * file_row)) : list (Z * file_row) :=
  fold_left (fun acc r => insert_by_name r acc) rows [].

End Store.
Import Store.

(** ** [search_engine.py] *)

Module SearchEngine.

(** *** The numbers of [_format_file_size]

    The loop starts with an [int] and, from the first division on, holds a
    [float].  Every float it meets is a quotient [m / 2^s] of a double [m]
    (an integer of at most 53 significant bits, [float_of_int]) by a power
    of [1024.0]; such a division is exact, so the float is kept as the pair
    [(m, s)]. *)

(** [float(n)]: the nearest double, ties to even.  Sizes come from a 64-bit
    [INTEGER] column, far below the range where the conversion overflows. *)
Definition float_of_int (n : Z) : Z :=
  let a := Z.abs n in
  let e := Z.log2 a + 1 - 53 in
  if e <=? 0 then n
  else
    let q := a / 2 ^ e in
    let r := a mod 2 ^ e in
    let half := 2 ^ (e - 1) in
    let q' := if (half <? r) || ((r =? half) && Z.odd q) then q + 1 else q in
    Z.sgn n * (q' * 2 ^ e).

Inductive pynum :=
| PInt (n : Z)
| PFloat (m : Z) (s : Z).

(** [x < 1024.0] *)
Definition lt_1024 (x : pynum) : bool :=
  match x with
  | PInt n => n <? 1024
  | PFloat m s => m <? 1024 * 2 ^ s
  end.

(** [x / 1024.0] *)
Definition div_1024 (x : pynum) : pynum :=
  match x with
  | PInt n => PFloat (float_of_int n) 10
  | PFloat m s => PFloat m (s + 10)
  end.

(** The decimal rendering of [num / den] with one digit after the point,
    correctly rounded, ties to even: what [f"{x:.1f}"] prints for the
    number [x = num / den]. *)
Definition tenths (num den : Z) : Z :=
  let a := Z.abs num in
  let q := (10 * a) / den in
  let r := (10 * a) mod den in
  if (den <? 2 * r) || ((2 * r =? den) && Z.odd q) then q + 1 else q.

Definition one_decimal (num den : Z) : list N :=
  let t := tenths num den in
  (if num <? 0 then py "-" else []) ++ str_of_Z (t / 10) ++ py "." ++ str_of_Z (t mod 10).

(** [f"{x:.1f}"] *)
Definition format_1f (x : pynum) : list N :=
  match x with
  | PInt n => one_decimal (float_of_int n) 1
  | PFloat m s => one_decimal m (2 ^ s)
  end.

Fixpoint format_loop (units : list (list N)) (size_bytes : pynum) : list N :=
  match units with
  | [] => format_1f size_bytes ++ py " TB"
  | unit :: units' =>
      if lt_1024 size_bytes
      then format_1f size_bytes ++ py " " ++ unit
      else format_loop units' (div_1024 size_bytes)
  end.

Definition _format_file_size (size_bytes : option Z) : list N :=
  match size_bytes with
  | None => py "Unknown"
  | Some n => format_loop [py "B"; py "KB"; py "MB"; py "GB"] (PInt n)
  end.

(** *** The engine *)

(** A matched file as it is returned to the caller *)
Record file_summary := {
  s_name : list N;
  s_path : list N;
  s_description : list N;
  s_file_type : list N;
  s_size : list N;
}.

Record search_result := {
  message : list N;
  files : list file_summary;
}.

Section WithRuntime.
Context `{RT : PyRuntime}.

Record engine := {
  (** what [sqlite3.connect(self.db_path)] and the statement give: the
      catalog, or an exception of the driver *)
  connect : res database;
  (** FTS5 [MATCH]: the rowids of the index that match a query expression,
      each with the value of its column [rank] (the bm25 score of the
      document, the smaller the better the match), or an exception for an
      expression FTS5 cannot parse *)
  fts5_match : gmap Z fts_doc -> list N -> res (list (Z * Q));
  ai_client : client;
}.

Definition description_or_name (description name : list N) : list N :=
  match description with
  | [] => py "File: " ++ name
  | _ => description
  end.

Definition _get_file_descriptions (self : engine) : list file_desc :=
  try_value
    (db ← connect self;
     mret (map (fun r : Z * file_row =>
                  {| fd_id := fst r;
                     fd_name := r_name (snd r);
                     fd_path := r_path (snd r);
                     fd_description := description_or_name (r_description (snd r)) (r_name (snd r));
                     fd_file_type := r_file_type (snd r);
                     fd_size := r_size (snd r) |})
             (order_by_name (Store.files db))))
    (fun e => []).

Fixpoint _get_files_by_numbers (file_numbers : list Z) (file_descriptions : list file_desc)
    : res (list file_summary) :=
  match file_numbers with
  | [] => Ok []
  | num :: rest =>
      if (1 <=? num) && (num <=? len file_descriptions) then
        file_info ← list_index file_descriptions (num - 1);
        matched ← _get_files_by_numbers rest file_descriptions;
        mret ({| s_name := fd_name file_info;
                 s_path := fd_path file_info;
                 s_description := fd_description file_info;
                 s_file_type := fd_file_type file_info;
                 s_size := _format_file_size (fd_size file_info) |} :: matched)
      else _get_files_by_numbers rest file_descriptions
  end.

(** [... FROM files_fts fts JOIN files f ON f.id = fts.rowid]: the matched
    rowids that have a row in [files], in rank order *)
Definition join_files (db : database) (ranked : list Z) : list file_row :=
  omap (row_by_id db) ranked.

Definition fts_query (query : list N) : list N := join (py " OR ") (split_ws query).

(** [ORDER BY rank]: by increasing rank; rows of equal rank stay in the
    order in which the index gives them. *)
Fixpoint insert_by_rank (m : Z * Q) (l : list (Z * Q)) : list (Z * Q) :=
  match l with
  | [] => [m]
  | m' :: l' =>
      if Qle_bool (snd m') (snd m)
      then m' :: insert_by_rank m l'
      else m :: l
  end.

Definition order_by_rank (matches : list (Z * Q)) : list (Z * Q) :=
  fold_left (fun acc m => insert_by_rank m acc) matches [].

Definition fts_summary (r : file_row) : file_summary :=
  {| s_name := r_name r;
     s_path := r_path r;
     s_description := description_or_name (r_description r) (r_name r);
     s_file_type := r_file_type r;
     s_size := _format_file_size (r_size r) |}.

Definition _fts_search (self : engine) (query : list N) : list file_summary :=
  try_value
    (db ← connect self;
     matches ← fts5_match self (files_fts db) (fts_query query);
     let ranked := map fst (order_by_rank matches) in
     mret (map fts_summary (take 10 (join_files db ranked))))
    (fun e => []).

(** The files the ranking stage selects: [matched_files] before the
    fallback *)
Definition ai_matches (ai_response : ai_response) (file_descriptions : list file_desc)
    : res (list file_summary) :=
  match ar_file_numbers ai_response with
  | Some (n :: ns) => _get_files_by_numbers (n :: ns) file_descriptions
  | _ => mret []
  end.

Definition found_message (n : nat) (query : list N) : list N :=
  py "I found " ++ str_of_Z (Z.of_nat n) ++ py " files that might match your search for '" ++
  query ++ py "':".

Definition search (self : engine) (query : list N) : res search_result :=
  try_except
    (let file_descriptions := _get_file_descriptions self in
     match file_descriptions with
     | [] =>
         mret {| message := py "No files have been cataloged yet. Please wait for the catalog to complete.";
                 files := [] |}
     | _ =>
         let ai_response := search_query (ai_client self) query file_descriptions in
         matched_files ← ai_matches ai_response file_descriptions;
         let '(matched_files, ai_response) :=
           match matched_files with
           | [] =>
               let matched_files := _fts_search self query in
               match matched_files with
               | [] => (matched_files, ai_response)
               | _ => (matched_files,
                       {| ar_message := Some (found_message (length matched_files) query);
                          ar_file_numbers := ar_file_numbers ai_response;
                          ar_files := ar_files ai_response |})
               end
           | _ => (matched_files, ai_response)
           end in
         mret {| message := default (py "I searched for '" ++ query ++
                                     py "' but didn't find any matching files.")
                                    (ar_message ai_response);
                 files := matched_files |}
     end)
    (fun e =>
       mret {| message := py "I encountered an error while searching. Please try again.";
               files := [] |}).

(** *** [get_stats] *)


Definition int64 (z : Z) : bool := (- 2 ^ 63 <=? z) && (z <? 2 ^ 63).




End WithRuntime.
End SearchEngine.
Import SearchEngine.

(** ** [catalog_builder.py] *)

Module CatalogBuilder.

Record stat_result := { st_size : Z; st_mtime : Z }.

(** A PIL image: [_getexif] is absent ([None]), raises, or gives the EXIF
    entries, each tag already printed as in [f'exif_{tag}'] (no entries
    for an empty or missing EXIF block). *)
Record image := {
  img_format : pyval;
  img_size : pyval;
  img_mode : pyval;
  img_getexif : option (res (list (list N * pyval)));
}.

Inductive tag_value :=
| TagList (l : list pyval)
| TagStr (s : list N)
| TagOther.

(** What [mutagen.File] gives: the truth value of the object, the two
    attributes of [info] (with the default [0] when absent) and the tags. *)
Record audio_file := {
  au_truth : bool;
  au_length : pyval;
  au_bitrate : pyval;
  au_items : list (list N * tag_value);
}.

(** The statements that the build sends to the store: opening the
    connection, and for the file number [i] the lookup of the stored
    digest, the two insertions and the commit; the commit after the
    loop. *)
Inductive statement :=
| Connect
| Select (i : Z)
| InsertFile (i : Z)
| InsertFts (i : Z)
| Commit (i : Z)
| FinalCommit.

(** Everything the builder reads from outside, by path, and what its
    standard output and its store do. *)
Record world := {
  (** [file_path.stat()] *)
  w_stat : list N -> res stat_result;
  (** [open(file_path, ...)] and reading the file to its end *)
  w_read : list N -> res (list N);
  (** [PyPDF2.PdfReader(f).pages]: for each page what [extract_text()]
      gives *)
  w_pdf : list N -> res (list (res (list N)));
  (** [Document(file_path).paragraphs]: the text of each paragraph *)
  w_docx : list N -> res (list (list N));
  (** [openpyxl.load_workbook(file_path, data_only=True)]: the sheets in
      the order of [sheetnames], each with its name and what iterating
      over its rows gives (the cell values) *)
  w_workbook : list N -> res (list (list N * res (list (list pyval))));
  (** [Image.open(file_path)] *)
  w_image : list N -> res image;
  (** [MutagenFile(file_path)] *)
  w_audio : list N -> res (option audio_file);
  (** [datetime.now().isoformat()] while the file number [i] is handled *)
  w_now : Z -> list N;
  (** the standard output of the process *)
  w_stdout : stdout;
  (** the error that a statement meets in the store, whatever its values
      are, and that fails the statement and leaves the transaction as it
      is (the database is locked by another connection, the index is
      damaged, the file cannot be opened): [None] when there is none *)
  w_store_fault : statement -> option PyExc;
}.

Section WithRuntime.
Context `{RT : PyRuntime}.

(** *** Paths: [Path.name], [Path.suffix] *)

Definition path_name (file_path : list N) : list N :=
  List.last (split_on 47%N file_path) [].

Fixpoint rfind_from (c : N) (s : list N) (i : Z) (found : Z) : Z :=
  match s with
  | [] => found
  | d :: s' => rfind_from c s' (i + 1) (if N.eqb d c then i else found)
  end.

Definition path_suffix (file_path : list N) : list N :=
  let name := path_name file_path in
  let i := rfind_from 46%N name 0 (-1) in
  if (0 <? i) && (i <? len name - 1) then slice_from name i else [].

Definition str_in (s : list N) (l : list (list N)) : bool := existsb (str_eqb s) l.

Definition supported_text_types : list (list N) :=
  [py ".txt"; py ".md"; py ".py"; py ".js"; py ".html"; py ".css"; py ".json";
   py ".xml"; py ".csv"; py ".log"; py ".ini"; py ".cfg"; py ".conf"; py ".yaml";
   py ".yml"; py ".sql"; py ".sh"; py ".bat"].

(** *** The change detector *)

(** [f.read(4096)] until the empty chunk *)
Fixpoint chunks (fuel : nat) (b : list N) : list (list N) :=
  match fuel, b with
  | S fuel', _ :: _ => take 4096 b :: chunks fuel' (drop 4096 b)
  | _, _ => []
  end.

Definition _get_file_hash (w : world) (file_path : list N) : list N :=
  try_value
    (b ← w_read w file_path;
     mret (md5_hexdigest (fold_left md5_update (chunks (length b) b) md5_new)))
    (fun e => []).

(** Binding a value to a [?] of a statement: a [str] is encoded as UTF-8,
    an [int] must fit the 64 bits of an [INTEGER]. *)
Definition bind_text (s : list N) : res unit :=
  if utf8_encodable s then Ok tt else Raise (utf8_encode_error s).

Definition bind_int (z : Z) : res unit :=
  if int64 z then Ok tt
  else Raise (mk_exc "OverflowError" (py "Python int too large to convert to SQLite INTEGER")).

Definition store_fault (w : world) (s : statement) : res unit :=
  match w_store_fault w s with
  | Some e => Raise e
  | None => Ok tt
  end.

(** [cursor.execute('SELECT content_hash FROM files WHERE path = ?',
    (str(file_path),))] and [cursor.fetchone()], on the cursor of the
    build while the file number [i] is handled and the connection sees
    [db] *)
Definition select_hash (w : world) (db : database) (i : Z) (file_path : list N)
    : res (option (list N)) :=
  _ ← bind_text file_path;
  _ ← store_fault w (Select i);
  mret (select_content_hash db file_path).

(** The cursor is given by [db] and [i]. *)
Definition _is_file_already_indexed (w : world) (db : database) (i : Z) (file_path : list N)
    : bool :=
  try_value
    (stat ← w_stat w file_path;
     let current_hash := _get_file_hash w file_path in
     result ← select_hash w db i file_path;
     mret (match result with
           | Some h => str_eqb h current_hash
           | None => false
           end))
    (fun e => false).

(** *** The extractors *)

Definition extracted : Type := list N * list (list N * pyval).

Definition on_error (e : PyExc) : res extracted :=
  mret ([], [(py "error", VStr (exc_str e))]).

Definition text_body (w : world) (file_path : list N) : res extracted :=
  b ← w_read w file_path;
  let content := utf8_decode_ignore b in
  let content :=
    if 10000 <? len content then slice_to content 10000 ++ py "..." else content in
  mret (content, [(py "file_type", VStr (py "text")); (py "char_count", VInt (len content))]).

Definition _extract_text_content (w : world) (file_path : list N) : res extracted :=
  try_except (text_body w file_path) on_error.

Fixpoint pages_text (text : list N) (pages : list (res (list N))) : res (list N) :=
  match pages with
  | [] => Ok text
  | page :: pages' =>
      t ← page;
      pages_text (text ++ t ++ nl) pages'
  end.

Definition pdf_body (w : world) (file_path : list N) : res extracted :=
  pages ← w_pdf w file_path;
  text ← pages_text [] (take 5 pages);
  let metadata := [(py "file_type", VStr (py "pdf"));
                   (py "page_count", VInt (len pages));
                   (py "char_count", VInt (len text))] in
  mret (slice_to text 5000, metadata).

Definition _extract_pdf_content (w : world) (file_path : list N) : res extracted :=
  try_except (pdf_body w file_path) on_error.

Definition docx_body (w : world) (file_path : list N) : res extracted :=
  paragraphs ← w_docx w file_path;
  let text := join nl paragraphs in
  let metadata := [(py "file_type", VStr (py "docx"));
                   (py "paragraph_count", VInt (len paragraphs));
                   (py "char_count", VInt (len text))] in
  mret (slice_to text 5000, metadata).

Definition _extract_docx_content (w : world) (file_path : list N) : res extracted :=
  try_except (docx_body w file_path) on_error.

Definition is_not_none (v : pyval) : bool :=
  match v with
  | VNone => false
  | _ => true
  end.

(** The rows of one sheet that are kept: [' '.join] of the cells that are
    not [None], when something other than blanks is left *)
Fixpoint sheet_rows (rows : list (list pyval)) : list (list N) :=
  match rows with
  | [] => []
  | row :: rows' =>
      let row_text := join (py " ") (map str_of_val (List.filter is_not_none row)) in
      match strip row_text with
      | [] => sheet_rows rows'
      | _ => row_text :: sheet_rows rows'
      end
  end.

Fixpoint sheets_content (sheets : list (list N * res (list (list pyval)))) : res (list (list N)) :=
  match sheets with
  | [] => Ok []
  | (sheet_name, rows) :: sheets' =>
      rows ← rows;
      let sheet_content := sheet_rows (take 20 rows) in
      content ← sheets_content sheets';
      mret (match sheet_content with
            | [] => content
            | _ => (py "Sheet " ++ sheet_name ++ py ": " ++ join (py " | ") sheet_content) :: content
            end)
  end.

Definition excel_body (w : world) (file_path : list N) : res extracted :=
  workbook ← w_workbook w file_path;
  content ← sheets_content (take 3 workbook);
  let text := join nl content in
  let metadata := [(py "file_type", VStr (py "excel"));
                   (py "sheet_count", VInt (len workbook));
                   (py "char_count", VInt (len text))] in
  mret (slice_to text 3000, metadata).

Definition _extract_excel_content (w : world) (file_path : list N) : res extracted :=
  try_except (excel_body w file_path) on_error.

Fixpoint exif_entries (entries : list (list N * pyval)) (metadata : list (list N * pyval))
    : list (list N * pyval) :=
  match entries with
  | [] => metadata
  | (tag, VStr value) :: entries' =>
      if len value <? 100
      then exif_entries entries' (dict_set (py "exif_" ++ tag) (VStr value) metadata)
      else exif_entries entries' metadata
  | _ :: entries' => exif_entries entries' metadata
  end.

Definition image_body (w : world) (file_path : list N) : res extracted :=
  img ← w_image w file_path;
  let metadata := [(py "file_type", VStr (py "image"));
                   (py "format", img_format img);
                   (py "size", img_size img);
                   (py "mode", img_mode img)] in
  metadata ←
    match img_getexif img with
    | None => mret metadata
    | Some exif =>
        entries ← exif;
        mret (exif_entries entries metadata)
    end;
  mret ([], metadata).

Definition _extract_image_metadata (w : world) (file_path : list N) : res extracted :=
  try_except (image_body w file_path) on_error.

Fixpoint audio_tags (items : list (list N * tag_value)) (metadata : list (list N * pyval))
    : list (list N * pyval) :=
  match items with
  | [] => metadata
  | (key, TagList (v :: _)) :: items' =>
      audio_tags items' (dict_set key (VStr (str_of_val v)) metadata)
  | (key, TagStr s) :: items' => audio_tags items' (dict_set key (VStr s) metadata)
  | _ :: items' => audio_tags items' metadata
  end.

Definition audio_body (w : world) (file_path : list N) : res extracted :=
  audio ← w_audio w file_path;
  match audio with
  | Some a =>
      if au_truth a then
        let metadata := [(py "file_type", VStr (py "audio"));
                         (py "length", au_length a);
                         (py "bitrate", au_bitrate a)] in
        mret ([], audio_tags (au_items a) metadata)
      else mret ([], [(py "file_type", VStr (py "audio"))])
  | None => mret ([], [(py "file_type", VStr (py "audio"))])
  end.

Definition _extract_audio_metadata (w : world) (file_path : list N) : res extracted :=
  try_except (audio_body w file_path) on_error.

Definition video_body (w : world) (file_path : list N) : res extracted :=
  stat ← w_stat w file_path;
  mret ([], [(py "file_type", VStr (py "video")); (py "size_mb", round_mb (st_size stat))]).

Definition _extract_video_metadata (w : world) (file_path : list N) : res extracted :=
  try_except (video_body w file_path) on_error.

(** The content-type variants of the dispatch *)
Inductive file_kind :=
| KText | KPdf | KDocx | KExcel | KImage | KAudio | KVideo | KUnknown.

Definition kind_of (file_ext : list N) : file_kind :=
  if str_in file_ext supported_text_types then KText
  else if str_eqb file_ext (py ".pdf") then KPdf
  else if str_in file_ext [py ".docx"; py ".doc"] then KDocx
  else if str_in file_ext [py ".xlsx"; py ".xls"] then KExcel
  else if str_in file_ext [py ".jpg"; py ".jpeg"; py ".png"; py ".gif"; py ".bmp"; py ".tiff"] then KImage
  else if str_in file_ext [py ".mp3"; py ".wav"; py ".flac"; py ".m4a"; py ".ogg"] then KAudio
  else if str_in file_ext [py ".mp4"; py ".avi"; py ".mov"; py ".mkv"; py ".wmv"] then KVideo
  else KUnknown.


Definition _extract_content_and_metadata (w : world) (file_path : list N) : res extracted :=
  try_except
    (let file_ext := lower (path_suffix file_path) in
     match kind_of file_ext with
     | KText => _extract_text_content w file_path
     | KPdf => _extract_pdf_content w file_path
     | KDocx => _extract_docx_content w file_path
     | KExcel => _extract_excel_content w file_path
     | KImage => _extract_image_metadata w file_path
     | KAudio => _extract_audio_metadata w file_path
     | KVideo => _extract_video_metadata w file_path
     | KUnknown => mret ([], [(py "file_type", VStr file_ext)])
     end)
    (fun e =>
       _ ← py_print (w_stdout w) (py "Error extracting content from " ++ file_path ++
                                  py ": " ++ exc_str e);
       mret ([], [])).

(** *** Processing one file *)

(** The dictionary [file_info] *)
Record file_info := {
  fi_name : list N;
  fi_size : Z;
  fi_modified_time : list N;
  fi_file_type : list N;
  fi_mime_type : list N;
  fi_content_hash : list N;
  fi_description : list N;
  fi_content_text : list N;
  fi_metadata_json : list N;
}.

Definition _process_file (w : world) (ai : client) (file_path : list N)
    : res (option file_info) :=
  try_except
    (stat ← w_stat w file_path;
     let name := path_name file_path in
     let size := st_size stat in
     modified_time ← isoformat (st_mtime stat);
     let file_type := lower (path_suffix file_path) in
     let mime_type := default (py "unknown") (guess_type file_path) in
     let content_hash := _get_file_hash w file_path in
     '(content_text, metadata) ← _extract_content_and_metadata w file_path;
     let metadata_json :=
       match metadata with
       | [] => py "{}"
       | _ => dict_str metadata
       end in
     description ← generate_description (w_stdout w) ai file_path content_text metadata;
     mret (Some {| fi_name := name;
                   fi_size := size;
                   fi_modified_time := modified_time;
                   fi_file_type := file_type;
                   fi_mime_type := mime_type;
                   fi_content_hash := content_hash;
                   fi_description := description;
                   fi_content_text := content_text;
                   fi_metadata_json := metadata_json |}))
    (fun e =>
       _ ← py_print (w_stdout w) (py "Error processing file " ++ file_path ++
                                  py ": " ++ exc_str e);
       mret None).

(** *** The store writes of one file: the two statements of [build_catalog] *)

Definition row_of (file_path : list N) (info : file_info) (indexed_time : list N) : file_row :=
  {| r_path := file_path;
     r_name := fi_name info;
     r_size := Some (fi_size info);
     r_modified_time := fi_modified_time info;
     r_file_type := fi_file_type info;
     r_mime_type := fi_mime_type info;
     r_content_hash := fi_content_hash info;
     r_description := fi_description info;
     r_content_text := fi_content_text info;
     r_metadata_json := fi_metadata_json info;
     r_indexed_time := indexed_time |}.

Definition doc_of (info : file_info) : fts_doc :=
  {| d_name := fi_name info;
     d_description := fi_description info;
     d_content_text := fi_content_text info |}.

Definition upsert (db : database) (file_path : list N) (info : file_info)
    (indexed_time : list N) : database :=
  let db := insert_or_replace_file db (row_of file_path info indexed_time) in
  insert_or_replace_fts db (doc_of info).

(** The values of the two statements are bound in the order of their
    [?]s. *)
Definition bind_row (row : file_row) : res unit :=
  _ ← bind_text (r_path row);
  _ ← bind_text (r_name row);
  _ ← match r_size row with Some size => bind_int size | None => Ok tt end;
  _ ← bind_text (r_modified_time row);
  _ ← bind_text (r_file_type row);
  _ ← bind_text (r_mime_type row);
  _ ← bind_text (r_content_hash row);
  _ ← bind_text (r_description row);
  _ ← bind_text (r_content_text row);
  _ ← bind_text (r_metadata_json row);
  bind_text (r_indexed_time row).

Definition bind_doc (doc : fts_doc) : res unit :=
  _ ← bind_text (d_name doc);
  _ ← bind_text (d_description doc);
  bind_text (d_content_text doc).

(** *** [build_catalog]

    The build works on one connection.  The state is the database as that
    connection sees it, the database as of the last [conn.commit()], and
    whatever state the progress callback keeps.  A callback gets
    [(current_file, i, total)] and may raise after having changed its
    state.  [all_files] is the list that [_get_all_files] yields. *)

Section Build.
Context {S : Type}.

Definition callback : Type := list N -> Z -> Z -> S -> S * option PyExc.

Record build_state := {
  bs_db : database;
  bs_committed : database;
  bs_sink : S;
}.

Definition commit (st : build_state) : build_state :=
  {| bs_db := bs_db st; bs_committed := bs_db st; bs_sink := bs_sink st |}.

Definition rollback (st : build_state) : build_state :=
  {| bs_db := bs_committed st; bs_committed := bs_committed st; bs_sink := bs_sink st |}.

Definition with_db (st : build_state) (db : database) : build_state :=
  {| bs_db := db; bs_committed := bs_committed st; bs_sink := bs_sink st |}.

Definition with_sink (st : build_state) (sink : S) : build_state :=
  {| bs_db := bs_db st; bs_committed := bs_committed st; bs_sink := sink |}.

(** A statement of the build changes the state and returns or raises; what
    it has done to the state before it raises stays done. *)
Definition cmd (A : Type) : Type := build_state -> build_state * res A.

#[global] Instance cmd_ret : MRet cmd := fun A a st => (st, Ok a).

#[global] Instance cmd_bind : MBind cmd := fun A B f m st =>
  let (st', r) := m st in
  match r with
  | Ok a => f a st'
  | Raise e => (st', Raise e)
  end.

Definition lift {A} (r : res A) : cmd A := fun st => (st, r).

(** [try: body  except Exception as e: handler e] *)
Definition cmd_try {A} (body : cmd A) (handler : PyExc -> cmd A) : cmd A := fun st =>
  let (st', r) := body st in
  match r with
  | Ok a => (st', Ok a)
  | Raise e => handler e st'
  end.

Definition current_db : cmd database := fun st => (st, Ok (bs_db st)).

(** [if progress_callback: progress_callback(str(file_path), i, total_files)] *)
Definition call_progress (progress_callback : option callback) (file_path : list N)
    (i total_files : Z) : cmd unit := fun st =>
  match progress_callback with
  | Some f =>
      let (sink, raised) := f file_path i total_files (bs_sink st) in
      (with_sink st sink, match raised with Some e => Raise e | None => Ok tt end)
  | None => (st, Ok tt)
  end.

(** [cursor.execute('INSERT OR REPLACE INTO files ...', (...))] *)
Definition execute_insert_file (w : world) (i : Z) (row : file_row) : cmd unit := fun st =>
  match (_ ← bind_row row; store_fault w (InsertFile i)) with
  | Ok _ => (with_db st (insert_or_replace_file (bs_db st) row), Ok tt)
  | Raise e => (st, Raise e)
  end.

(** [cursor.execute('INSERT OR REPLACE INTO files_fts ...', (...))] *)
Definition execute_insert_fts (w : world) (i : Z) (doc : fts_doc) : cmd unit := fun st =>
  match (_ ← bind_doc doc; store_fault w (InsertFts i)) with
  | Ok _ => (with_db st (insert_or_replace_fts (bs_db st) doc), Ok tt)
  | Raise e => (st, Raise e)
  end.

(** [conn.commit()]; a commit that fails leaves the transaction open. *)
Definition conn_commit (w : world) (s : statement) : cmd unit := fun st =>
  match w_store_fault w s with
  | Some e => (st, Raise e)
  | None => (commit st, Ok tt)
  end.

(** The [try] block of one iteration.  An indexed file ends the iteration
    at [continue], before the commit. *)
Definition iteration_try (w : world) (ai : client) (progress_callback : option callback)
    (total_files : Z) (i : Z) (file_path : list N) : cmd unit :=
  _ ← call_progress progress_callback file_path i total_files;
  db ← current_db;
  if _is_file_already_indexed w db i file_path then mret tt
  else
    file_info ← lift (_process_file w ai file_path);
    _ ← match file_info with
        | Some info =>
            _ ← execute_insert_file w i (row_of file_path info (w_now w i));
            execute_insert_fts w i (doc_of info)
        | None => mret tt
        end;
    if i mod 100 =? 0 then conn_commit w (Commit i) else mret tt.

(** The text [f"\u274c Error processing {file_path}: {e}"] of the handler *)
Definition failure_note (file_path : list N) (e : PyExc) : list N :=
  [10060%N] ++ py " Error processing " ++ file_path ++ py ": " ++ exc_str e.

(** One iteration: [try: ...  except Exception as e: print(...); continue].
    It raises when the [print] of the handler does. *)
Definition iteration_body (w : world) (ai : client) (progress_callback : option callback)
    (total_files : Z) (i : Z) (file_path : list N) : cmd unit :=
  cmd_try (iteration_try w ai progress_callback total_files i file_path)
    (fun e => lift (py_print (w_stdout w) (failure_note file_path e))).

(** [for i, file_path in enumerate(all_files): ...] from the index [i] on *)
Fixpoint build_loop (w : world) (ai : client) (progress_callback : option callback)
    (total_files : Z) (i : Z) (all_files : list (list N)) : cmd unit :=
  match all_files with
  | [] => mret tt
  | file_path :: rest =>
      _ ← iteration_body w ai progress_callback total_files i file_path;
      build_loop w ai progress_callback total_files (i + 1) rest
  end.

(** [sqlite3.connect(self.db_path)]: a new connection, with no transaction
    open; the database it finds, [bs_db], is the committed one. *)
Definition connect_db (w : world) : cmd unit := fun st =>
  match w_store_fault w Connect with
  | Some e => (st, Raise e)
  | None => (commit st, Ok tt)
  end.

(** [with sqlite3.connect(self.db_path) as conn: block].  Leaving the block
    commits, which finds nothing to commit after the final commit of the
    block; when the block raises, the transaction is rolled back and the
    exception passes. *)
Definition with_connection (w : world) (block : cmd unit) : cmd unit :=
  _ ← connect_db w;
  cmd_try block (fun e st => (rollback st, Raise e)).

(** The build of the directory [directory_path] *)
Definition build_catalog (w : world) (ai : client) (progress_callback : option callback)
    (directory_path : list N) (all_files : list (list N)) : cmd unit :=
  _ ← lift (py_print (w_stdout w)
              ([128269%N] ++ py " Starting catalog build for: " ++ directory_path));
  let total_files := len all_files in
  _ ← lift (py_print (w_stdout w)
              ([128202%N] ++ py " Found " ++ str_of_Z total_files ++ py " files to process"));
  _ ← with_connection w
        (_ ← build_loop w ai progress_callback total_files 0 all_files;
         conn_commit w FinalCommit);
  lift (py_print (w_stdout w) ([9989%N] ++ py " Catalog build complete!")).

End Build.

(** *** [_get_all_files]

    A directory as [os.walk] sees it: the entries that are directories, by
    name and in the order of the listing, and the names of the other
    entries.  A symbolic link to a directory is listed among the
    directories but not entered ([None]); a directory that cannot be
    listed has no entries.  A path is the list of its parts, so that
    [Path(root) / file] is [root ++ [file]]. *)
#[local] Unset Elimination Schemes.
Inductive tree :=
| Dir (dirs : list (list N * option tree)) (files : list (list N)).
#[local] Set Elimination Schemes.

Definition hidden (name : list N) : bool := starts_with (py ".") name.

Definition ignored_dirs : list (list N) :=
  [py "__pycache__"; py "node_modules"; py ".git"; py ".svn"; py "venv"; py "env"].

(** The filter that prunes [dirs] in place *)
Definition keep_dir (d : list N) : bool := negb (hidden d) && negb (str_in d ignored_dirs).

Fixpoint _get_all_files (root : list (list N)) (t : tree) : list (list (list N)) :=
  match t with
  | Dir dirs files =>
      map (fun file => root ++ [file]) (List.filter (fun file => negb (hidden file)) files) ++
      (fix walk_dirs (ds : list (list N * option tree)) : list (list (list N)) :=
         match ds with
         | [] => []
         | (d, sub) :: ds' =>
             (if keep_dir d
              then match sub with
                   | Some t' => _get_all_files (root ++ [d]) t'
                   | None => []
                   end
              else []) ++ walk_dirs ds'
         end) dirs
  end.

End WithRuntime.
End CatalogBuilder.
Import CatalogBuilder.

(** A runtime for evaluating the definitions on ASCII input: no digit,
    decimal or case mapping above ASCII, no limit on the digits of an
    [int], the byte stream itself in place of its MD5 digest, and plain
    stand-ins for the remaining printers. *)
Definition ascii_runtime : PyRuntime :=
  {| u_isdigit := fun _ => false;
     u_decimal := fun _ => None;
     u_lower := fun s => s;
     int_max_str_digits := 0;
     md5 := fun b => b;
     md5_state := list N;
     md5_new := [];
     md5_update := fun st chunk => st ++ chunk;
     md5_hexdigest := fun st => st;
     md5_streamed := ltac:(
       intros chunks;
       assert (forall acc : list N,
                 fold_left (fun st chunk : list N => st ++ chunk) chunks acc =
                 acc ++ concat chunks) as H
         by (induction chunks as [|c chunks IH]; intros acc; simpl;
             [by rewrite app_nil_r | by rewrite IH, app_assoc]);
       exact (H []));
     utf8_decode_ignore := fun b => b;
     guess_type := fun _ => None;
     isoformat := fun t => Ok (str_of_Z t);
     utf8_encode_error := fun s =>
       mk_exc "UnicodeEncodeError" (py "'utf-8' codec can't encode: surrogates not allowed");
     dict_str := fun d => concat (map (fun kv => fst kv ++ py "=" ++ str_of_val (snd kv) ++ py ";") d);
     round_mb := fun size => VInt (size / 1048576) |}.

(** * Vocabulary of the statements *)

(** [sub] occurs in [s] *)
Definition occurs (sub s : list N) : Prop := exists a b, s = a ++ sub ++ b.

(** File-size formatting in the words of the specification: the value is
    the size as a float ([float_of_int], the size itself below [2^53]); it
    is divided by 1024 from unit to unit, and printed with one decimal
    place at the first unit where it is below 1024, or in TB. *)
Definition format_size_spec (size : option Z) : list N :=
  match size with
  | None => py "Unknown"
  | Some n =>
      let x := float_of_int n in
      if x <? 1024 then one_decimal x 1 ++ py " B"
      else if x <? 1024 ^ 2 then one_decimal x 1024 ++ py " KB"
      else if x <? 1024 ^ 3 then one_decimal x (1024 ^ 2) ++ py " MB"
      else if x <? 1024 ^ 4 then one_decimal x (1024 ^ 3) ++ py " GB"
      else one_decimal x (1024 ^ 4) ++ py " TB"
  end.

(** The summary of a catalog entry *)
Definition summary_of (file_info : file_desc) : file_summary :=
  {| s_name := fd_name file_info;
     s_path := fd_path file_info;
     s_description := fd_description file_info;
     s_file_type := fd_file_type file_info;
     s_size := _format_file_size (fd_size file_info) |}.

(** [num] is a valid 1-based index into a list of [n] candidates *)
Definition in_range (n : Z) (num : Z) : bool := (1 <=? num) && (num <=? n).

Definition no_files_message : list N :=
  py "No files have been cataloged yet. Please wait for the catalog to complete.".

(** The bound on the extracted text of each content type: the cut-off of
    the extractor, and for plain text the three characters of the ellipsis
    that it appends after the cut *)
Definition text_cap (k : file_kind) : Z :=
  match k with
  | KText => 10003
  | KPdf => 5000
  | KDocx => 5000
  | KExcel => 3000
  | _ => 0
  end.


(** What the full-text index has to hold for a row of [files] *)
Definition doc_of_row (r : file_row) : fts_doc :=
  {| d_name := r_name r;
     d_description := r_description r;
     d_content_text := r_content_text r |}.

(** The index and the table in lockstep: the index holds a document for a
    rowid exactly when [files] has the row with that id, and the document
    is made of the name, description and text of that row. *)
Definition fts_lockstep (db : database) : Prop :=
  forall id, files_fts db !! id = doc_of_row <$> row_by_id db id.

(** A rowid of the index without a row in [files] *)
Definition orphan (db : database) (id : Z) : Prop :=
  is_Some (files_fts db !! id) /\ row_by_id db id = None.

(** The ids of [files] are pairwise different. *)
Definition ids_ok (db : database) : Prop :=
  NoDup (map fst (Store.files db)).

(** The digest stored for a path is the digest of the file as it is now. *)
Definition stored_current `{RT : PyRuntime} (w : world) (db : database) (file_path : list N) : Prop :=
  select_content_hash db file_path = Some (_get_file_hash w file_path).

(** The file [file] lies in the directory reached from the top of the tree
    through the directories [ds]. *)
Inductive file_at : tree -> list (list N) -> list N -> Prop :=
| file_here dirs files file :
    In file files -> file_at (Dir dirs files) [] file
| file_below dirs files d t ds file :
    In (d, Some t) dirs -> file_at t ds file -> file_at (Dir dirs files) (d :: ds) file.

(** What the walk yields below the directories [ds] of [root] *)
Definition walk_dirs (root : list (list N)) (ds : list (list N * option tree))
    : list (list (list N)) :=
  flat_map (fun e : list N * option tree =>
              if keep_dir (fst e)
              then match snd e with
                   | Some t' => _get_all_files (root ++ [fst e]) t'
                   | None => []
                   end
              else []) ds.

(** One row per path, and one row per id *)
Definition catalog_ok (db : database) : Prop :=
  NoDup (map (fun r : Z * file_row => r_path (snd r)) (Store.files db)) /\
  NoDup (map fst (Store.files db)).

(** Every stored excerpt, in the table and in the index, has at most
    10003 characters. *)
Definition excerpts_bounded (db : database) : Prop :=
  Forall (fun r : Z * file_row => len (r_content_text (snd r)) <= 10003) (Store.files db) /\
  map_Forall (fun (_ : Z) doc => len (d_content_text doc) <= 10003) (files_fts db).

(** The catalog has no row for the path. *)
Definition absent (db : database) (file_path : list N) : Prop :=
  forall r, In r (Store.files db) -> r_path (snd r) <> file_path.

(** An entry of the metadata of an image: one of the four keys of the
    image itself, or an EXIF tag under [exif_] with a string of fewer than
    100 characters *)
Definition exif_ok (kv : list N * pyval) : Prop :=
  In (fst kv) [py "file_type"; py "format"; py "size"; py "mode"] \/
  exists tag value, fst kv = py "exif_" ++ tag /\ snd kv = VStr value /\ len value < 100.



(** The value of a string of ASCII digits read from the left, above [acc] *)
Definition digits_val (acc : Z) (cs : list N) : Z :=
  fold_left (fun a c => 10 * a + Z.of_N (c - 48)) cs acc.

(** A string of ASCII digits that is not empty *)
Definition digit_string (s : list N) : Prop := s <> [] /\ forallb ascii_digit s = true.







(** No statement meets an error of the store. *)
Definition store_answers (w : world) : Prop := forall s, w_store_fault w s = None.

(** The lookups and the insertions into the index meet no error of the
    store. *)
Definition index_answers (w : world) : Prop :=
  forall i, w_store_fault w (Select i) = None /\ w_store_fault w (InsertFts i) = None.

(** Nothing stands in the way of storing [file_path] as the file number
    [i]: processing it gives a record (its [stat] succeeds, its time stamp
    converts, a description comes back), the values of the row can be
    bound, and the insertion into [files] meets no error of the store. *)
Definition storable `{RT : PyRuntime} (w : world) (ai : client) (i : Z) (file_path : list N)
    : Prop :=
  exists info,
    _process_file w ai file_path = Ok (Some info) /\
    bind_row (row_of file_path info (w_now w i)) = Ok tt /\
    w_store_fault w (InsertFile i) = None.

(** The change detector skips the path: its [stat] succeeds, the lookup
    succeeds, and the digest stored for it is the digest the file has
    now. *)
Definition skipped `{RT : PyRuntime} (w : world) (db : database) (i : Z) (file_path : list N)
    : Prop :=
  (exists stat, w_stat w file_path = Ok stat) /\
  utf8_encodable file_path = true /\
  w_store_fault w (Select i) = None /\
  select_content_hash db file_path = Some (_get_file_hash w file_path).



(** ** Concrete inputs *)

(** A client whose backend cannot be reached *)
Definition offline_client : client :=
  {| ai_type := py "local";
     call_api := fun _ => Raise (mk_exc "ConnectionError" []);
     call_local := fun _ => Raise (mk_exc "ConnectionError" []) |}.

Definition not_found : PyExc :=
  mk_exc "FileNotFoundError" (py "No such file or directory").

(** A directory with the one file [/docs/a.txt] of the given content *)
Definition one_file_world (content : list N) : world :=
  {| w_stat := fun p =>
       if str_eqb p (py "/docs/a.txt")
       then Ok {| st_size := len content; st_mtime := 0 |}
       else Raise not_found;
     w_read := fun p =>
       if str_eqb p (py "/docs/a.txt") then Ok content else Raise not_found;
     w_pdf := fun _ => Raise not_found;
     w_docx := fun _ => Raise not_found;
     w_workbook := fun _ => Raise not_found;
     w_image := fun _ => Raise not_found;
     w_audio := fun _ => Raise not_found;
     w_now := fun i => str_of_Z i;
     w_stdout := fun _ => None;
     w_store_fault := fun _ => None |}.


(** The same directory when [/docs/a.txt] may not be read: [stat] succeeds
    and [open] raises. *)
Definition unreadable_world : world :=
  {| w_stat := fun p =>
       if str_eqb p (py "/docs/a.txt")
       then Ok {| st_size := 2; st_mtime := 0 |}
       else Raise not_found;
     w_read := fun _ => Raise (mk_exc "PermissionError" (py "Permission denied"));
     w_pdf := fun _ => Raise not_found;
     w_docx := fun _ => Raise not_found;
     w_workbook := fun _ => Raise not_found;
     w_image := fun _ => Raise not_found;
     w_audio := fun _ => Raise not_found;
     w_now := fun i => str_of_Z i;
     w_stdout := fun _ => None;
     w_store_fault := fun _ => None |}.

(** A callback that raises on its first call only; its state records
    whether it has been called. *)
Definition flaky_callback : @callback bool :=
  fun current_file i total called =>
    (true, if called then None else Some (mk_exc "RuntimeError" (py "not ready"))).

Definition start_state (db : database) : @build_state unit :=
  {| bs_db := db; bs_committed := db; bs_sink := tt |}.

(** The catalog after a first build over [/docs/a.txt] holding [v1], and
    after a second build once the file holds [v2] *)
Definition db_first_build : database :=
  bs_db (fst (@build_catalog ascii_runtime unit (one_file_world (py "v1")) offline_client None
                (py "/docs") [py "/docs/a.txt"] (start_state empty_db))).

Definition db_second_build : database :=
  bs_db (fst (@build_catalog ascii_runtime unit (one_file_world (py "v2")) offline_client None
                (py "/docs") [py "/docs/a.txt"] (start_state db_first_build))).

(** A standard output in UTF-8 with the error handler [strict], the
    default of a terminal or a pipe in a UTF-8 locale *)
Definition strict_stdout : stdout := fun text =>
  if utf8_encodable text then None
  else Some (mk_exc "UnicodeEncodeError"
               (py "'utf-8' codec can't encode: surrogates not allowed")).

(** A file name that is not valid UTF-8: [os.walk] yields the byte [0xFF]
    of the name as the surrogate U+DCFF. *)
Definition legacy_name : list N := py "/docs/" ++ [56575%N] ++ py ".txt".

(** A directory with the two text files [legacy_name] and [/docs/b.txt],
    scanned by a process with such a standard output *)
Definition legacy_name_world : world :=
  {| w_stat := fun p =>
       if str_eqb p legacy_name || str_eqb p (py "/docs/b.txt")
       then Ok {| st_size := 2; st_mtime := 0 |}
       else Raise not_found;
     w_read := fun p =>
       if str_eqb p legacy_name || str_eqb p (py "/docs/b.txt")
       then Ok (py "v1")
       else Raise not_found;
     w_pdf := fun _ => Raise not_found;
     w_docx := fun _ => Raise not_found;
     w_workbook := fun _ => Raise not_found;
     w_image := fun _ => Raise not_found;
     w_audio := fun _ => Raise not_found;
     w_now := fun i => str_of_Z i;
     w_stdout := strict_stdout;
     w_store_fault := fun _ => None |}.


(** The same directory with a text file of 10001 characters *)
Definition big_text_world : world := one_file_world (repeat 97%N (Z.to_nat 10001)).

(** A catalog of ten files [f1] ... [f10] with their index *)
Definition demo_row (i : Z) : Z * file_row :=
  (i, {| r_path := py "/docs/f" ++ str_of_Z i;
         r_name := py "f" ++ str_of_Z i;
         r_size := Some (512 * i);
         r_modified_time := py "0";
         r_file_type := py "";
         r_mime_type := py "unknown";
         r_content_hash := py "";
         r_description := py "report " ++ str_of_Z i;
         r_content_text := py "";
         r_metadata_json := py "{}";
         r_indexed_time := py "0" |}).

Definition demo_db : database :=
  let rows := map demo_row [1; 2; 3; 4; 5; 6; 7; 8; 9; 10] in
  {| Store.files := rows;
     files_seq := 10;
     files_fts := list_to_map (map (fun r => (fst r, doc_of_row (snd r))) rows);
     last_insert_rowid := 10 |}.

(** A backend that always answers with the same text *)
Definition canned_client (answer : list N) : client :=
  {| ai_type := py "local";
     call_api := fun _ => Raise (mk_exc "ConnectionError" []);
     call_local := fun _ => Ok answer |}.

(** An engine over a catalog, with an index that matches the rows 1 and 3
    for the expression [budget OR report], the row 3 the better, and
    matches nothing else *)
Definition demo_engine (catalog : res database) (ai : client) : engine :=
  {| connect := catalog;
     fts5_match := fun index expression =>
       if str_eqb expression (py "budget OR report")
       then Ok [(1, (-6 # 5)%Q); (3, (-5 # 2)%Q)]
       else Ok [];
     ai_client := ai |}.

Definition locked : PyExc := mk_exc "OperationalError" (py "database is locked").

(** Sixty candidates *)
Definition sixty_candidates : list file_desc :=
  map (fun i => {| fd_id := i;
                   fd_name := py "f" ++ str_of_Z i;
                   fd_path := py "/docs/f" ++ str_of_Z i;
                   fd_description := py "report";
                   fd_file_type := py "";
                   fd_size := None |})
      (map Z.of_nat (seq 1 60)).

(** A directory tree with a source directory, two directories that the
    walk prunes, a link to a directory, and a hidden file at each level *)
Definition demo_tree : tree :=
  Dir [(py "src", Some (Dir [] [py "main.py"; py ".cache"]));
       (py ".git", Some (Dir [] [py "config"]));
       (py "node_modules", Some (Dir [] [py "x.js"]));
       (py "link", None)]
      [py "readme.md"; py ".env"].

(** An image with two EXIF entries, and an audio file one of whose tags is
    named [file_type] *)
Definition demo_image : image :=
  {| img_format := VStr (py "JPEG");
     img_size := VOther (py "(640, 480)");
     img_mode := VStr (py "RGB");
     img_getexif := Some (Ok [(py "Make", VStr (py "ACME")); (py "XResolution", VInt 72)]) |}.

Definition demo_audio : audio_file :=
  {| au_truth := true;
     au_length := VOther (py "12.5");
     au_bitrate := VInt 128000;
     au_items := [(py "title", TagStr (py "Song"));
                  (py "file_type", TagList [VStr (py "flac")])] |}.

(** A directory of media files: every PDF has six pages, of which the last
    cannot be extracted *)
Definition media_world : world :=
  {| w_stat := fun _ => Raise not_found;
     w_read := fun _ => Raise not_found;
     w_pdf := fun _ => Ok [Ok (py "p1"); Ok (py "p2"); Ok (py "p3"); Ok (py "p4");
                           Ok (py "p5"); Raise not_found];
     w_docx := fun _ => Raise not_found;
     w_workbook := fun _ => Raise not_found;
     w_image := fun _ => Ok demo_image;
     w_audio := fun _ => Ok (Some demo_audio);
     w_now := fun i => str_of_Z i;
     w_stdout := fun _ => None;
     w_store_fault := fun _ => None |}.


(** * Properties *)

(** ** Strings *)

Lemma starts_with_iff (sub s : list N) :
  starts_with sub s = true <-> exists t, s = sub ++ t.
Proof.
  revert s. induction sub as [|c sub IH]; intros s; simpl.
  - split; [intros _; by exists s | done].
  - destruct s as [|d s].
    + split; [done | intros [t Ht]; discriminate].
    + rewrite andb_true_iff, N.eqb_eq, IH. split.
      * intros [-> [t ->]]. by exists t.
      * intros [t Ht]. injection Ht as -> ->. eauto.
Qed.

Lemma find_from_range (sub s : list N) (i : Z) :
  find_from sub s i = -1 \/ i <= find_from sub s i.
Proof.
  revert i. induction s as [|d s IH]; intros i; simpl.
  - destruct (starts_with sub []); [right; lia | by left].
  - destruct (starts_with sub (d :: s)); [right; lia |].
    destruct (IH (i + 1)) as [H | H]; [by left | right; lia].
Qed.

Lemma find_from_none_iff (sub s : list N) (i : Z) :
  0 <= i ->
  find_from sub s i = -1 <-> forall a b, s <> a ++ sub ++ b.
Proof.
  revert i. induction s as [|d s IH]; intros i Hi.
  - simpl. destruct (starts_with sub []) eqn:E.
    + apply starts_with_iff in E as [t Ht]. split; [lia |].
      intros H. exfalso. apply (H [] t). exact Ht.
    + split; [| done]. intros _ a b Hab.
      assert (starts_with sub [] = true) as E'; [| congruence].
      apply starts_with_iff. symmetry in Hab.
      apply app_eq_nil in Hab as [_ Hab]. apply app_eq_nil in Hab as [-> _].
      by exists [].
  - simpl. destruct (starts_with sub (d :: s)) eqn:E.
    + apply starts_with_iff in E as [t Ht]. split; [lia |].
      intros H. exfalso. apply (H [] t). exact Ht.
    + rewrite (IH (i + 1)) by lia. split.
      * intros H a b Hab. destruct a as [|x a].
        -- assert (starts_with sub (d :: s) = true) as E'; [| congruence].
           apply starts_with_iff. by exists b.
        -- injection Hab as -> Hab. by apply (H a b).
      * intros H a b Hab. apply (H (d :: a) b). by rewrite Hab.
Qed.

(** [s.find(sub)] is [-1] exactly when [sub] does not occur in [s]. *)
Lemma find_none_iff (s sub : list N) :
  find s sub = -1 <-> forall a b, s <> a ++ sub ++ b.
Proof. apply find_from_none_iff. lia. Qed.

(** ** The parser of ranking responses *)

Section ParseResponse.
Context `{RT : PyRuntime}.

Lemma comprehension_if_elements {A B} (f : A -> res B) (cond : A -> bool) (l : list A)
    (ys : list B) :
  comprehension_if f cond l = Ok ys ->
  Forall (fun y => exists x, x ∈ l /\ cond x = true /\ f x = Ok y) ys.
Proof.
  revert ys. induction l as [|x l IH]; intros ys; simpl.
  - intros [= <-]. constructor.
  - destruct (cond x) eqn:Ec.
    + destruct (f x) as [y|e] eqn:Ef; [| done].
      destruct (comprehension_if f cond l) as [ys'|e]; [| done].
      intros [= <-]. constructor.
      * exists x. split; [left | done].
      * eapply Forall_impl; [by apply IH |].
        intros y' (x' & Hin & Hc & Hf). exists x'. split; [by right | done].
    + intros H. eapply Forall_impl; [by apply IH |].
      intros y' (x' & Hin & Hc & Hf). exists x'. split; [by right | done].
Qed.

Lemma scan_digits_nonneg (s : list N) (prev : N) (acc ndig v ndig' : Z) (rest : list N) :
  0 <= acc ->
  scan_digits prev acc ndig s = Some (v, ndig', rest) ->
  0 <= v.
Proof.
  revert prev acc ndig. induction s as [|c s IH]; intros prev acc ndig Hacc; simpl.
  - destruct (prev =? 95)%N; [done |]. intros [= <- _ _]. done.
  - destruct (ascii_digit c).
    + apply IH. lia.
    + destruct (c =? 95)%N.
      * destruct (prev =? 95)%N; [done |]. by apply IH.
      * destruct (prev =? 95)%N; [done |]. intros [= <- _ _]. done.
Qed.

Lemma to_ascii_decimal_no_minus (s : list N) :
  forallb char_isdigit s = true ->
  Forall (fun c => c <> 45%N) (to_ascii_decimal s).
Proof.
  induction s as [|c s IH]; simpl; [constructor |].
  rewrite andb_true_iff. intros [Hc Hs]. unfold char_isdigit in Hc.
  destruct (is_ascii c) eqn:Ea.
  - constructor; [| by apply IH].
    unfold ascii_digit in Hc. apply andb_true_iff in Hc as [Hc _].
    apply N.leb_le in Hc. lia.
  - destruct (isspace c).
    + constructor; [lia | by apply IH].
    + destruct (u_decimal c) as [d|].
      * constructor; [lia | by apply IH].
      * constructor; [lia | constructor].
Qed.

Lemma skip_c_space_Forall (P : N -> Prop) (s : list N) :
  Forall P s -> Forall P (skip_c_space s).
Proof.
  induction 1 as [|c s Hc Hs IH]; simpl; [constructor |].
  destruct (c_isspace c); [done | by constructor].
Qed.

(** [int] of a string that passes [isdigit] is never negative. *)
Lemma py_int_isdigit_nonneg (s : list N) (n : Z) :
  isdigit s = true -> py_int s = Ok n -> 0 <= n.
Proof.
  intros Hd. assert (forallb char_isdigit s = true) as Hall.
  { destruct s; [done | exact Hd]. }
  pose proof (skip_c_space_Forall _ _ (to_ascii_decimal_no_minus s Hall)) as Hno.
  unfold py_int.
  assert (exists t, parse_sign (skip_c_space (to_ascii_decimal s)) = (false, t)) as [t ->].
  { unfold parse_sign. destruct Hno as [|c u Hc _]; [by eexists |].
    destruct (c =? 43)%N; [by eexists |].
    destruct (c =? 45)%N eqn:E; [| by eexists]. apply N.eqb_eq in E. done. }
  destruct (leading_underscore t); [done |].
  destruct (scan_digits 0 0 0 t) as [[[v nd] rest]|] eqn:Es; [| done].
  apply scan_digits_nonneg in Es; [| lia].
  destruct (nd =? 0); [done |]. destruct (skip_c_space rest); [| done].
  destruct (_ && _); [done |]. by intros [= <-].
Qed.

Lemma find_occurs (s sub : list N) : occurs sub s -> (find s sub =? -1) = false.
Proof.
  intros (a & b & Hab). apply Z.eqb_neq. intros H.
  pose proof (proj1 (find_none_iff _ _) H) as H'. by apply (H' a b).
Qed.

Lemma find_not_occurs (s sub : list N) : ~ occurs sub s -> (find s sub =? -1) = true.
Proof.
  intros H. apply Z.eqb_eq, find_none_iff. intros a b Hab. apply H. by exists a, b.
Qed.

(** C10.  A response that lacks the marker [MESSAGE:] or the marker [FILES:]
    is returned whole as the message, with an empty selection, so that the
    ranking stage selects no file.  When both
    markers occur, every index of the selection is the [int] of a
    comma-separated token of the text after [FILES:] that, stripped,
    passes [isdigit] (it is not empty and all its characters are digits),
    and no index is negative. *)
Theorem parse_search_response_markers (response query : list N) :
  (~ occurs (py "MESSAGE:") response \/ ~ occurs (py "FILES:") response ->
   _parse_search_response response query =
     {| ar_message := Some response; ar_file_numbers := Some []; ar_files := None |} /\
   forall file_descriptions,
     ai_matches (_parse_search_response response query) file_descriptions = Ok [])
  /\
  (occurs (py "MESSAGE:") response -> occurs (py "FILES:") response ->
   exists message file_numbers,
     _parse_search_response response query =
       {| ar_message := Some message; ar_file_numbers := Some file_numbers; ar_files := None |} /\
     Forall (fun n =>
               0 <= n /\
               exists tok,
                 tok ∈ split_on 44%N (strip (slice_from response (find response (py "FILES:") + 6))) /\
                 isdigit (strip tok) = true /\
                 Forall (fun c => char_isdigit c = true) (strip tok) /\
                 py_int (strip tok) = Ok n)
            file_numbers).
Proof.
  unfold _parse_search_response. cbv zeta. split.
  - intros H.
    assert (_parse_search_response response query =
            {| ar_message := Some response; ar_file_numbers := Some []; ar_files := None |})
      as Hp.
    { unfold _parse_search_response. cbv zeta.
      destruct H as [H | H]; apply find_not_occurs in H; rewrite H.
      - reflexivity.
      - by rewrite andb_false_r. }
    split; [exact Hp |]. intros file_descriptions.
    unfold _parse_search_response in Hp. cbv zeta in Hp. by rewrite Hp.
  - intros Hm Hf. rewrite (find_occurs _ _ Hm), (find_occurs _ _ Hf).
    cbn [negb andb]. unfold try_value at 1. cbn [mret res_ret].
    eexists _, _. split; [reflexivity |].
    destruct (negb _); [| constructor].
    unfold try_value.
    destruct (comprehension_if _ _ _) as [ys|e] eqn:Ec; [| constructor].
    apply comprehension_if_elements in Ec.
    eapply Forall_impl; [exact Ec |]. cbv beta.
    intros n (tok & Hin & Hd & Hint). split.
    + by eapply py_int_isdigit_nonneg.
    + exists tok. repeat split; try done.
      apply Forall_forall. intros c Hc.
      assert (forallb char_isdigit (strip tok) = true) as Hall.
      { unfold isdigit in Hd. destruct (strip tok); [done | exact Hd]. }
      rewrite forallb_forall in Hall. apply Hall. by apply list_elem_of_In.
Qed.

End ParseResponse.

(** ** File sizes *)

Section FileSize.

(** A size below [2^53] is a double: the conversion is exact. *)
Lemma float_of_int_exact (n : Z) : Z.abs n < 2 ^ 53 -> float_of_int n = n.
Proof.
  intros H. unfold float_of_int. cbv zeta.
  destruct (Z.log2 (Z.abs n) + 1 - 53 <=? 0) eqn:E; [done |].
  apply Z.leb_gt in E.
  assert (0 < Z.abs n) as Hpos.
  { destruct (Z.eq_dec (Z.abs n) 0) as [H0 | H0]; [rewrite H0 in E; simpl in E |]; lia. }
  pose proof (proj1 (Z.log2_lt_pow2 (Z.abs n) 53 Hpos) H). lia.
Qed.

Lemma float_of_int_lt_1024 (n : Z) : (n <? 1024) = (float_of_int n <? 1024).
Proof.
  unfold float_of_int. cbv zeta.
  destruct (Z.log2 (Z.abs n) + 1 - 53 <=? 0) eqn:E; [done |].
  apply Z.leb_gt in E.
  set (e := Z.log2 (Z.abs n) + 1 - 53) in *.
  assert (0 < Z.abs n) as Hpos.
  { destruct (Z.eq_dec (Z.abs n) 0) as [H0 | H0]; [subst e; rewrite H0 in E; simpl in E |]; lia. }
  assert (0 < 2 ^ e) as Hpow by (apply Z.pow_pos_nonneg; lia).
  assert (2 ^ 52 <= Z.abs n / 2 ^ e) as Hq.
  { apply Z.div_le_lower_bound; [lia |].
    rewrite Z.mul_comm, <- Z.pow_add_r by lia.
    replace (52 + e) with (Z.log2 (Z.abs n)) by (subst e; lia).
    apply Z.log2_spec. lia. }
  match goal with |- context [Z.sgn n * (?x * _)] => set (q' := x) end.
  assert (2 ^ 52 <= q') as Hq' by (subst q'; destruct (_ || _); lia).
  assert (2 ^ 52 <= q' * 2 ^ e) as Hv by nia.
  assert (2 ^ 53 <= Z.abs n) as Hbig.
  { assert (53 <= Z.log2 (Z.abs n)) as Hl by (subst e; lia).
    apply Z.log2_le_pow2 in Hl; lia. }
  change (2 ^ 52) with 4503599627370496 in *.
  change (2 ^ 53) with 9007199254740992 in *.
  destruct (Z.ltb_spec n 1024) as [Hn | Hn]; symmetry.
  - apply Z.ltb_lt. assert (Z.sgn n = -1) as -> by lia. lia.
  - apply Z.ltb_ge. assert (Z.sgn n = 1) as -> by lia. lia.
Qed.

(** C7.  [_format_file_size] divides by 1024 across B, KB, MB, GB, TB,
    prints one decimal place and stops at the first unit where the value
    is below 1024; no size gives [Unknown]; 0 gives [0.0 B] and 1536 gives
    [1.5 KB]. *)
Theorem format_file_size_units :
  (forall size, _format_file_size size = format_size_spec size) /\
  _format_file_size None = py "Unknown" /\
  _format_file_size (Some 0) = py "0.0 B" /\
  _format_file_size (Some 1536) = py "1.5 KB".
Proof.
  split; [| by vm_compute].
  intros [n|]; [| done].
  unfold _format_file_size, format_size_spec. cbv zeta.
  cbn [format_loop lt_1024 div_1024 format_1f].
  rewrite <- float_of_int_lt_1024.
  destruct (n <? 1024); [done |].
  change (1024 * 2 ^ 10) with (1024 ^ 2). change (2 ^ 10) with 1024.
  destruct (float_of_int n <? 1024 ^ 2); [done |].
  change (1024 * 2 ^ (10 + 10)) with (1024 ^ 3). change (2 ^ (10 + 10)) with (1024 ^ 2).
  destruct (float_of_int n <? 1024 ^ 3); [done |].
  change (1024 * 2 ^ (10 + 10 + 10)) with (1024 ^ 4).
  change (2 ^ (10 + 10 + 10)) with (1024 ^ 3).
  destruct (float_of_int n <? 1024 ^ 4); [done |].
  change (2 ^ (10 + 10 + 10 + 10)) with (1024 ^ 4). done.
Qed.

(** The printed number is a nearest tenth of the value. *)
Lemma tenths_nearest (num den : Z) :
  0 <= num -> 0 < den ->
  2 * Z.abs (10 * num - tenths num den * den) <= den.
Proof.
  intros Hn Hd. unfold tenths. cbv zeta. rewrite (Z.abs_eq num) by done.
  pose proof (Z.div_mod (10 * num) den ltac:(lia)) as Hdm.
  pose proof (Z.mod_pos_bound (10 * num) den Hd) as Hr.
  destruct (_ || _) eqn:E.
  - apply orb_true_iff in E as [E | E].
    + apply Z.ltb_lt in E. nia.
    + apply andb_true_iff in E as [E _]. apply Z.eqb_eq in E. nia.
  - apply orb_false_iff in E as [E _]. apply Z.ltb_ge in E. nia.
Qed.

End FileSize.

(** ** The search engine *)

Section Search.
Context `{RT : PyRuntime}.

Lemma list_index_in_range {A} (l : list A) (num : Z) :
  in_range (len l) num = true ->
  exists x, l !! Z.to_nat (num - 1) = Some x /\ list_index l (num - 1) = Ok x.
Proof.
  unfold in_range, len. rewrite andb_true_iff, Z.leb_le, Z.leb_le. intros [H1 H2].
  destruct (lookup_lt_is_Some_2 l (Z.to_nat (num - 1)) ltac:(lia)) as [x Hx].
  exists x. split; [done |]. unfold list_index. cbv zeta.
  destruct (Z.ltb_spec (num - 1) 0); [lia |].
  destruct (Z.leb_spec 0 (num - 1)); [| lia].
  destruct (Z.ltb_spec (num - 1) (Z.of_nat (length l))); [| lia].
  simpl. by rewrite Hx.
Qed.

Lemma get_files_by_numbers_selected (file_numbers : list Z) (file_descriptions : list file_desc) :
  exists l,
    _get_files_by_numbers file_numbers file_descriptions = Ok l /\
    Forall2 (fun num s => exists file_info,
                 file_descriptions !! Z.to_nat (num - 1) = Some file_info /\
                 s = summary_of file_info)
            (List.filter (in_range (len file_descriptions)) file_numbers) l.
Proof.
  induction file_numbers as [|num rest [l [IH1 IH2]]]; simpl.
  - exists []. split; [done | constructor].
  - fold (in_range (len file_descriptions) num).
    destruct (in_range (len file_descriptions) num) eqn:E.
    + destruct (list_index_in_range _ _ E) as (x & Hx & ->). simpl.
      rewrite IH1. simpl. eexists. split; [reflexivity |].
      constructor; [| done]. by exists x.
    + by exists l.
Qed.

Lemma get_files_by_numbers_none (file_numbers : list Z) (file_descriptions : list file_desc) :
  Forall (fun num => num < 1 \/ len file_descriptions < num) file_numbers ->
  _get_files_by_numbers file_numbers file_descriptions = Ok [].
Proof.
  induction 1 as [|num rest Hnum _ IH]; simpl; [done |].
  destruct (Z.leb_spec 1 num); destruct (Z.leb_spec num (len file_descriptions));
    simpl; try done; lia.
Qed.

Lemma ai_matches_ok (response : ai_response) (file_descriptions : list file_desc) :
  exists matched, ai_matches response file_descriptions = Ok matched.
Proof.
  unfold ai_matches. destruct (ar_file_numbers response) as [[|n ns]|]; try by eexists.
  destruct (get_files_by_numbers_selected (n :: ns) file_descriptions) as (l & -> & _).
  by eexists.
Qed.

(** The three ways a query over a non-empty catalog ends. *)
Lemma search_cases (self : engine) (query : list N) :
  let file_descriptions := _get_file_descriptions self in
  let response := search_query (ai_client self) query file_descriptions in
  let not_found := py "I searched for '" ++ query ++ py "' but didn't find any matching files." in
  file_descriptions <> [] ->
  exists matched,
    ai_matches response file_descriptions = Ok matched /\
    ((matched <> [] /\
      search self query =
        Ok {| message := default not_found (ar_message response); files := matched |}) \/
     (matched = [] /\ _fts_search self query = [] /\
      search self query =
        Ok {| message := default not_found (ar_message response); files := [] |}) \/
     (matched = [] /\ _fts_search self query <> [] /\
      search self query =
        Ok {| message := found_message (length (_fts_search self query)) query;
              files := _fts_search self query |})).
Proof.
  intros descs response not_found Hne.
  destruct (ai_matches_ok response descs) as [matched Hm]. exists matched.
  split; [done |]. unfold search. fold descs. fold response.
  destruct descs as [|d ds] eqn:Ed; [done |]. rewrite Hm. cbn [mbind res_bind].
  destruct matched as [|m ms].
  - destruct (_fts_search self query) as [|f fs] eqn:Ef.
    + right; left. done.
    + right; right. done.
  - left. done.
Qed.

(** C5.  Every index outside [[1, N]] is dropped without an error: the
    selection is the list of the candidates at the indices in range, in
    order.  In particular [999] against ten candidates selects nothing, and
    a ranking answer with only such indices makes [search] fall through to
    the lexical search. *)
Theorem out_of_range_indices_discarded (self : engine) (query : list N)
    (file_numbers : list Z) (file_descriptions : list file_desc) :
  (exists l,
     _get_files_by_numbers file_numbers file_descriptions = Ok l /\
     Forall2 (fun num s => exists file_info,
                  file_descriptions !! Z.to_nat (num - 1) = Some file_info /\
                  s = summary_of file_info)
             (List.filter (in_range (len file_descriptions)) file_numbers) l) /\
  (Forall (fun num => num < 1 \/ len file_descriptions < num) file_numbers ->
   _get_files_by_numbers file_numbers file_descriptions = Ok []) /\
  (len file_descriptions = 10 ->
   _get_files_by_numbers [999] file_descriptions = Ok []) /\
  (_get_file_descriptions self = file_descriptions ->
   file_descriptions <> [] ->
   ar_file_numbers (search_query (ai_client self) query file_descriptions) = Some file_numbers ->
   Forall (fun num => num < 1 \/ len file_descriptions < num) file_numbers ->
   exists r, search self query = Ok r /\ files r = _fts_search self query).
Proof.
  split; [apply get_files_by_numbers_selected |].
  split; [apply get_files_by_numbers_none |].
  split.
  - intros H. apply get_files_by_numbers_none. constructor; [lia | constructor].
  - intros Hd Hne Hnums Hout. subst file_descriptions.
    destruct (search_cases self query Hne) as (matched & Hm & Hcases).
    assert (matched = []) as ->.
    { unfold ai_matches in Hm. rewrite Hnums in Hm.
      destruct file_numbers as [|n ns]; [by injection Hm |].
      rewrite (get_files_by_numbers_none _ _ Hout) in Hm. by injection Hm. }
    destruct Hcases as [[? _] | [(_ & Hf & ->) | (_ & Hf & ->)]]; [done | |];
      eexists; (split; [reflexivity |]); simpl; done.
Qed.


Lemma insert_by_name_length (r : Z * file_row) (l : list (Z * file_row)) :
  length (insert_by_name r l) = Datatypes.S (length l).
Proof.
  induction l as [|x l IH]; simpl; [done |].
  destruct (str_leb _ _); simpl; by rewrite ?IH.
Qed.

Lemma order_by_name_length (rows : list (Z * file_row)) :
  length (order_by_name rows) = length rows.
Proof.
  unfold order_by_name.
  assert (forall acc, length (fold_left (fun acc r => insert_by_name r acc) rows acc) =
                      (length rows + length acc)%nat) as H.
  { induction rows as [|r rows IH]; intros acc; simpl; [done |].
    rewrite IH, insert_by_name_length. lia. }
  rewrite H. simpl. lia.
Qed.

(** With nothing in the catalog the lexical search finds nothing. *)
Lemma fts_search_empty_catalog (self : engine) (query : list N) :
  _get_file_descriptions self = [] -> _fts_search self query = [].
Proof.
  unfold _get_file_descriptions, _fts_search.
  destruct (connect self) as [db|e]; simpl; [| done].
  intros H. apply (f_equal length) in H. rewrite length_map, order_by_name_length in H.
  destruct (Store.files db) as [|x rows] eqn:Ef; [| done].
  destruct (fts5_match _ _ _) as [matches|e]; simpl; [| done].
  assert (forall ranked, join_files db ranked = []) as ->; [| done].
  unfold join_files, row_by_id. rewrite Ef.
  induction ranked as [|id ranked IH]; simpl; done.
Qed.

(** C4.  [search] never raises: it always returns a result with a message
    and a list of files, also when the store or the ranking backend raises.
    Whenever the ranking stage gives no valid file, the files returned are
    those of the lexical search over the same query, and when there are
    some the message is the synthesized one; when there are none over a
    non-empty catalog, the message is that of the ranking stage. *)
Theorem search_never_raises_and_falls_back (self : engine) (query : list N) :
  let file_descriptions := _get_file_descriptions self in
  let response := search_query (ai_client self) query file_descriptions in
  exists r,
    search self query = Ok r /\
    (forall e, connect self = Raise e ->
       r = {| message := no_files_message; files := [] |}) /\
    (file_descriptions = [] \/ ai_matches response file_descriptions = Ok [] ->
     files r = _fts_search self query /\
     (files r <> [] ->
      message r = py "I found " ++ str_of_Z (Z.of_nat (length (files r))) ++
                  py " files that might match your search for '" ++ query ++ py "':")) /\
    (file_descriptions <> [] ->
     ai_matches response file_descriptions = Ok [] ->
     files r = [] ->
     message r = default (py "I searched for '" ++ query ++
                          py "' but didn't find any matching files.")
                         (ar_message response)) /\
    (forall e,
       _call_ai (ai_client self) (_create_search_prompt query file_descriptions) = Raise e ->
       files r = _fts_search self query).
Proof.
  cbv zeta.
  destruct (_get_file_descriptions self) as [|d ds] eqn:Ed.
  - exists {| message := no_files_message; files := [] |}.
    pose proof (fts_search_empty_catalog self query Ed) as Hfts.
    split; [unfold search; by rewrite Ed |].
    split; [done |]. split; [| split; [done |]]; by rewrite Hfts.
  - assert (forall e, connect self <> Raise e) as Hconn.
    { intros e He. unfold _get_file_descriptions in Ed.
      rewrite He in Ed. discriminate. }
    pose proof (search_cases self query) as Hcases. cbv zeta in Hcases.
    rewrite Ed in Hcases.
    destruct (Hcases ltac:(done)) as (matched & Hm & Hc). clear Hcases.
    assert (forall e, _call_ai (ai_client self) (_create_search_prompt query (d :: ds)) = Raise e ->
                      matched = []) as Hai.
    { intros e He. unfold search_query in Hm. rewrite He in Hm.
      by injection Hm. }
    rewrite Hm.
    destruct Hc as [(Hmat & ->) | [(-> & Hf & ->) | (-> & Hf & ->)]];
      eexists; (split; [reflexivity |]); cbn [files message];
      (split; [intros e He; by destruct (Hconn e) |]).
    + split; [intros [? | [= ->]]; done |]. split; [intros _ [= ->]; done |].
      intros e He. by destruct Hmat; apply (Hai e).
    + split; [by rewrite Hf |]. split; done.
    + split; [done |]. split; [| done]. intros _ _ H. by destruct Hf.
Qed.

Lemma split_ws_from_terms (cur s : list N) :
  Forall (fun c => isspace c = false) cur ->
  Forall (fun term => term <> [] /\ Forall (fun c => isspace c = false) term)
         (split_ws_from cur s).
Proof.
  revert cur. induction s as [|c s IH]; intros cur Hcur; simpl.
  - destruct cur as [|x cur]; constructor; [| constructor].
    split; [| by apply Forall_rev].
    intros H. apply (f_equal length) in H. rewrite length_rev in H. done.
  - destruct (isspace c) eqn:E.
    + destruct cur as [|x cur]; [by apply IH |].
      constructor; [| by apply IH]. split; [| by apply Forall_rev].
      intros H. apply (f_equal length) in H. rewrite length_rev in H. done.
    + apply IH. by constructor.
Qed.

Lemma split_ws_from_concat (cur s : list N) :
  concat (split_ws_from cur s) = rev cur ++ List.filter (fun c => negb (isspace c)) s.
Proof.
  revert cur. induction s as [|c s IH]; intros cur; simpl.
  - destruct cur; simpl; by rewrite ?app_nil_r.
  - destruct (isspace c) eqn:E; simpl.
    + destruct cur as [|x cur]; simpl; by rewrite IH.
    + rewrite IH. simpl. by rewrite <- app_assoc.
Qed.

















End Search.

(** ** The extractors *)

Section Extractors.
Context `{RT : PyRuntime}.

Lemma len_slice_to (s : list N) (j : Z) : 0 <= j -> len (slice_to s j) <= j.
Proof.
  intros Hj. unfold slice_to, clamp_index, len.
  destruct (Z.ltb_spec j 0); [lia |]. rewrite length_take. lia.
Qed.

Lemma text_bounded (w : world) (file_path : list N) :
  exists text metadata,
    _extract_text_content w file_path = Ok (text, metadata) /\ len text <= 10003.
Proof.
  unfold _extract_text_content, text_body.
  destruct (w_read w file_path) as [b|e]; simpl.
  - eexists _, _. split; [reflexivity |].
    destruct (Z.ltb_spec 10000 (len (utf8_decode_ignore b))); [| lia].
    pose proof (len_slice_to (utf8_decode_ignore b) 10000 ltac:(lia)).
    unfold len in *. rewrite length_app. simpl. lia.
  - eexists _, _. split; [reflexivity |]. done.
Qed.

Lemma pdf_bounded (w : world) (file_path : list N) :
  exists text metadata,
    _extract_pdf_content w file_path = Ok (text, metadata) /\ len text <= 5000.
Proof.
  unfold _extract_pdf_content, pdf_body.
  destruct (w_pdf w file_path) as [pages|e]; simpl; [| by eexists _, _].
  destruct (pages_text [] (take 5 pages)) as [text|e]; simpl; [| by eexists _, _].
  eexists _, _. split; [reflexivity |]. by apply len_slice_to.
Qed.

Lemma docx_bounded (w : world) (file_path : list N) :
  exists text metadata,
    _extract_docx_content w file_path = Ok (text, metadata) /\ len text <= 5000.
Proof.
  unfold _extract_docx_content, docx_body.
  destruct (w_docx w file_path) as [paragraphs|e]; simpl; [| by eexists _, _].
  eexists _, _. split; [reflexivity |]. by apply len_slice_to.
Qed.

Lemma excel_bounded (w : world) (file_path : list N) :
  exists text metadata,
    _extract_excel_content w file_path = Ok (text, metadata) /\ len text <= 3000.
Proof.
  unfold _extract_excel_content, excel_body.
  destruct (w_workbook w file_path) as [workbook|e]; simpl; [| by eexists _, _].
  destruct (sheets_content (take 3 workbook)) as [content|e]; simpl; [| by eexists _, _].
  eexists _, _. split; [reflexivity |]. by apply len_slice_to.
Qed.

Lemma image_no_text (w : world) (file_path : list N) :
  exists metadata, _extract_image_metadata w file_path = Ok ([], metadata).
Proof.
  unfold _extract_image_metadata, image_body.
  destruct (w_image w file_path) as [img|e]; simpl; [| by eexists].
  destruct (img_getexif img) as [[entries|e]|]; simpl; by eexists.
Qed.

Lemma audio_no_text (w : world) (file_path : list N) :
  exists metadata, _extract_audio_metadata w file_path = Ok ([], metadata).
Proof.
  unfold _extract_audio_metadata, audio_body.
  destruct (w_audio w file_path) as [[a|]|e]; simpl; try by eexists.
  destruct (au_truth a); by eexists.
Qed.

Lemma video_no_text (w : world) (file_path : list N) :
  exists metadata, _extract_video_metadata w file_path = Ok ([], metadata).
Proof.
  unfold _extract_video_metadata, video_body.
  destruct (w_stat w file_path) as [st|e]; simpl; by eexists.
Qed.

Lemma extract_bounded (w : world) (file_path : list N) :
  exists text metadata,
    _extract_content_and_metadata w file_path = Ok (text, metadata) /\
    len text <= text_cap (kind_of (lower (path_suffix file_path))).
Proof.
  unfold _extract_content_and_metadata.
  destruct (kind_of (lower (path_suffix file_path))).
  - destruct (text_bounded w file_path) as (t & m & -> & H). by exists t, m.
  - destruct (pdf_bounded w file_path) as (t & m & -> & H). by exists t, m.
  - destruct (docx_bounded w file_path) as (t & m & -> & H). by exists t, m.
  - destruct (excel_bounded w file_path) as (t & m & -> & H). by exists t, m.
  - destruct (image_no_text w file_path) as (m & ->). by exists [], m.
  - destruct (audio_no_text w file_path) as (m & ->). by exists [], m.
  - destruct (video_no_text w file_path) as (m & ->). by exists [], m.
  - by eexists _, _.
Qed.

(** C1, amended.  Extraction never raises, and the extracted text is at
    most 5000 characters for a PDF and for a word-processor document and at
    most 3000 for a spreadsheet; for plain text it is at most 10003: the
    10000 characters kept plus the ellipsis appended after the cut. *)
Theorem extracted_text_bounded (w : world) (file_path : list N) :
  exists text metadata,
    _extract_content_and_metadata w file_path = Ok (text, metadata) /\
    len text <= text_cap (kind_of (lower (path_suffix file_path))).
Proof. apply extract_bounded. Qed.

Lemma extract_total (w : world) (file_path : list N) :
  exists x, _extract_content_and_metadata w file_path = Ok x.
Proof. destruct (extract_bounded w file_path) as (t & m & H & _). by eexists. Qed.


End Extractors.

(** ** The store *)

Section StoreLemmas.

Lemma find_app {A} (f : A -> bool) (l1 l2 : list A) :
  List.find f (l1 ++ l2) =
  match List.find f l1 with
  | Some x => Some x
  | None => List.find f l2
  end.
Proof. induction l1 as [|x l1 IH]; simpl; [done |]. by destruct (f x). Qed.

Lemma find_filter_keep {A} (f g : A -> bool) (l : list A) :
  (forall x, f x = true -> g x = true) ->
  List.find f (List.filter g l) = List.find f l.
Proof.
  intros H. induction l as [|x l IH]; simpl; [done |].
  destruct (g x) eqn:Eg; simpl.
  - by destruct (f x).
  - destruct (f x) eqn:Ef; [| done]. apply H in Ef. congruence.
Qed.

Lemma find_filter_drop {A} (f g : A -> bool) (l : list A) :
  (forall x, f x = true -> g x = false) ->
  List.find f (List.filter g l) = None.
Proof.
  intros H. induction l as [|x l IH]; simpl; [done |].
  destruct (g x) eqn:Eg; simpl; [| done].
  destruct (f x) eqn:Ef; [| done]. apply H in Ef. congruence.
Qed.

Lemma str_eqb_eq (s t : list N) : str_eqb s t = true <-> s = t.
Proof. unfold str_eqb. apply bool_decide_eq_true. Qed.

Lemma str_eqb_refl (s : list N) : str_eqb s s = true.
Proof. by apply str_eqb_eq. Qed.

Lemma str_eqb_neq (s t : list N) : s <> t -> str_eqb s t = false.
Proof. unfold str_eqb. apply bool_decide_eq_false. Qed.

(** After the two statements, the digest stored for the path is the new
    one ... *)
Lemma select_upsert_same (db : database) (file_path : list N) (info : file_info)
    (indexed_time : list N) :
  select_content_hash (upsert db file_path info indexed_time) file_path =
  Some (fi_content_hash info).
Proof.
  unfold select_content_hash, upsert, insert_or_replace_fts, insert_or_replace_file.
  cbn [Store.files]. rewrite find_app, find_filter_drop.
  - simpl. by rewrite str_eqb_refl.
  - intros [id r] H. simpl in *. by rewrite H.
Qed.

(** ... and the digest of every other path is as before. *)
Lemma select_upsert_other (db : database) (file_path other : list N) (info : file_info)
    (indexed_time : list N) :
  other <> file_path ->
  select_content_hash (upsert db file_path info indexed_time) other =
  select_content_hash db other.
Proof.
  intros Hne.
  unfold select_content_hash, upsert, insert_or_replace_fts, insert_or_replace_file.
  cbn [Store.files]. rewrite find_app, find_filter_keep.
  - destruct (List.find _ (Store.files db)); [done |]. simpl.
    by rewrite str_eqb_neq.
  - intros [id r] H. simpl in *. apply str_eqb_eq in H. rewrite H.
    by rewrite str_eqb_neq.
Qed.

Lemma max_rowid_bound (rows : list (Z * file_row)) (r : Z * file_row) :
  In r rows -> fst r <= max_rowid rows.
Proof.
  induction rows as [|x rows IH]; simpl; [done |].
  intros [-> | H]; [lia |]. apply IH in H. lia.
Qed.

Lemma find_id_none (rows : list (Z * file_row)) (id : Z) :
  (forall r, In r rows -> fst r <> id) ->
  List.find (fun r : Z * file_row => fst r =? id) rows = None.
Proof.
  intros H. destruct (List.find _ rows) as [r|] eqn:E; [| done].
  apply find_some in E as [Hin He]. apply Z.eqb_eq in He. by destruct (H r Hin).
Qed.

(** The first indexing of a path keeps the index in lockstep with the
    table. *)
Lemma upsert_new_path_lockstep (db : database) (file_path : list N) (info : file_info)
    (indexed_time : list N) :
  fts_lockstep db ->
  (forall r, In r (Store.files db) -> r_path (snd r) <> file_path) ->
  fts_lockstep (upsert db file_path info indexed_time).
Proof.
  intros Hl Hnew id. unfold upsert, insert_or_replace_fts, insert_or_replace_file, row_by_id.
  cbn [Store.files files_fts last_insert_rowid].
  set (new := Z.max (files_seq db) (max_rowid (Store.files db)) + 1).
  assert (List.filter (fun r : Z * file_row => negb (str_eqb (r_path (snd r)) (r_path (row_of file_path info indexed_time))))
            (Store.files db) = Store.files db) as ->.
  { induction (Store.files db) as [|x rows IH]; simpl; [done |].
    rewrite str_eqb_neq by (apply Hnew; by left). simpl. f_equal.
    apply IH. intros r Hr. apply Hnew. by right. }
  rewrite find_app. destruct (decide (id = new)) as [-> | Hne].
  - rewrite lookup_insert_eq, find_id_none.
    + simpl. by rewrite Z.eqb_refl.
    + intros r Hr. apply max_rowid_bound in Hr. lia.
  - rewrite lookup_insert_ne by done. rewrite (Hl id). unfold row_by_id.
    destruct (List.find _ (Store.files db)); [done |]. simpl.
    destruct (Z.eqb_spec new id); [congruence | done].
Qed.

(** Indexing a path again leaves the document of the replaced row in the
    index, under a rowid that [files] no longer has. *)
Lemma upsert_again_orphans (db : database) (file_path : list N) (info : file_info)
    (indexed_time : list N) (id : Z) (row : file_row) :
  fts_lockstep db -> ids_ok db ->
  In (id, row) (Store.files db) -> r_path row = file_path ->
  orphan (upsert db file_path info indexed_time) id.
Proof.
  intros Hl Hids Hin Hpath.
  unfold orphan, upsert, insert_or_replace_fts, insert_or_replace_file, row_by_id.
  cbn [Store.files files_fts last_insert_rowid].
  set (new := Z.max (files_seq db) (max_rowid (Store.files db)) + 1).
  assert (id <> new) as Hne.
  { apply max_rowid_bound in Hin. simpl in Hin. lia. }
  split.
  - rewrite lookup_insert_ne by done. rewrite (Hl id). unfold row_by_id.
    destruct (List.find _ (Store.files db)) as [r|] eqn:E; [by eexists |].
    eapply find_none in E; [| exact Hin]. simpl in E. by rewrite Z.eqb_refl in E.
  - rewrite find_app, find_id_none.
    + simpl. destruct (Z.eqb_spec new id); [congruence | done].
    + intros r Hr Hid. apply filter_In in Hr as [Hr Hp].
      destruct r as [id' row']. simpl in *. subst id'.
      assert (row' = row) as ->.
      { unfold ids_ok in Hids. clear -Hids Hin Hr.
        induction (Store.files db) as [|x rows IH]; [done |].
        simpl in Hids. apply NoDup_cons in Hids as [Hx Hrows].
        destruct Hin as [-> | Hin], Hr as [Heq | Hr].
        - by injection Heq.
        - destruct Hx. apply list_elem_of_In. apply (in_map fst) in Hr. exact Hr.
        - subst x. destruct Hx. apply list_elem_of_In. apply (in_map fst) in Hin. exact Hin.
        - by apply IH. }
      rewrite Hpath, str_eqb_refl in Hp. done.
Qed.

(** C2.  The claim fails on re-indexing.  After a first build over
    [/docs/a.txt] the index and the table are in lockstep; once the file
    has changed, the second build replaces the row (new id 2) and adds a
    document under rowid 2, while the document of the replaced row stays in
    the index under rowid 1, which [files] no longer has. *)
Theorem reindex_leaves_orphan_fts_row :
  fts_lockstep db_first_build /\
  map fst (Store.files db_second_build) = [2] /\
  files_fts db_second_build !! 1 =
    Some {| d_name := py "a.txt"; d_description := py "File: a.txt"; d_content_text := py "v1" |} /\
  row_by_id db_second_build 1 = None /\
  orphan db_second_build 1 /\
  ~ fts_lockstep db_second_build.
Proof.
  assert (files_fts db_second_build !! 1 =
    Some {| d_name := py "a.txt"; d_description := py "File: a.txt"; d_content_text := py "v1" |})
    as Hdoc by (by vm_compute).
  assert (row_by_id db_second_build 1 = None) as Hrow by (by vm_compute).
  split; [| split; [by vm_compute | split; [done | split; [done | split]]]].
  - change db_first_build with
      (upsert empty_db (py "/docs/a.txt")
         {| fi_name := py "a.txt"; fi_size := 2; fi_modified_time := py "0";
            fi_file_type := py ".txt"; fi_mime_type := py "unknown";
            fi_content_hash := py "v1"; fi_description := py "File: a.txt";
            fi_content_text := py "v1";
            fi_metadata_json := py "file_type=text;char_count=2;" |} (py "0")).
    apply upsert_new_path_lockstep; [| done].
    intros id. unfold row_by_id. simpl. apply lookup_empty.
  - split; [by rewrite Hdoc | done].
  - intros H. specialize (H 1). rewrite Hdoc, Hrow in H. discriminate.
Qed.

End StoreLemmas.

(** ** The steps of a build *)

Section BuildSteps.
Context `{RT : PyRuntime}.
Context {S : Type}.
Implicit Types (cb : option (@callback S)) (st : @build_state S).

(** One iteration, statement by statement: [fail] is the handler of the
    iteration, [finish] the commit at its end. *)
Lemma iteration_body_eq w ai cb total i p st :
  iteration_body w ai cb total i p st =
  let '(sink, raised) :=
    match cb with
    | Some f => f p i total (bs_sink st)
    | None => (bs_sink st, None)
    end in
  let st1 := with_sink st sink in
  let fail (e : PyExc) (st' : @build_state S) :=
    (st', py_print (w_stdout w) (failure_note p e)) in
  let finish (st' : @build_state S) :=
    if i mod 100 =? 0
    then match w_store_fault w (Commit i) with
         | Some e => fail e st'
         | None => (commit st', Ok tt)
         end
    else (st', Ok tt) in
  match raised with
  | Some e => fail e st1
  | None =>
      if _is_file_already_indexed w (bs_db st) i p then (st1, Ok tt)
      else
        match _process_file w ai p with
        | Raise e => fail e st1
        | Ok None => finish st1
        | Ok (Some info) =>
            let row := row_of p info (w_now w i) in
            match (_ ← bind_row row; store_fault w (InsertFile i)) with
            | Raise e => fail e st1
            | Ok _ =>
                let st2 := with_db st1 (insert_or_replace_file (bs_db st) row) in
                match (_ ← bind_doc (doc_of info); store_fault w (InsertFts i)) with
                | Raise e => fail e st2
                | Ok _ => finish (with_db st1 (upsert (bs_db st) p info (w_now w i)))
                end
            end
        end
  end.
Proof.
  unfold iteration_body, iteration_try, cmd_try, call_progress, current_db, lift,
    execute_insert_file, execute_insert_fts, conn_commit, mbind, cmd_bind, mret, cmd_ret,
    failure_note.
  destruct cb as [f|].
  - destruct (f p i total (bs_sink st)) as [sink [e|]]; [done |]. cbn [with_sink bs_db].
    destruct (_is_file_already_indexed w (bs_db st) i p); [done |].
    destruct (_process_file w ai p) as [[info|]|e]; [| | done].
    + destruct (res_bind _ _ _ (bind_row _)) as [[]|e]; [| done]. cbn [with_db bs_db].
      destruct (res_bind _ _ _ (bind_doc _)) as [[]|e]; [| done].
      unfold upsert. cbn [with_db]. destruct (i mod 100 =? 0); [| done].
      by destruct (w_store_fault w (Commit i)).
    + destruct (i mod 100 =? 0); [| done]. by destruct (w_store_fault w (Commit i)).
  - destruct st as [db committed sink]. cbn [with_sink bs_db bs_sink bs_committed].
    destruct (_is_file_already_indexed w db i p); [done |].
    destruct (_process_file w ai p) as [[info|]|e]; [| | done].
    + destruct (res_bind _ _ _ (bind_row _)) as [[]|e]; [| done]. cbn [with_db bs_db].
      destruct (res_bind _ _ _ (bind_doc _)) as [[]|e]; [| done].
      unfold upsert. cbn [with_db]. destruct (i mod 100 =? 0); [| done].
      by destruct (w_store_fault w (Commit i)).
    + destruct (i mod 100 =? 0); [| done]. by destruct (w_store_fault w (Commit i)).
Qed.

Lemma bind_row_path (row : file_row) : bind_row row = Ok tt -> utf8_encodable (r_path row) = true.
Proof. unfold bind_row, bind_text. by destruct (utf8_encodable (r_path row)). Qed.

Lemma bind_row_doc (file_path : list N) (info : file_info) (indexed_time : list N) :
  bind_row (row_of file_path info indexed_time) = Ok tt -> bind_doc (doc_of info) = Ok tt.
Proof.
  unfold bind_row, bind_doc, bind_text. cbn [row_of doc_of r_path r_name r_size r_modified_time
    r_file_type r_mime_type r_content_hash r_description r_content_text r_metadata_json
    r_indexed_time d_name d_description d_content_text].
  destruct (utf8_encodable file_path); [| done]. cbn [mbind res_bind].
  destruct (utf8_encodable (fi_name info)); [| done]. cbn [mbind res_bind].
  destruct (bind_int (fi_size info)); [| done]. cbn [mbind res_bind].
  destruct (utf8_encodable (fi_modified_time info)); [| done]. cbn [mbind res_bind].
  destruct (utf8_encodable (fi_file_type info)); [| done]. cbn [mbind res_bind].
  destruct (utf8_encodable (fi_mime_type info)); [| done]. cbn [mbind res_bind].
  destruct (utf8_encodable (fi_content_hash info)); [| done]. cbn [mbind res_bind].
  destruct (utf8_encodable (fi_description info)); [| done]. cbn [mbind res_bind].
  destruct (utf8_encodable (fi_content_text info)); [| done]. done.
Qed.

Lemma store_fault_none (w : world) (s : statement) :
  w_store_fault w s = None -> store_fault w s = Ok tt.
Proof. intros H. unfold store_fault. by rewrite H. Qed.

Lemma store_fault_some (w : world) (s : statement) (e : PyExc) :
  w_store_fault w s = Some e -> store_fault w s = Raise e.
Proof. intros H. unfold store_fault. by rewrite H. Qed.

(** What one iteration does: the callback is called; the iteration raises
    only what a [print] raised; a commit, if any, is its last step; and the
    database is left as it was, or with the row of the file and, unless the
    index meets an error of the store, with its document. *)
Lemma iteration_outcome w ai cb total i p st :
  let out := iteration_body w ai cb total i p st in
  let call := match cb with
              | Some f => f p i total (bs_sink st)
              | None => (bs_sink st, None)
              end in
  bs_sink (fst out) = fst call /\
  (snd out = Ok tt \/ exists e text, snd out = Raise e /\ w_stdout w text = Some e) /\
  (bs_committed (fst out) = bs_committed st \/ bs_committed (fst out) = bs_db (fst out)) /\
  (snd call <> None \/ _is_file_already_indexed w (bs_db st) i p = true ->
   bs_db (fst out) = bs_db st /\ bs_committed (fst out) = bs_committed st) /\
  ((bs_db (fst out) = bs_db st /\
    (snd call = None -> _is_file_already_indexed w (bs_db st) i p = false ->
     ~ storable w ai i p)) \/
   exists info,
     snd call = None /\
     _is_file_already_indexed w (bs_db st) i p = false /\
     _process_file w ai p = Ok (Some info) /\
     bind_row (row_of p info (w_now w i)) = Ok tt /\
     w_store_fault w (InsertFile i) = None /\
     ((exists e, w_store_fault w (InsertFts i) = Some e) /\
      bs_db (fst out) = insert_or_replace_file (bs_db st) (row_of p info (w_now w i)) \/
      bs_db (fst out) = upsert (bs_db st) p info (w_now w i))).
Proof.
  cbv zeta. rewrite iteration_body_eq.
  assert (forall e (st' : @build_state S),
            let r := py_print (w_stdout w) (failure_note p e) in
            r = Ok tt \/ exists e' text, r = Raise e' /\ w_stdout w text = Some e') as Hprint.
  { intros e st'. unfold py_print. destruct (w_stdout w (failure_note p e)) as [e'|] eqn:E.
    - right. by exists e', (failure_note p e).
    - by left. }
  destruct (match cb with Some f => _ | None => _ end) as [sink raised]. cbn [fst snd].
  destruct raised as [e|].
  { cbn [fst snd with_sink bs_sink bs_db bs_committed].
    split; [done |]. split; [apply (Hprint e st) |]. split; [by left |]. split; [done |].
    left. split; [done |]. done. }
  destruct (_is_file_already_indexed w (bs_db st) i p) eqn:Ei.
  { cbn [fst snd with_sink bs_sink bs_db bs_committed].
    split; [done |]. split; [by left |]. split; [by left |]. split; [done |].
    left. split; done. }
  assert (forall st' : @build_state S,
            let out := if i mod 100 =? 0
                       then match w_store_fault w (Commit i) with
                            | Some e => (st', py_print (w_stdout w) (failure_note p e))
                            | None => (commit st', Ok tt)
                            end
                       else (st', Ok tt) in
            bs_sink (fst out) = bs_sink st' /\
            (snd out = Ok tt \/ exists e text, snd out = Raise e /\ w_stdout w text = Some e) /\
            (bs_committed (fst out) = bs_committed st' \/
             bs_committed (fst out) = bs_db (fst out)) /\
            bs_db (fst out) = bs_db st') as Hfinish.
  { intros st'. cbv zeta. destruct (i mod 100 =? 0); [| by repeat split; try left].
    destruct (w_store_fault w (Commit i)) as [e|]; cbn [fst snd commit bs_sink bs_db bs_committed].
    - split; [done |]. split; [apply (Hprint e st') |]. split; [by left | done].
    - split; [done |]. split; [by left |]. split; [by right | done]. }
  destruct (_process_file w ai p) as [[info|]|e] eqn:Ep.
  - cbv zeta. destruct (bind_row (row_of p info (w_now w i))) as [[]|e] eqn:Eb.
    + cbn [mbind res_bind].
      destruct (w_store_fault w (InsertFile i)) as [e|] eqn:Ef.
      * rewrite (store_fault_some _ _ _ Ef).
        cbn [fst snd with_sink bs_sink bs_db bs_committed].
        split; [done |]. split; [apply (Hprint e st) |]. split; [by left |].
        split; [intros [H | H]; done |]. left. split; [done |].
        intros _ _ (info' & Hp & _ & Hf). congruence.
      * rewrite (store_fault_none _ _ Ef), (bind_row_doc _ _ _ Eb). cbn [mbind res_bind].
        destruct (w_store_fault w (InsertFts i)) as [e|] eqn:Ei'.
        -- rewrite (store_fault_some _ _ _ Ei').
           cbn [fst snd with_sink with_db bs_sink bs_db bs_committed].
           split; [done |]. split; [apply (Hprint e st) |]. split; [by left |].
           split; [intros [H | H]; done |]. right. exists info.
           repeat (split; [done |]). left. split; [by exists e | done].
        -- rewrite (store_fault_none _ _ Ei').
           destruct (Hfinish (with_db (with_sink st sink) (upsert (bs_db st) p info (w_now w i))))
             as (H1 & H2 & H3 & H4).
           cbn [with_sink with_db bs_sink bs_db bs_committed] in *.
           split; [done |]. split; [done |]. split; [done |].
           split; [intros [H | H]; done |]. right. exists info.
           repeat (split; [done |]). by right.
    + cbn [mbind res_bind fst snd with_sink bs_sink bs_db bs_committed].
      split; [done |]. split; [apply (Hprint e st) |]. split; [by left |].
      split; [intros [H | H]; done |]. left. split; [done |].
      intros _ _ (info' & Hp & Hb & _). congruence.
  - destruct (Hfinish (with_sink st sink)) as (H1 & H2 & H3 & H4).
    cbn [with_sink bs_sink bs_db bs_committed] in *.
    split; [done |]. split; [done |]. split; [done |].
    split; [intros [H | H]; done |]. left. split; [done |].
    intros _ _ (info' & Hp & _). congruence.
  - cbn [fst snd with_sink bs_sink bs_db bs_committed].
    split; [done |]. split; [apply (Hprint e st) |]. split; [by left |].
    split; [intros [H | H]; done |]. left. split; [done |].
    intros _ _ (info' & Hp & _). congruence.
Qed.


Lemma build_loop_cons w ai cb total i p rest st :
  build_loop w ai cb total i (p :: rest) st =
  let (st', r) := iteration_body w ai cb total i p st in
  match r with
  | Ok _ => build_loop w ai cb total (i + 1) rest st'
  | Raise e => (st', Raise e)
  end.
Proof. reflexivity. Qed.

Lemma build_catalog_eq w ai cb directory_path all_files st :
  build_catalog w ai cb directory_path all_files st =
  match py_print (w_stdout w)
          ([128269%N] ++ py " Starting catalog build for: " ++ directory_path) with
  | Raise e => (st, Raise e)
  | Ok _ =>
      match py_print (w_stdout w)
              ([128202%N] ++ py " Found " ++ str_of_Z (len all_files) ++
               py " files to process") with
      | Raise e => (st, Raise e)
      | Ok _ =>
          match w_store_fault w Connect with
          | Some e => (st, Raise e)
          | None =>
              let (st', r) := build_loop w ai cb (len all_files) 0 all_files (commit st) in
              match r with
              | Raise e => (rollback st', Raise e)
              | Ok _ =>
                  match w_store_fault w FinalCommit with
                  | Some e => (rollback st', Raise e)
                  | None =>
                      (commit st',
                       py_print (w_stdout w) ([9989%N] ++ py " Catalog build complete!"))
                  end
              end
          end
      end
  end.
Proof.
  unfold build_catalog, with_connection, connect_db, cmd_try, conn_commit, lift,
    mbind, cmd_bind, mret, cmd_ret.
  destruct (py_print _ _) as [[]|e]; [| done].
  destruct (py_print _ _) as [[]|e]; [| done].
  destruct (w_store_fault w Connect) as [e|]; [done |].
  destruct (build_loop _ _ _ _ _ _ _) as [st' [[]|e]]; [| done].
  destruct (w_store_fault w FinalCommit) as [e|]; [done |].
  by destruct (py_print _ _) as [[]|e].
Qed.

(** A property of the catalog that the writes of the build keep is kept
    by the build, however it ends. *)
Lemma build_loop_invariant (Inv : database -> Prop) w ai cb total
    (all_files : list (list N)) :
  (forall db i p info,
     In p all_files -> Inv db ->
     _is_file_already_indexed w db i p = false ->
     _process_file w ai p = Ok (Some info) ->
     bind_row (row_of p info (w_now w i)) = Ok tt ->
     Inv (upsert db p info (w_now w i))) ->
  (forall db i p info e,
     In p all_files -> Inv db ->
     _is_file_already_indexed w db i p = false ->
     _process_file w ai p = Ok (Some info) ->
     bind_row (row_of p info (w_now w i)) = Ok tt ->
     w_store_fault w (InsertFts i) = Some e ->
     Inv (insert_or_replace_file db (row_of p info (w_now w i)))) ->
  forall rest st i,
    incl rest all_files -> Inv (bs_db st) -> Inv (bs_committed st) ->
    Inv (bs_db (fst (build_loop w ai cb total i rest st))) /\
    Inv (bs_committed (fst (build_loop w ai cb total i rest st))).
Proof.
  intros Hfull Hpart rest. induction rest as [|p rest IH]; intros st i Hincl Hdb Hcom; [done |].
  rewrite build_loop_cons.
  pose proof (iteration_outcome w ai cb total i p st) as (_ & _ & Hc & _ & Hd).
  assert (In p all_files) as Hp by (apply Hincl; by left).
  assert (Inv (bs_db (fst (iteration_body w ai cb total i p st)))) as Hdb'.
  { destruct Hd as [[-> _] | (info & _ & Ei & Ep & Eb & _ & [[[e He] ->] | ->])]; [done | |].
    - by eapply Hpart.
    - by apply Hfull. }
  assert (Inv (bs_committed (fst (iteration_body w ai cb total i p st)))) as Hcom'.
  { by destruct Hc as [-> | ->]. }
  destruct (iteration_body w ai cb total i p st) as [st' [[]|e]]; [| done].
  apply IH; [intros x Hx; apply Hincl; by right | done | done].
Qed.

Lemma build_catalog_invariant (Inv : database -> Prop) w ai cb directory_path
    (all_files : list (list N)) st :
  (forall db i p info,
     In p all_files -> Inv db ->
     _is_file_already_indexed w db i p = false ->
     _process_file w ai p = Ok (Some info) ->
     bind_row (row_of p info (w_now w i)) = Ok tt ->
     Inv (upsert db p info (w_now w i))) ->
  (forall db i p info e,
     In p all_files -> Inv db ->
     _is_file_already_indexed w db i p = false ->
     _process_file w ai p = Ok (Some info) ->
     bind_row (row_of p info (w_now w i)) = Ok tt ->
     w_store_fault w (InsertFts i) = Some e ->
     Inv (insert_or_replace_file db (row_of p info (w_now w i)))) ->
  Inv (bs_db st) ->
  Inv (bs_db (fst (build_catalog w ai cb directory_path all_files st))).
Proof.
  intros Hfull Hpart Hinv. rewrite build_catalog_eq.
  destruct (py_print _ _) as [[]|e]; [| done].
  destruct (py_print _ _) as [[]|e]; [| done].
  destruct (w_store_fault w Connect) as [e|]; [done |].
  destruct (build_loop_invariant Inv w ai cb (len all_files) all_files Hfull Hpart
              all_files (commit st) 0 (incl_refl _) Hinv Hinv) as [Hdb Hcom].
  destruct (build_loop _ _ _ _ _ _ _) as [st' [[]|e]]; [| done].
  by destruct (w_store_fault w FinalCommit).
Qed.


End BuildSteps.

Section BuildFacts.
Context `{RT : PyRuntime}.

(** A record comes from a run of [_process_file] in which nothing raised. *)
Lemma process_file_some (w : world) (ai : client) (file_path : list N) (info : file_info) :
  _process_file w ai file_path = Ok (Some info) ->
  exists stat modified_time content_text metadata description,
    w_stat w file_path = Ok stat /\
    isoformat (st_mtime stat) = Ok modified_time /\
    _extract_content_and_metadata w file_path = Ok (content_text, metadata) /\
    generate_description (w_stdout w) ai file_path content_text metadata = Ok description /\
    fi_content_hash info = _get_file_hash w file_path /\
    fi_content_text info = content_text /\
    fi_size info = st_size stat.
Proof.
  unfold _process_file.
  assert (forall e, (_ ← py_print (w_stdout w)
                          (py "Error processing file " ++ file_path ++ py ": " ++ exc_str e);
                     mret None) <> Ok (Some info)) as Hh.
  { intros e. by destruct (py_print _ _). }
  destruct (w_stat w file_path) as [stat|e] eqn:Es; [| intros H; by destruct (Hh e)].
  cbn [mbind res_bind try_except].
  destruct (isoformat (st_mtime stat)) as [mt|e] eqn:Em; [| intros H; by destruct (Hh e)].
  cbn [mbind res_bind try_except].
  destruct (_extract_content_and_metadata w file_path) as [[text metadata]|e] eqn:Ex;
    [| intros H; by destruct (Hh e)].
  cbn [mbind res_bind try_except].
  destruct (generate_description _ _ _ _ _) as [d|e] eqn:Ed; [| intros H; by destruct (Hh e)].
  cbn [mbind res_bind try_except mret res_ret]. intros [= <-].
  by exists stat, mt, text, metadata, d.
Qed.

Lemma process_file_hash (w : world) (ai : client) (file_path : list N) (info : file_info) :
  _process_file w ai file_path = Ok (Some info) ->
  fi_content_hash info = _get_file_hash w file_path.
Proof. intros H. by destruct (process_file_some _ _ _ _ H) as (? & ? & ? & ? & ? & ? & ? & ? & ? & ? & ?). Qed.

(** The change detector skips exactly the paths that [skipped] describes. *)
Lemma is_indexed_iff (w : world) (db : database) (i : Z) (file_path : list N) :
  _is_file_already_indexed w db i file_path = true <-> skipped w db i file_path.
Proof.
  unfold _is_file_already_indexed, skipped, select_hash, bind_text, store_fault.
  destruct (w_stat w file_path) as [stat|e]; cbn [mbind res_bind try_value];
    [| split; [done | by intros [[stat Hs] _]]].
  destruct (utf8_encodable file_path); cbn [mbind res_bind try_value];
    [| split; [done | by intros (_ & H & _)]].
  destruct (w_store_fault w (Select i)) as [e|]; cbn [mbind res_bind try_value];
    [split; [done | by intros (_ & _ & H & _)] |].
  destruct (select_content_hash db file_path) as [h|];
    cbn [mbind res_bind mret res_ret try_value].
  - rewrite str_eqb_eq. split.
    + intros ->. split; [by exists stat | done].
    + by intros (_ & _ & _ & [= ->]).
  - split; [done | by intros (_ & _ & _ & H)].
Qed.




Section Loop.
Context {S : Type}.
Implicit Types (cb : option (@callback S)) (st : @build_state S).










End Loop.


End BuildFacts.

Section ChangeDetection.
Context `{RT : PyRuntime}.

(** The chunks that are hashed make up the whole byte stream. *)
Lemma chunks_concat (fuel : nat) (b : list N) :
  (length b <= fuel)%nat -> concat (chunks fuel b) = b.
Proof.
  revert b. induction fuel as [|fuel IH]; intros b Hb.
  - destruct b; [done | simpl in Hb; lia].
  - destruct b as [|x b]; [done |].
    cbn [chunks concat]. rewrite IH.
    + apply take_drop.
    + rewrite length_drop. simpl in *. lia.
Qed.

(** The digest of a file that can be read is the MD5 of its bytes. *)
Lemma get_file_hash_readable (w : world) (file_path b : list N) :
  w_read w file_path = Ok b -> _get_file_hash w file_path = md5 b.
Proof.
  intros Hr. unfold _get_file_hash. rewrite Hr. simpl.
  by rewrite md5_streamed, chunks_concat.
Qed.






End ChangeDetection.

Section Failures.
Context `{RT : PyRuntime}.



End Failures.



(** ** The statements at concrete inputs *)

Section Instances.

(** A text file of 10001 characters: the extracted text is the first 10000
    characters followed by the ellipsis, 10003 characters in all, above the
    cap of 10000. *)
Lemma text_cap_exceeded :
  exists text metadata,
    _extract_content_and_metadata (RT := ascii_runtime) big_text_world (py "/docs/a.txt") =
      Ok (text, metadata) /\
    len text = 10003 /\ ~ len text <= 10000.
Proof.
  eexists _, _. split; [vm_compute; reflexivity |].
  split; [by vm_compute |]. intros H. by vm_compute in H.
Qed.


(** Why the second build is only shown to skip after a build whose callback
    returned normally: the callback is called inside the [try] of the
    iteration, so the file at which it raises is not stored, and the next
    build indexes it. *)
Lemma raising_callback_leaves_file_unstored :
  let w := one_file_world (py "v1") in
  let st0 := {| bs_db := empty_db; bs_committed := empty_db; bs_sink := false |} in
  let out1 := build_catalog (RT := ascii_runtime) w offline_client (Some flaky_callback)
                (py "/docs") [py "/docs/a.txt"] st0 in
  let out2 := build_catalog (RT := ascii_runtime) w offline_client (Some flaky_callback)
                (py "/docs") [py "/docs/a.txt"] (fst out1) in
  snd out1 = Ok tt /\ Store.files (bs_db (fst out1)) = [] /\
  map fst (Store.files (bs_db (fst out2))) = [1].
Proof. by vm_compute. Qed.

(** A file that cannot be read is stored with the empty digest and the
    error of the extractor, and is skipped by the next build. *)
Lemma unreadable_file_is_skipped :
  let out1 := build_catalog (RT := ascii_runtime) unreadable_world offline_client None
                (py "/docs") [py "/docs/a.txt"] (start_state empty_db) in
  map (fun r => (r_content_hash (snd r), r_content_text (snd r), r_metadata_json (snd r)))
      (Store.files (bs_db (fst out1))) =
    [(py "", py "", py "error=Permission denied;")] /\
  _is_file_already_indexed (RT := ascii_runtime) unreadable_world (bs_db (fst out1)) 0
    (py "/docs/a.txt") = true.
Proof. by vm_compute. Qed.

(** Why the second build is shown to skip the files that the first could
    store: a file whose name is not valid UTF-8 can be [stat]ed and read,
    but its path cannot be bound to a statement, so no build stores it and
    no build skips it. *)
Lemma legacy_name_never_stored :
  let w := {| w_stat := w_stat legacy_name_world; w_read := w_read legacy_name_world;
              w_pdf := w_pdf legacy_name_world; w_docx := w_docx legacy_name_world;
              w_workbook := w_workbook legacy_name_world; w_image := w_image legacy_name_world;
              w_audio := w_audio legacy_name_world; w_now := w_now legacy_name_world;
              w_stdout := fun _ => None; w_store_fault := fun _ => None |} in
  let out1 := build_catalog (RT := ascii_runtime) w offline_client None
                (py "/docs") [legacy_name] (start_state empty_db) in
  (exists stat, w_stat w legacy_name = Ok stat) /\
  snd out1 = Ok tt /\ Store.files (bs_db (fst out1)) = [] /\
  _is_file_already_indexed (RT := ascii_runtime) w (bs_db (fst out1)) 0 legacy_name = false.
Proof. intros w out1. split; [by eexists |]. by vm_compute. Qed.

Lemma parse_search_response_markers_witness :
  _parse_search_response (RT := ascii_runtime) (py "Nothing matches.") (py "q") =
    {| ar_message := Some (py "Nothing matches."); ar_file_numbers := Some []; ar_files := None |} /\
  (forall file_descriptions,
     ai_matches (_parse_search_response (RT := ascii_runtime) (py "Nothing matches.") (py "q"))
       file_descriptions = Ok []) /\
  exists message file_numbers,
    _parse_search_response (RT := ascii_runtime) (py "MESSAGE: two reports FILES: 1, x, 2") (py "q") =
      {| ar_message := Some message; ar_file_numbers := Some file_numbers; ar_files := None |} /\
    Forall (fun n => 0 <= n) file_numbers.
Proof.
  assert (~ occurs (py "MESSAGE:") (py "Nothing matches.")) as Hno.
  { intros H. apply find_occurs in H. vm_compute in H. discriminate. }
  destruct (proj1 (parse_search_response_markers (RT := ascii_runtime)
                     (py "Nothing matches.") (py "q")) (or_introl Hno)) as [Hp Hm].
  split; [exact Hp |]. split; [exact Hm |].
  destruct (proj2 (parse_search_response_markers (RT := ascii_runtime)
                     (py "MESSAGE: two reports FILES: 1, x, 2") (py "q")))
    as (message & file_numbers & Hp' & Hall).
  - exists [], (py " two reports FILES: 1, x, 2"). reflexivity.
  - exists (py "MESSAGE: two reports "), (py " 1, x, 2"). reflexivity.
  - exists message, file_numbers. split; [exact Hp' |].
    eapply Forall_impl; [exact Hall |]. intros n [Hn _]. exact Hn.
Defined.

Lemma out_of_range_indices_discarded_witness :
  let self := demo_engine (Ok demo_db) (canned_client (py "MESSAGE: try this one FILES: 999")) in
  let query := py "budget report" in
  len (_get_file_descriptions self) = 10 /\
  ar_file_numbers (search_query (RT := ascii_runtime) (ai_client self) query
                     (_get_file_descriptions self)) = Some [999] /\
  _get_files_by_numbers [999] (_get_file_descriptions self) = Ok [] /\
  exists r, search (RT := ascii_runtime) self query = Ok r /\ files r = _fts_search self query.
Proof.
  intros self query.
  destruct (out_of_range_indices_discarded (RT := ascii_runtime) self query [999]
              (_get_file_descriptions self)) as (_ & _ & H10 & Hfall).
  split; [by vm_compute |]. split; [by vm_compute |].
  split; [apply H10; by vm_compute |].
  apply Hfall.
  - reflexivity.
  - vm_compute. discriminate.
  - by vm_compute.
  - constructor; [right; by vm_compute | constructor].
Defined.


Lemma search_never_raises_and_falls_back_witness :
  (exists r,
     search (RT := ascii_runtime) (demo_engine (Raise locked) offline_client) (py "budget report") = Ok r /\
     r = {| message := no_files_message; files := [] |}) /\
  (let self := demo_engine (Ok demo_db) (canned_client (py "MESSAGE: nothing FILES: none")) in
   exists r,
     search (RT := ascii_runtime) self (py "budget report") = Ok r /\
     files r = _fts_search self (py "budget report") /\
     message r = py "I found 2 files that might match your search for 'budget report':") /\
  (let self := demo_engine (Ok demo_db) (canned_client (py "MESSAGE: nothing FILES: none")) in
   exists r,
     search (RT := ascii_runtime) self (py "minutes") = Ok r /\
     files r = [] /\ message r = py "nothing") /\
  (let self := demo_engine (Ok demo_db) offline_client in
   exists r,
     search (RT := ascii_runtime) self (py "budget report") = Ok r /\
     files r = _fts_search self (py "budget report")).
Proof.
  split; [| split; [| split]].
  - destruct (search_never_raises_and_falls_back (RT := ascii_runtime)
                (demo_engine (Raise locked) offline_client) (py "budget report"))
      as (r & Hr & Hconn & _).
    exists r. split; [exact Hr |]. by apply (Hconn locked).
  - intros self.
    destruct (search_never_raises_and_falls_back (RT := ascii_runtime) self (py "budget report"))
      as (r & Hr & _ & Hfall & _).
    destruct Hfall as (Hf & Hmsg).
    + right. by vm_compute.
    + exists r. split; [exact Hr |]. split; [exact Hf |].
      assert (length (files r) = 2%nat) as Hlen by (rewrite Hf; by vm_compute).
      rewrite Hmsg; [by rewrite Hlen |]. intros Hnil. rewrite Hnil in Hlen. discriminate.
  - intros self.
    destruct (search_never_raises_and_falls_back (RT := ascii_runtime) self (py "minutes"))
      as (r & Hr & _ & Hfall & Hnone & _).
    destruct Hfall as (Hf & _); [right; by vm_compute |].
    assert (files r = []) as Hnil by (rewrite Hf; by vm_compute).
    exists r. split; [exact Hr |]. split; [exact Hnil |].
    rewrite Hnone; [by vm_compute | vm_compute; discriminate | by vm_compute | exact Hnil].
  - intros self.
    destruct (search_never_raises_and_falls_back (RT := ascii_runtime) self (py "budget report"))
      as (r & Hr & _ & _ & _ & Hai).
    exists r. split; [exact Hr |].
    apply (Hai (mk_exc "ConnectionError" [])). by vm_compute.
Defined.




End Instances.

(** ** The enumeration of the files *)

Section Enumeration.

Lemma tree_induction (P : tree -> Prop) :
  (forall dirs files,
     Forall (fun e : list N * option tree =>
               match snd e with Some t => P t | None => True end) dirs ->
     P (Dir dirs files)) ->
  forall t, P t.
Proof.
  intros step. fix IH 1. intros [dirs files]. apply step.
  induction dirs as [|[d [t'|]] ds IHds]; constructor; try done. apply IH.
Qed.

Lemma get_all_files_unfold (root : list (list N)) (dirs : list (list N * option tree))
    (files : list (list N)) :
  _get_all_files root (Dir dirs files) =
  map (fun file => root ++ [file]) (List.filter (fun file => negb (hidden file)) files) ++
  walk_dirs root dirs.
Proof.
  cbn [_get_all_files]. f_equal. unfold walk_dirs.
  induction dirs as [|[d sub] ds IH]; [done |]. cbn [flat_map fst snd]. by rewrite <- IH.
Qed.

(** X1.  [_get_all_files] yields exactly the files of the tree whose name
    does not start with a dot and that lie below the scanned directory
    through directories that are entered, not hidden and not in the ignore
    list. *)
Theorem get_all_files_exact (t : tree) (root : list (list N)) (path : list (list N)) :
  In path (_get_all_files root t) <->
  exists ds file,
    path = root ++ ds ++ [file] /\
    file_at t ds file /\
    Forall (fun d => keep_dir d = true) ds /\
    hidden file = false.
Proof.
  revert root path. induction t as [dirs files IH] using tree_induction.
  intros root path. rewrite get_all_files_unfold, in_app_iff, in_map_iff.
  unfold walk_dirs. rewrite in_flat_map. split.
  - intros [(file & <- & Hin) | ([d sub] & Hin & Hp)].
    + apply filter_In in Hin as [Hin Hh]. exists [], file.
      split; [done |]. split; [by constructor |]. split; [constructor |].
      by destruct (hidden file).
    + cbn [fst snd] in Hp. destruct (keep_dir d) eqn:Hk; [| done].
      destruct sub as [t'|]; [| done].
      rewrite Forall_forall in IH. apply list_elem_of_In in Hin.
      pose proof (IH _ Hin) as IHt. cbn [snd] in IHt.
      apply IHt in Hp as (ds & file & -> & Hat & Hall & Hh).
      exists (d :: ds), file. rewrite <- app_assoc. split; [done |].
      split; [econstructor; [by apply list_elem_of_In | done] |].
      split; [by constructor | done].
  - intros (ds & file & -> & Hat & Hall & Hh). inversion Hat; subst.
    + left. exists file. split; [done |]. apply filter_In. split; [done | by rewrite Hh].
    + right. apply Forall_cons in Hall as [Hk Hall].
      exists (d, Some t). split; [done |]. cbn [fst snd]. rewrite Hk.
      rewrite Forall_forall in IH.
      match goal with H : In (d, Some t) dirs |- _ =>
        apply list_elem_of_In in H; pose proof (IH _ H) as IHt end.
      cbn [snd] in IHt. apply IHt. exists ds0, file. rewrite <- app_assoc. done.
Qed.

End Enumeration.

(** ** What a build keeps *)

Section BuildInvariants.
Context `{RT : PyRuntime}.

Lemma chunks_sizes (fuel : nat) (b : list N) :
  Forall (fun c : list N => c <> [] /\ (length c <= 4096)%nat) (chunks fuel b).
Proof.
  revert b. induction fuel as [|fuel IH]; intros b; [constructor |].
  destruct b as [|x b]; [constructor |]. cbn [chunks]. constructor; [| apply IH].
  split; [done |]. rewrite length_take. lia.
Qed.

Lemma chunks_full (fuel : nat) (b : list N) (i : nat) (c : list N) :
  chunks fuel b !! i = Some c -> (Datatypes.S i < length (chunks fuel b))%nat ->
  length c = 4096%nat.
Proof.
  revert b i c. induction fuel as [|fuel IH]; intros b i c; [done |].
  destruct b as [|x b]; [done |]. cbn [chunks].
  destruct i as [|i]; rewrite lookup_cons, length_cons.
  - intros Hc Hlen.
    assert (4096 < length (x :: b))%nat as Hb.
    { destruct (Nat.lt_ge_cases 4096 (length (x :: b))) as [H | H]; [done |].
      rewrite (drop_ge (x :: b) 4096 H) in Hlen.
      destruct fuel; cbn [chunks length] in Hlen; lia. }
    assert (length (take 4096 (x :: b)) = 4096%nat) as Ht by (rewrite length_take; lia).
    congruence.
  - intros Hc Hlen. apply (IH _ _ _ Hc). lia.
Qed.

(** X2.  The digest of a file that can be read is the MD5 of all its
    bytes: they are hashed in chunks that are never empty, hold 4096 bytes
    each except possibly the last, and together make up the file.  A file
    that cannot be read has the empty digest. *)
Theorem file_hash_covers_whole_file (w : world) (file_path : list N) :
  (forall b, w_read w file_path = Ok b ->
     _get_file_hash w file_path = md5 b /\
     concat (chunks (length b) b) = b /\
     Forall (fun c : list N => c <> [] /\ (length c <= 4096)%nat) (chunks (length b) b) /\
     (forall i c, chunks (length b) b !! i = Some c ->
                  (Datatypes.S i < length (chunks (length b) b))%nat ->
                  length c = 4096%nat)) /\
  (forall e, w_read w file_path = Raise e -> _get_file_hash w file_path = []).
Proof.
  split.
  - intros b Hr. split; [by apply get_file_hash_readable |].
    split; [by apply chunks_concat |]. split; [apply chunks_sizes |].
    intros i c. apply chunks_full.
  - intros e Hr. unfold _get_file_hash. by rewrite Hr.
Qed.

Lemma NoDup_map_filter {A B} (f : A -> B) (g : A -> bool) (l : list A) :
  NoDup (map f l) -> NoDup (map f (List.filter g l)).
Proof.
  induction l as [|x l IH]; simpl; [done |]. intros Hnd.
  apply NoDup_cons in Hnd as [Hx Hl]. destruct (g x); simpl; [| by apply IH].
  apply NoDup_cons. split; [| by apply IH]. intros Hin. apply Hx.
  apply list_elem_of_In in Hin. apply in_map_iff in Hin as (y & Hy & Hin).
  apply filter_In in Hin as [Hin _]. apply list_elem_of_In, in_map_iff. by exists y.
Qed.

Lemma insert_catalog_ok (db : database) (row : file_row) :
  catalog_ok db -> catalog_ok (insert_or_replace_file db row).
Proof.
  intros [Hpaths Hids]. unfold catalog_ok, insert_or_replace_file.
  cbn [Store.files]. rewrite !map_app. cbn [map fst snd]. split.
  - apply NoDup_app. split; [by apply NoDup_map_filter |]. split; [| apply NoDup_singleton].
    intros x Hx Hx'. apply list_elem_of_singleton in Hx'. subst x.
    apply list_elem_of_In, in_map_iff in Hx as ([id r] & Hp & Hin).
    apply filter_In in Hin as [_ Hf]. simpl in *. rewrite Hp, str_eqb_refl in Hf. done.
  - apply NoDup_app. split; [by apply NoDup_map_filter |]. split; [| apply NoDup_singleton].
    intros x Hx Hx'. apply list_elem_of_singleton in Hx'. subst x.
    apply list_elem_of_In, in_map_iff in Hx as (r & Hid & Hin).
    apply filter_In in Hin as [Hin _]. apply max_rowid_bound in Hin. lia.
Qed.

Lemma upsert_catalog_ok (db : database) (file_path : list N) (info : file_info)
    (indexed_time : list N) :
  catalog_ok db -> catalog_ok (upsert db file_path info indexed_time).
Proof.
  intros Hok. apply (insert_catalog_ok db (row_of file_path info indexed_time)) in Hok.
  exact Hok.
Qed.

(** X3.  A build keeps one row per path and one row per id: the catalog
    never holds two records for the same path. *)
Theorem build_keeps_one_row_per_path {S : Type} (w : world) (ai : client)
    (cb : option (@callback S)) (directory_path : list N) (all_files : list (list N))
    (st : @build_state S) :
  catalog_ok (bs_db st) ->
  catalog_ok (bs_db (fst (build_catalog w ai cb directory_path all_files st))) /\
  (forall r1 r2,
     In r1 (Store.files (bs_db (fst (build_catalog w ai cb directory_path all_files st)))) ->
     In r2 (Store.files (bs_db (fst (build_catalog w ai cb directory_path all_files st)))) ->
     r_path (snd r1) = r_path (snd r2) -> r1 = r2).
Proof.
  intros Hok.
  assert (catalog_ok (bs_db (fst (build_catalog w ai cb directory_path all_files st)))) as H.
  { apply (build_catalog_invariant catalog_ok); [| | done].
    - intros db i p info _ Hdb _ _ _. by apply upsert_catalog_ok.
    - intros db i p info e _ Hdb _ _ _ _. by apply insert_catalog_ok. }
  split; [done |]. destruct H as [Hpaths _].
  revert Hpaths.
  generalize (Store.files (bs_db (fst (build_catalog w ai cb directory_path all_files st)))).
  induction l as [|z l IH]; simpl; [done |]. intros Hnd x y Hx Hy Hxy.
  apply NoDup_cons in Hnd as [Hz Hl].
  destruct Hx as [-> | Hx], Hy as [-> | Hy]; try done.
  - destruct Hz. rewrite Hxy. apply list_elem_of_In, in_map_iff. by exists y.
  - destruct Hz. rewrite <- Hxy. apply list_elem_of_In, in_map_iff. by exists x.
  - by apply IH.
Qed.

Lemma process_file_text_bound (w : world) (ai : client) (file_path : list N) (info : file_info) :
  _process_file w ai file_path = Ok (Some info) -> len (fi_content_text info) <= 10003.
Proof.
  intros H.
  destruct (process_file_some _ _ _ _ H) as (stat & mt & text & m & d & _ & _ & Hx & _ & _ & -> & _).
  destruct (extract_bounded w file_path) as (t & m' & Hx' & Hb).
  rewrite Hx in Hx'. injection Hx' as -> _.
  destruct (kind_of _); simpl in Hb; lia.
Qed.

Lemma insert_excerpts_bounded (db : database) (row : file_row) :
  len (r_content_text row) <= 10003 ->
  excerpts_bounded db -> excerpts_bounded (insert_or_replace_file db row).
Proof.
  intros Hb [Hrows Hdocs]. unfold excerpts_bounded, insert_or_replace_file.
  cbn [Store.files files_fts]. split; [| done].
  apply Forall_app. split; [| by repeat constructor].
  apply Forall_forall. intros r Hr. apply list_elem_of_In, filter_In in Hr as [Hr _].
  rewrite Forall_forall in Hrows. by apply Hrows, list_elem_of_In.
Qed.

Lemma upsert_excerpts_bounded (db : database) (file_path : list N) (info : file_info)
    (indexed_time : list N) :
  len (fi_content_text info) <= 10003 ->
  excerpts_bounded db -> excerpts_bounded (upsert db file_path info indexed_time).
Proof.
  intros Hb Hdb.
  destruct (insert_excerpts_bounded db (row_of file_path info indexed_time) Hb Hdb)
    as [Hrows Hdocs].
  unfold excerpts_bounded, upsert, insert_or_replace_fts.
  cbn [Store.files files_fts]. split; [done |]. by apply map_Forall_insert_2.
Qed.

(** X4.  Every excerpt a build stores, in the table and in the full-text
    index, has at most 10003 characters, whatever the size of the file. *)
Theorem build_keeps_excerpts_bounded {S : Type} (w : world) (ai : client)
    (cb : option (@callback S)) (directory_path : list N) (all_files : list (list N))
    (st : @build_state S) :
  excerpts_bounded (bs_db st) ->
  excerpts_bounded (bs_db (fst (build_catalog w ai cb directory_path all_files st))).
Proof.
  intros Hb. apply (build_catalog_invariant excerpts_bounded); [| | done].
  - intros db i p info _ Hdb _ Hp _. apply upsert_excerpts_bounded; [| done].
    by eapply process_file_text_bound.
  - intros db i p info e _ Hdb _ Hp _ _. apply insert_excerpts_bounded; [| done].
    by eapply process_file_text_bound.
Qed.

Lemma process_file_some_stat (w : world) (ai : client) (file_path : list N) (info : file_info) :
  _process_file w ai file_path = Ok (Some info) -> exists stat, w_stat w file_path = Ok stat.
Proof.
  intros Hp. destruct (process_file_some _ _ _ _ Hp) as (stat & ? & ? & ? & ? & Hs & _).
  by exists stat.
Qed.

Lemma upsert_absent_other (db : database) (file_path other : list N) (info : file_info)
    (indexed_time : list N) :
  other <> file_path -> absent db other ->
  absent (upsert db file_path info indexed_time) other.
Proof.
  intros Hne Ha r. unfold upsert, insert_or_replace_fts, insert_or_replace_file.
  cbn [Store.files]. rewrite in_app_iff. intros [Hr | [<- | []]].
  - apply filter_In in Hr as [Hr _]. by apply Ha.
  - simpl. congruence.
Qed.

(** X5.  When the lookups and the insertions into the index meet no error
    of the store, a build keeps the full-text index in lockstep with the
    table if every enumerated path is either new to the catalog or stored
    with the digest the file has now: first-time indexing, and a build
    over an unchanged directory, leave no orphaned and no missing index
    row. *)
Theorem build_keeps_lockstep_on_new_paths {S : Type} (w : world) (ai : client)
    (cb : option (@callback S)) (directory_path : list N) (all_files : list (list N))
    (st : @build_state S) :
  index_answers w ->
  fts_lockstep (bs_db st) ->
  (forall file_path,
     In file_path all_files ->
     absent (bs_db st) file_path \/
     (stored_current w (bs_db st) file_path /\ exists stat, w_stat w file_path = Ok stat)) ->
  fts_lockstep (bs_db (fst (build_catalog w ai cb directory_path all_files st))).
Proof.
  intros Hidx Hl Hpaths.
  pose (Inv := fun db : database =>
    fts_lockstep db /\
    forall file_path,
      In file_path all_files ->
      absent db file_path \/
      (stored_current w db file_path /\ exists stat, w_stat w file_path = Ok stat)).
  assert (Inv (bs_db (fst (build_catalog w ai cb directory_path all_files st)))) as [H _];
    [| done].
  apply (build_catalog_invariant Inv); [| | by split].
  - intros db i q info Hq [Hdb Hall] Hi Hp Hb.
    assert (absent db q) as Habs.
    { destruct (Hall q Hq) as [Ha | [Hs Hstat]]; [done |].
      assert (_is_file_already_indexed w db i q = true) as Ht; [| congruence].
      apply is_indexed_iff. split; [done |].
      split; [by apply bind_row_path in Hb |]. split; [apply Hidx | done]. }
    split; [by apply upsert_new_path_lockstep |].
    intros p Hin. destruct (decide (p = q)) as [-> | Hne].
    + right. split; [| by eapply process_file_some_stat].
      unfold stored_current. rewrite select_upsert_same. f_equal.
      by eapply process_file_hash.
    + destruct (Hall p Hin) as [Ha | [Hs Hstat]].
      * left. by apply upsert_absent_other.
      * right. split; [| done]. unfold stored_current. by rewrite select_upsert_other.
  - intros db i q info e _ _ _ _ _ He. destruct (Hidx i) as [_ Hf]. congruence.
Qed.

End BuildInvariants.

(** ** What the extractors record *)

Section ExtractorFacts.
Context `{RT : PyRuntime}.

Lemma dict_get_set {V} (k k' : list N) (v : V) (d : list (list N * V)) :
  dict_get k (dict_set k' v d) = if str_eqb k k' then Some v else dict_get k d.
Proof.
  induction d as [|[k0 v0] d IH]; simpl; [done |].
  destruct (str_eqb k' k0) eqn:E; simpl.
  - apply str_eqb_eq in E as <-. by destruct (str_eqb k k').
  - rewrite IH. destruct (str_eqb k k0) eqn:E0; [| done].
    apply str_eqb_eq in E0 as <-.
    destruct (str_eqb k k') eqn:E1; [| done].
    apply str_eqb_eq in E1 as <-. by rewrite str_eqb_refl in E.
Qed.

Lemma dict_set_Forall {V} (P : list N * V -> Prop) (k : list N) (v : V) (d : list (list N * V)) :
  P (k, v) -> Forall P d -> Forall P (dict_set k v d).
Proof.
  intros Hkv. induction 1 as [|[k0 v0] d H0 Hd IH]; simpl; [by repeat constructor |].
  destruct (str_eqb k k0); by constructor.
Qed.



Lemma pages_text_all (ts : list (list N)) (text : list N) :
  pages_text text (map Ok ts) = Ok (text ++ concat (map (fun t => t ++ nl) ts)).
Proof.
  revert text. induction ts as [|t ts IH]; intros text; simpl.
  - by rewrite app_nil_r.
  - rewrite IH. by rewrite <- !app_assoc.
Qed.

Lemma pages_text_fails (ts : list (list N)) (e : PyExc) (rest : list (res (list N)))
    (text : list N) :
  pages_text text (map Ok ts ++ Raise e :: rest) = Raise e.
Proof. revert text. induction ts as [|t ts IH]; intros text; simpl; [done | apply IH]. Qed.

(** X7.  Of a PDF only the first five pages are read: when they extract,
    the text is the first 5000 characters of their texts, each followed by
    a newline, whatever the later pages are; when one of them fails, the
    result is the error of the first page that fails.  [page_count] is the
    number of all pages. *)
Theorem pdf_reads_first_five_pages (w : world) (file_path : list N)
    (pages : list (res (list N))) :
  w_pdf w file_path = Ok pages ->
  (forall ts,
     take 5 pages = map Ok ts ->
     let full := concat (map (fun t => t ++ nl) ts) in
     _extract_pdf_content w file_path =
       Ok (slice_to full 5000,
           [(py "file_type", VStr (py "pdf"));
            (py "page_count", VInt (len pages));
            (py "char_count", VInt (len full))])) /\
  (forall ts e rest,
     take 5 pages = map Ok ts ++ Raise e :: rest ->
     _extract_pdf_content w file_path = Ok ([], [(py "error", VStr (exc_str e))])).
Proof.
  intros Hp. unfold _extract_pdf_content, pdf_body. rewrite Hp. simpl. split.
  - intros ts Ht. by rewrite Ht, pages_text_all.
  - intros ts e rest Ht. by rewrite Ht, pages_text_fails.
Qed.

Lemma exif_entries_keeps (entries metadata : list (list N * pyval)) (k : list N) :
  (forall tag, k <> py "exif_" ++ tag) ->
  dict_get k (exif_entries entries metadata) = dict_get k metadata.
Proof.
  intros Hk. revert metadata. induction entries as [|[tag v] entries IH]; intros metadata; [done |].
  cbn [exif_entries]. destruct v as [|value| |]; try apply IH.
  destruct (len value <? 100); [| apply IH].
  rewrite IH, dict_get_set, str_eqb_neq; [done | apply Hk].
Qed.

Lemma exif_entries_ok (entries metadata : list (list N * pyval)) :
  Forall exif_ok metadata -> Forall exif_ok (exif_entries entries metadata).
Proof.
  revert metadata. induction entries as [|[tag v] entries IH]; intros metadata Hm; [done |].
  cbn [exif_entries]. destruct v as [|value| |]; try by apply IH.
  destruct (Z.ltb_spec (len value) 100); [| by apply IH].
  apply IH, dict_set_Forall; [| done]. right. by exists tag, value.
Qed.

(** X8.  The EXIF tags of an image never replace its format, size, mode or
    file type: every other key of the metadata starts with [exif_] and
    holds a string of fewer than 100 characters; an image has no text. *)
Theorem image_metadata_keys (w : world) (file_path text : list N) (img : image)
    (metadata : list (list N * pyval)) :
  w_image w file_path = Ok img ->
  image_body w file_path = Ok (text, metadata) ->
  text = [] /\
  dict_get (py "file_type") metadata = Some (VStr (py "image")) /\
  dict_get (py "format") metadata = Some (img_format img) /\
  dict_get (py "size") metadata = Some (img_size img) /\
  dict_get (py "mode") metadata = Some (img_mode img) /\
  Forall exif_ok metadata.
Proof.
  intros Hi. unfold image_body. rewrite Hi. simpl.
  set (base := [(py "file_type", VStr (py "image")); (py "format", img_format img);
                (py "size", img_size img); (py "mode", img_mode img)]).
  assert (Forall exif_ok base) as Hbase.
  { repeat constructor; left; simpl; tauto. }
  assert (forall k v, In k [py "file_type"; py "format"; py "size"; py "mode"] ->
                      dict_get k base = Some v ->
                      forall entries, dict_get k (exif_entries entries base) = Some v) as Hkeep.
  { intros k v Hk Hv entries. rewrite exif_entries_keeps; [done |].
    intros tag Heq. subst k. simpl in Hk.
    destruct Hk as [H | [H | [H | [H | []]]]]; discriminate H. }
  destruct (img_getexif img) as [[entries|e]|]; simpl; [| done |].
  - intros [= <- <-]. split; [done |].
    repeat split; try (apply Hkeep; [simpl; tauto | done]).
    by apply exif_entries_ok.
  - intros [= <- <-]. repeat split; done.
Qed.

End ExtractorFacts.

(** ** Sizes and prompts *)

Section Presentation.
Context `{RT : PyRuntime}.

Lemma tenths_below (x den : Z) :
  0 <= x -> 0 < den -> x < 1024 * den -> 0 <= tenths x den <= 10240.
Proof.
  intros Hx Hd Hlt. unfold tenths. cbv zeta. rewrite (Z.abs_eq x) by done.
  pose proof (Z.div_mod (10 * x) den ltac:(lia)) as Hdm.
  pose proof (Z.mod_pos_bound (10 * x) den Hd) as Hr.
  assert (0 <= 10 * x / den) by (apply Z.div_pos; lia).
  assert (10 * x / den <= 10239).
  { assert (10 * x / den < 10240); [| lia]. apply Z.div_lt_upper_bound; lia. }
  destruct (_ || _); lia.
Qed.

(** X9.  Below one TB the number that [_format_file_size] prints is never
    above 1024.0, and the unit is one of B, KB, MB, GB; a size below 1024
    is printed exactly, in bytes, as [n.0 B]. *)
Theorem format_size_number_range (n : Z) :
  0 <= n < 1024 ^ 4 ->
  exists t unit,
    _format_file_size (Some n) =
      str_of_Z (t / 10) ++ py "." ++ str_of_Z (t mod 10) ++ py " " ++ unit /\
    In unit [py "B"; py "KB"; py "MB"; py "GB"] /\
    0 <= t <= 10240 /\
    (n < 1024 -> t = 10 * n /\ unit = py "B" /\
                 _format_file_size (Some n) = str_of_Z n ++ py ".0 B").
Proof.
  intros [H0 Hn]. change (1024 ^ 4) with 1099511627776 in Hn.
  assert (float_of_int n = n) as Hfl.
  { apply float_of_int_exact. change (2 ^ 53) with 9007199254740992. lia. }
  assert (forall den unit, one_decimal n den ++ py " " ++ unit =
            str_of_Z (tenths n den / 10) ++ py "." ++ str_of_Z (tenths n den mod 10) ++
            py " " ++ unit) as Hone.
  { intros den unit. unfold one_decimal. cbv zeta.
    destruct (Z.ltb_spec n 0); [lia |]. by rewrite <- !app_assoc. }
  unfold _format_file_size. cbn [format_loop lt_1024 div_1024 format_1f]. rewrite Hfl.
  destruct (Z.ltb_spec n 1024) as [H1 | H1].
  { exists (tenths n 1), (py "B"). split; [apply Hone |].
    split; [simpl; tauto |]. split; [apply tenths_below; lia |]. intros _.
    assert (tenths n 1 = 10 * n) as Ht.
    { unfold tenths. cbv zeta. rewrite (Z.abs_eq n), Z.div_1_r, Z.mod_1_r by done. done. }
    split; [done |]. split; [done |]. rewrite Hone, Ht.
    replace (10 * n / 10) with n by (rewrite Z.mul_comm, Z.div_mul; lia).
    replace (10 * n mod 10) with 0 by (rewrite Z.mul_comm, Z.mod_mul; lia).
    done. }
  change (1024 * 2 ^ 10) with 1048576. change (2 ^ 10) with 1024.
  destruct (Z.ltb_spec n 1048576) as [H2 | H2].
  { exists (tenths n 1024), (py "KB"). split; [apply Hone |].
    split; [simpl; tauto |]. split; [apply tenths_below; lia | lia]. }
  change (1024 * 2 ^ (10 + 10)) with 1073741824. change (2 ^ (10 + 10)) with 1048576.
  destruct (Z.ltb_spec n 1073741824) as [H3 | H3].
  { exists (tenths n 1048576), (py "MB"). split; [apply Hone |].
    split; [simpl; tauto |]. split; [apply tenths_below; lia | lia]. }
  change (1024 * 2 ^ (10 + 10 + 10)) with 1099511627776.
  change (2 ^ (10 + 10 + 10)) with 1073741824.
  destruct (Z.ltb_spec n 1099511627776) as [H4 | H4]; [| lia].
  exists (tenths n 1073741824), (py "GB"). split; [apply Hone |].
  split; [simpl; tauto |]. split; [apply tenths_below; lia | lia].
Qed.

Lemma prompt_lines_app (l1 l2 : list file_desc) (i : nat) :
  prompt_lines i (l1 ++ l2) = prompt_lines i l1 ++ prompt_lines (i + length l1) l2.
Proof.
  revert i. induction l1 as [|x l1 IH]; intros i; simpl.
  - by rewrite Nat.add_0_r.
  - rewrite IH, <- app_assoc. do 3 f_equal. lia.
Qed.

(** X10.  The numbers of the prompt and of the selection agree: the
    candidate that the prompt lists under the number [k] is the one that
    the index [k] selects. *)
Theorem prompt_numbers_match_selection (query : list N) (file_descriptions : list file_desc)
    (k : Z) (file_info : file_desc) :
  1 <= k <= 50 ->
  file_descriptions !! Z.to_nat (k - 1) = Some file_info ->
  (exists after,
     _create_search_prompt query file_descriptions =
       (py "User is searching for: '" ++ query ++ py "'" ++ nl ++ nl ++
        py "Here are the available files with their descriptions:" ++ nl ++ nl) ++
       prompt_lines 0 (take (Z.to_nat (k - 1)) file_descriptions) ++
       (str_of_Z k ++ py ". " ++ fd_name file_info ++ py " - " ++
        fd_description file_info ++ nl) ++
       after) /\
  _get_files_by_numbers [k] file_descriptions = Ok [summary_of file_info].
Proof.
  intros Hk Hfd. split.
  - unfold _create_search_prompt. cbv zeta.
    assert (take 50 file_descriptions =
            take (Z.to_nat (k - 1)) file_descriptions ++
            file_info :: drop (Datatypes.S (Z.to_nat (k - 1))) (take 50 file_descriptions)) as ->.
    { rewrite <- (take_drop_middle (take 50 file_descriptions) (Z.to_nat (k - 1)) file_info) at 1.
      - rewrite take_take. f_equal. f_equal. lia.
      - rewrite lookup_take_lt by lia. done. }
    rewrite prompt_lines_app. cbn [prompt_lines]. unfold prompt_line at 1.
    assert (Z.of_nat (0 + length (take (Z.to_nat (k - 1)) file_descriptions)) + 1 = k) as ->.
    { rewrite length_take. apply lookup_lt_Some in Hfd. lia. }
    eexists. rewrite <- !app_assoc. reflexivity.
  - assert (in_range (len file_descriptions) k = true) as Hin.
    { unfold in_range, len. apply lookup_lt_Some in Hfd.
      apply andb_true_iff. split; apply Z.leb_le; lia. }
    destruct (list_index_in_range _ _ Hin) as (x & Hx & Hi).
    rewrite Hfd in Hx. injection Hx as <-.
    simpl. fold (in_range (len file_descriptions) k). by rewrite Hin, Hi.
Qed.

(** X11.  A description prompt holds at most the first 2000 characters of
    the content and an ellipsis: it is at most 2021 characters longer than
    the prompt of the same file without content, and two contents of more
    than 2000 characters that agree on the first 2000 give the same
    prompt. *)
Theorem description_prompt_bounded (file_path file_content : list N)
    (metadata : list (list N * pyval)) :
  len (_create_description_prompt file_path file_content metadata) <=
    len (_create_description_prompt file_path [] metadata) + 2021 /\
  (forall other,
     2000 < len file_content -> 2000 < len other ->
     slice_to file_content 2000 = slice_to other 2000 ->
     _create_description_prompt file_path file_content metadata =
     _create_description_prompt file_path other metadata).
Proof.
  unfold _create_description_prompt. cbv zeta.
  match goal with |- context [match metadata with [] => ?a | _ :: _ => ?b end] =>
    set (head := match metadata with [] => a | _ :: _ => b end) end.
  split.
  - destruct file_content as [|c content]; [lia |].
    assert (len (if 2000 <? len (c :: content)
                 then slice_to (c :: content) 2000 ++ py "..."
                 else c :: content) <= 2003) as Hpre.
    { destruct (Z.ltb_spec 2000 (len (c :: content))); [| lia].
      pose proof (len_slice_to (c :: content) 2000 ltac:(lia)).
      unfold len in *. rewrite length_app. simpl length. lia. }
    unfold len in *. rewrite !length_app.
    change (length (py "Content preview: ")) with 17%nat.
    change (length nl) with 1%nat. lia.
  - intros other H1 H2 Heq.
    destruct file_content as [|c content]; [unfold len in H1; simpl in H1; lia |].
    destruct other as [|c' other]; [unfold len in H2; simpl in H2; lia |].
    apply Z.ltb_lt in H1, H2. by rewrite H1, H2, Heq.
Qed.

End Presentation.

(** ** Catalog statistics *)

Section Statistics.





End Statistics.

(** ** The answer format of the ranking backend *)

Section AnswerFormat.
Context `{RT : PyRuntime}.

Lemma py_String (a : ascii) (s : string) : py (String a s) = N_of_ascii a :: py s.
Proof. reflexivity. Qed.

Lemma digits_val_cons (acc : Z) (c : N) (cs : list N) :
  digits_val acc (c :: cs) = digits_val (10 * acc + Z.of_N (c - 48)) cs.
Proof. reflexivity. Qed.

Lemma uint_digits (d : Decimal.uint) :
  forallb ascii_digit (py (NilEmpty.string_of_uint d)) = true /\
  forall acc, digits_val (Z.pos acc) (py (NilEmpty.string_of_uint d)) =
              Z.pos (Pos.of_uint_acc d acc).
Proof.
  induction d as [|d [IH1 IH2]|d [IH1 IH2]|d [IH1 IH2]|d [IH1 IH2]|d [IH1 IH2]|d [IH1 IH2]
                  |d [IH1 IH2]|d [IH1 IH2]|d [IH1 IH2]|d [IH1 IH2]];
    cbn [NilEmpty.string_of_uint Pos.of_uint_acc]; [done | ..];
    rewrite py_String; vm_compute (N_of_ascii _); (split; [exact IH1 |]); intros acc;
    rewrite digits_val_cons, <- IH2; f_equal; lia.
Qed.

Lemma uint_value (d : Decimal.uint) :
  digits_val 0 (py (NilEmpty.string_of_uint d)) = Z.of_N (Pos.of_uint d).
Proof.
  induction d; cbn [NilEmpty.string_of_uint Pos.of_uint]; [done | ..];
    rewrite py_String; vm_compute (N_of_ascii _); rewrite digits_val_cons;
    [exact IHd | ..];
    match goal with |- digits_val ?a _ = _ =>
      let v := eval vm_compute in a in change a with v end;
    apply (proj2 (uint_digits d)).
Qed.

Lemma str_of_Z_digits (n : Z) :
  0 <= n -> digit_string (str_of_Z n) /\ digits_val 0 (str_of_Z n) = n.
Proof.
  intros Hn. unfold str_of_Z. pose proof (DecimalZ.of_to n) as Hof.
  destruct (Z.to_int n) as [d|d] eqn:E; [| destruct n; [done | done | lia]].
  cbn [NilZero.string_of_int]. cbn [Z.of_int] in Hof. unfold Z.of_uint in Hof.
  destruct d; cbn [NilZero.string_of_uint];
    [split; [by split |]; by rewrite <- Hof | ..];
    (split; [split; [cbn [NilEmpty.string_of_uint]; by rewrite py_String
                    | apply (proj1 (uint_digits _))]
            | by rewrite uint_value]).
Qed.

Lemma scan_digits_digits (s : list N) (prev : N) (acc ndig : Z) :
  forallb ascii_digit s = true -> prev <> 95%N ->
  scan_digits prev acc ndig s = Some (digits_val acc s, ndig + len s, []).
Proof.
  revert prev acc ndig. induction s as [|c s IH]; intros prev acc ndig Hs Hp.
  - cbn [scan_digits]. apply N.eqb_neq in Hp. rewrite Hp. unfold len. simpl.
    by rewrite Z.add_0_r.
  - cbn [forallb] in Hs. apply andb_true_iff in Hs as [Hc Hs].
    cbn [scan_digits]. rewrite Hc, digits_val_cons, IH; [| done |].
    + do 2 f_equal. unfold len. cbn [length]. f_equal. lia.
    + unfold ascii_digit in Hc. apply andb_true_iff in Hc as [_ Hc]. apply N.leb_le in Hc. lia.
Qed.

Lemma digit_facts (c : N) :
  ascii_digit c = true ->
  is_ascii c = true /\ isspace c = false /\ c_isspace c = false /\
  (c =? 43)%N = false /\ (c =? 45)%N = false /\ (c =? 95)%N = false /\
  (c =? 44)%N = false /\ ascii_lower c = c /\ char_isdigit c = true.
Proof.
  intros Hc. unfold char_isdigit. rewrite Hc.
  unfold ascii_digit in Hc. apply andb_true_iff in Hc as [H1 H2].
  apply N.leb_le in H1, H2.
  assert (c = 48 \/ c = 49 \/ c = 50 \/ c = 51 \/ c = 52 \/ c = 53 \/ c = 54 \/ c = 55 \/
          c = 56 \/ c = 57)%N as Hcases by lia.
  repeat (destruct Hcases as [-> | Hcases]; [by vm_compute |]). subst c. by vm_compute.
Qed.

Lemma to_ascii_decimal_ascii (s : list N) :
  forallb is_ascii s = true -> to_ascii_decimal s = s.
Proof.
  induction s as [|c s IH]; [done |]. cbn [forallb to_ascii_decimal].
  intros [Hc Hs]%andb_true_iff. by rewrite Hc, IH.
Qed.

Lemma digits_ascii (s : list N) : forallb ascii_digit s = true -> forallb is_ascii s = true.
Proof.
  induction s as [|c s IH]; [done |]. cbn [forallb]. intros [Hc Hs]%andb_true_iff.
  apply andb_true_iff. split; [apply (digit_facts c Hc) | by apply IH].
Qed.

(** [int] of a string of ASCII digits *)
Lemma py_int_digits (s : list N) :
  digit_string s ->
  int_max_str_digits <= 0 \/ len s <= int_max_str_digits ->
  isdigit s = true /\ py_int s = Ok (digits_val 0 s).
Proof.
  intros [Hne Hd] Hmax. destruct s as [|c s]; [done |]. split.
  - cbn [isdigit]. apply forallb_forall. intros x Hx.
    rewrite forallb_forall in Hd. apply digit_facts. by apply Hd.
  - unfold py_int. rewrite to_ascii_decimal_ascii by by apply digits_ascii.
    pose proof Hd as Hd'. cbn [forallb] in Hd'. apply andb_true_iff in Hd' as [Hc _].
    destruct (digit_facts c Hc) as (_ & _ & Hsp & H43 & H45 & H95 & _).
    cbn [skip_c_space]. rewrite Hsp. cbn [parse_sign]. rewrite H43, H45.
    cbn [leading_underscore]. rewrite H95.
    rewrite scan_digits_digits; [| done | done].
    assert (0 < len (c :: s)) as Hlen by (unfold len; cbn [length]; lia).
    destruct (Z.eqb_spec (0 + len (c :: s)) 0) as [H0 | _]; [lia |].
    cbn [skip_c_space].
    assert ((0 <? int_max_str_digits) && (int_max_str_digits <? 0 + len (c :: s)) = false) as ->.
    { apply andb_false_iff. destruct Hmax; [left | right]; apply Z.ltb_ge; lia. }
    done.
Qed.


Lemma lstrip_nonspace (c : N) (s : list N) : isspace c = false -> lstrip (c :: s) = c :: s.
Proof. intros H. cbn [lstrip]. by rewrite H. Qed.

Lemma rstrip_nonspace (s : list N) (c : N) : isspace c = false -> rstrip (s ++ [c]) = s ++ [c].
Proof.
  intros H. unfold rstrip. rewrite rev_app_distr. cbn [rev app].
  rewrite lstrip_nonspace by done. cbn [rev]. by rewrite rev_involutive.
Qed.

Lemma lstrip_app_space (s : list N) :
  lstrip (s ++ [32%N]) = match lstrip s with [] => [] | _ => lstrip s ++ [32%N] end.
Proof.
  induction s as [|c s IH]; [done |]. cbn [app lstrip]. destruct (isspace c); [exact IH | done].
Qed.

Lemma strip_space_l (s : list N) : strip (32%N :: s) = strip s.
Proof. reflexivity. Qed.

Lemma strip_space_r (s : list N) : strip (s ++ [32%N]) = strip s.
Proof.
  unfold strip. rewrite lstrip_app_space. destruct (lstrip s) as [|c t] eqn:E; [done |].
  unfold rstrip. rewrite rev_app_distr. reflexivity.
Qed.

(** A string that begins and ends with a digit is its own [strip]. *)
Lemma strip_edges (s : list N) :
  (exists t x, digit_string t /\ s = t ++ x) ->
  (exists x t, digit_string t /\ s = x ++ t) ->
  strip s = s.
Proof.
  intros (t & x & [Ht Hd] & Hs) (x' & t' & [Ht' Hd'] & Hs'). unfold strip.
  assert (lstrip s = s) as ->.
  { rewrite Hs. destruct t as [|c t]; [done |]. cbn [forallb] in Hd.
    apply andb_true_iff in Hd as [Hc _]. apply lstrip_nonspace, (digit_facts c Hc). }
  rewrite Hs'. destruct (exists_last Ht') as (u & c & ->).
  rewrite forallb_app in Hd'. apply andb_true_iff in Hd' as [_ Hc]. cbn [forallb] in Hc.
  rewrite andb_true_r in Hc. rewrite app_assoc. apply rstrip_nonspace, (digit_facts c Hc).
Qed.

Lemma split_on_nonempty (sep : N) (s : list N) : split_on sep s <> [].
Proof.
  induction s as [|c s IH]; [done |]. cbn [split_on].
  destruct (N.eqb c sep); [done |]. by destruct (split_on sep s).
Qed.

Lemma split_on_app (sep : N) (t s : list N) :
  Forall (fun c => (c =? sep)%N = false) t ->
  split_on sep (t ++ s) =
    match split_on sep s with
    | [] => [t]
    | w :: ws => (t ++ w) :: ws
    end.
Proof.
  pose proof (split_on_nonempty sep s) as Hne.
  induction 1 as [|c t Hc Ht IH]; cbn [app split_on].
  - by destruct (split_on sep s).
  - rewrite Hc, IH. by destruct (split_on sep s).
Qed.

Lemma digit_string_no_comma (t : list N) :
  digit_string t -> Forall (fun c => (c =? 44)%N = false) t.
Proof.
  intros [_ Hd]. apply Forall_forall. intros c Hc. rewrite forallb_forall in Hd.
  apply digit_facts, Hd. by apply list_elem_of_In.
Qed.

(** The tokens of a list written with [", "] between its entries *)
Lemma split_join_digits (t : list N) (ts : list (list N)) :
  Forall digit_string (t :: ts) ->
  split_on 44%N (join (py ", ") (t :: ts)) = t :: map (cons 32%N) ts.
Proof.
  revert t. induction ts as [|t' ts IH]; intros t Hall.
  - cbn [join map]. rewrite <- (app_nil_r t) at 1.
    rewrite split_on_app by (apply digit_string_no_comma; by inversion Hall).
    cbn [split_on]. by rewrite app_nil_r.
  - change (join (py ", ") (t :: t' :: ts)) with
      (t ++ 44%N :: 32%N :: join (py ", ") (t' :: ts)).
    rewrite split_on_app by (apply digit_string_no_comma; by inversion Hall).
    cbn [split_on N.eqb Pos.eqb]. rewrite IH by by inversion Hall.
    cbn [map]. by rewrite app_nil_r.
Qed.

Lemma join_edges (sep : list N) (t : list N) (ts : list (list N)) :
  Forall digit_string (t :: ts) ->
  (exists x, join sep (t :: ts) = t ++ x) /\
  (exists x t', digit_string t' /\ join sep (t :: ts) = x ++ t').
Proof.
  revert t. induction ts as [|t' ts IH]; intros t Hall.
  - cbn [join]. split; [exists []; by rewrite app_nil_r |].
    exists [], t. split; [by inversion Hall | done].
  - change (join sep (t :: t' :: ts)) with (t ++ sep ++ join sep (t' :: ts)).
    split; [by eexists |].
    destruct (IH t') as [_ (x & tl & Htl & ->)]; [by inversion Hall |].
    exists (t ++ sep ++ x), tl. split; [done |]. by rewrite <- !app_assoc.
Qed.

Lemma join_plain (ts : list (list N)) :
  Forall digit_string ts ->
  Forall (fun c => is_ascii c = true /\ ascii_lower c = c) (join (py ", ") ts).
Proof.
  assert (forall t, digit_string t ->
            Forall (fun c => is_ascii c = true /\ ascii_lower c = c) t) as Hd.
  { intros t [_ Ht]. apply Forall_forall. intros c Hc. rewrite forallb_forall in Ht.
    apply list_elem_of_In, Ht in Hc. destruct (digit_facts c Hc) as (? & _ & _ & _ & _ & _ & _ & ? & _).
    done. }
  induction ts as [|t ts IH]; intros Hall; [constructor |].
  destruct ts as [|t' ts]; [apply Hd; by inversion Hall |].
  change (join (py ", ") (t :: t' :: ts)) with
    (t ++ 44%N :: 32%N :: join (py ", ") (t' :: ts)).
  apply Forall_app. split; [apply Hd; by inversion Hall |].
  constructor; [done |]. constructor; [done |]. apply IH. by inversion Hall.
Qed.

Lemma lower_plain (s : list N) :
  Forall (fun c => is_ascii c = true /\ ascii_lower c = c) s -> lower s = s.
Proof.
  intros H. unfold lower.
  assert (forallb is_ascii s = true) as ->.
  { apply forallb_forall. intros c Hc. rewrite Forall_forall in H.
    by apply list_elem_of_In, H in Hc as [? _]. }
  induction H as [|c s [_ Hc] Hs IH]; [done |]. cbn [map]. by rewrite Hc, IH.
Qed.

Lemma comprehension_digits (l toks : list (list N)) :
  Forall2 (fun x tok => strip x = tok) l toks ->
  Forall digit_string toks ->
  int_max_str_digits <= 0 \/ Forall (fun tok => len tok <= int_max_str_digits) toks ->
  comprehension_if (fun x => py_int (strip x)) (fun x => isdigit (strip x)) l =
    Ok (map (digits_val 0) toks).
Proof.
  induction 1 as [|x tok l toks Hx Hl IH]; intros Hd Hmax; [done |].
  apply Forall_cons in Hd as [Htok Hd].
  assert (int_max_str_digits <= 0 \/ len tok <= int_max_str_digits) as Hm.
  { destruct Hmax as [H | H]; [by left | right; by inversion H]. }
  destruct (py_int_digits tok Htok Hm) as [Hisd Hint].
  cbn [comprehension_if]. rewrite Hx, Hisd, Hint, IH; [done | done |].
  destruct Hmax as [H | H]; [by left | right; by inversion H].
Qed.

Lemma find_from_here (sub s : list N) (i : Z) :
  starts_with sub s = true -> find_from sub s i = i.
Proof. intros H. destruct s; cbn [find_from]; by rewrite H. Qed.

Lemma find_from_skip (sub a s : list N) (i : Z) :
  (forall j, (j < length a)%nat -> starts_with sub (drop j (a ++ s)) = false) ->
  find_from sub (a ++ s) i = find_from sub s (i + len a).
Proof.
  revert i. induction a as [|x a IH]; intros i Hno.
  - unfold len. cbn [app length]. f_equal. lia.
  - pose proof (Hno 0%nat ltac:(cbn [length]; lia)) as H0. cbn [drop app] in H0.
    cbn [app find_from]. rewrite H0, IH.
    + f_equal. unfold len. cbn [length]. lia.
    + intros j Hj. apply (Hno (Datatypes.S j)). cbn [length]. lia.
Qed.

(** [FILES:] has no proper overlap with itself: an occurrence that starts
    inside [m] lies inside [m]. *)
Lemma files_marker_straddle (m rest : list N) (j : nat) :
  (j < length m)%nat ->
  starts_with (py "FILES:") (drop j (m ++ py "FILES:" ++ rest)) = true ->
  occurs (py "FILES:") m.
Proof.
  intros Hj H. apply starts_with_iff in H as [t Ht].
  rewrite drop_app_le in Ht by lia.
  assert (exists b, drop j m = py "FILES:" ++ b) as [b Hb];
    [| exists (take j m), b; by rewrite <- Hb, take_drop].
  assert (drop j m <> []) as Hne.
  { intros E. apply (f_equal length) in E. rewrite length_drop in E. simpl in E. lia. }
  change (py "FILES:") with [70; 73; 76; 69; 83; 58]%N in *.
  destruct (drop j m) as [|c1 [|c2 [|c3 [|c4 [|c5 [|c6 b]]]]]]; [done | ..];
    cbn [app] in Ht; try congruence.
  exists b. cbn [app]. congruence.
Qed.

Lemma find_markers (m f : list N) :
  ~ occurs (py "FILES:") m ->
  find (py "MESSAGE:" ++ m ++ py "FILES:" ++ f) (py "MESSAGE:") = 0 /\
  find (py "MESSAGE:" ++ m ++ py "FILES:" ++ f) (py "FILES:") = 8 + len m.
Proof.
  intros Hno. split.
  - apply find_from_here, starts_with_iff. by eexists.
  - unfold find. rewrite (app_assoc (py "MESSAGE:") m), find_from_skip.
    + rewrite find_from_here by (apply starts_with_iff; by eexists).
      unfold len. rewrite length_app. change (length (py "MESSAGE:")) with 8%nat. lia.
    + intros j Hj. rewrite <- app_assoc.
      change (py "MESSAGE:") with [77; 69; 83; 83; 65; 71; 69; 58]%N.
      do 8 (destruct j as [|j]; [reflexivity |]).
      cbn [app drop].
      destruct (starts_with _ _) eqn:E; [| done].
      exfalso. apply Hno. apply (files_marker_straddle m f j); [| done].
      rewrite length_app in Hj. change (length (py "MESSAGE:")) with 8%nat in Hj. lia.
Qed.

Lemma slice_middle (a m b : list N) : slice (a ++ m ++ b) (len a) (len a + len m) = m.
Proof.
  unfold slice, clamp_index, len. rewrite !length_app.
  destruct (Z.ltb_spec (Z.of_nat (length a)) 0); [lia |].
  destruct (Z.ltb_spec (Z.of_nat (length a) + Z.of_nat (length m)) 0); [lia |].
  rewrite !Z.min_l by lia.
  replace (Z.to_nat (Z.of_nat (length a))) with (length a) by lia.
  replace (Z.to_nat (_ - _)) with (length m) by lia.
  by rewrite drop_app_length, take_app_length.
Qed.

Lemma slice_from_app (a b : list N) : slice_from (a ++ b) (len a) = b.
Proof.
  unfold slice_from, clamp_index, len. rewrite length_app.
  destruct (Z.ltb_spec (Z.of_nat (length a)) 0); [lia |].
  rewrite Z.min_l by lia. rewrite Nat2Z.id. apply drop_app_length.
Qed.

Lemma map_digits_str (ns : list Z) :
  Forall (fun n => 0 <= n) ns ->
  Forall digit_string (map str_of_Z ns) /\ map (digits_val 0) (map str_of_Z ns) = ns.
Proof.
  induction 1 as [|n ns Hn Hns [IH1 IH2]]; [by split |]. cbn [map].
  destruct (str_of_Z_digits n Hn) as [Hd Hv]. split; [by constructor | by rewrite Hv, IH2].
Qed.

(** The two slices of an answer in the requested format *)
Lemma parse_answer (m f query : list N) :
  ~ occurs (py "FILES:") m ->
  _parse_search_response (py "MESSAGE:" ++ m ++ py "FILES:" ++ f) query =
    {| ar_message := Some (strip m);
       ar_file_numbers :=
         Some (if negb (str_eqb (lower (strip f)) (py "none"))
               then try_value
                      (comprehension_if (fun x => py_int (strip x)) (fun x => isdigit (strip x))
                         (split_on 44%N (strip f)))
                      (fun _ => [])
               else []);
       ar_files := None |}.
Proof.
  intros Hno. destruct (find_markers m f Hno) as [Hm Hf].
  unfold _parse_search_response. cbv zeta. rewrite Hm, Hf.
  assert ((8 + len m =? -1) = false) as -> by (apply Z.eqb_neq; unfold len; lia).
  cbn [Z.eqb negb andb]. unfold try_value at 1. cbn [mret res_ret].
  assert (slice (py "MESSAGE:" ++ m ++ py "FILES:" ++ f) (0 + 8) (8 + len m) = m) as ->
    by exact (slice_middle (py "MESSAGE:") m (py "FILES:" ++ f)).
  assert (slice_from (py "MESSAGE:" ++ m ++ py "FILES:" ++ f) (8 + len m + 6) = f) as ->.
  { replace (8 + len m + 6) with (len (py "MESSAGE:" ++ m ++ py "FILES:")).
    - rewrite (app_assoc m), (app_assoc (py "MESSAGE:")). apply slice_from_app.
    - unfold len. rewrite !length_app. change (length (py "FILES:")) with 6%nat.
      change (length (py "MESSAGE:")) with 8%nat. lia. }
  done.
Qed.

(** The numbers read from a list written with [", "] between its entries *)
Lemma parse_number_list (ns : list Z) :
  Forall (fun n => 0 <= n) ns ->
  int_max_str_digits <= 0 \/ Forall (fun n => len (str_of_Z n) <= int_max_str_digits) ns ->
  let f := py " " ++ join (py ", ") (map str_of_Z ns) in
  (if negb (str_eqb (lower (strip f)) (py "none"))
   then try_value
          (comprehension_if (fun x => py_int (strip x)) (fun x => isdigit (strip x))
             (split_on 44%N (strip f)))
          (fun _ => [])
   else []) = ns.
Proof.
  intros Hns Hmax f. subst f.
  destruct (map_digits_str ns Hns) as [Hd Hv].
  change (py " " ++ join (py ", ") (map str_of_Z ns)) with
    (32%N :: join (py ", ") (map str_of_Z ns)).
  rewrite strip_space_l.
  assert (int_max_str_digits <= 0 \/
          Forall (fun tok => len tok <= int_max_str_digits) (map str_of_Z ns)) as Hmax'.
  { destruct Hmax as [H | H]; [by left | right]. by apply Forall_map. }
  destruct (map str_of_Z ns) as [|t ts] eqn:Etoks.
  - destruct ns; [| done]. reflexivity.
  - destruct (join_edges (py ", ") t ts Hd) as [[x Hx] Hlast].
    assert (digit_string t) as Ht by by inversion Hd.
    rewrite strip_edges; [| by exists t, x | done].
    rewrite lower_plain by by apply join_plain.
    assert (str_eqb (join (py ", ") (t :: ts)) (py "none") = false) as ->.
    { apply bool_decide_eq_false. rewrite Hx. intros E. destruct Ht as [Hne Hdig].
      destruct t as [|c t]; [done |]. injection E as -> _. done. }
    cbn [negb]. rewrite split_join_digits by done.
    rewrite (comprehension_digits _ (t :: ts)); [by rewrite Hv | | done | done].
    constructor.
    + apply strip_edges; [exists t, []; by rewrite app_nil_r | by exists [], t].
    + clear -Hd RT. apply Forall_cons in Hd as [_ Hd].
      induction Hd as [|t' ts Ht' _ IH]; cbn [map]; constructor; [| done].
      rewrite strip_space_l.
      apply strip_edges; [exists t', []; by rewrite app_nil_r | by exists [], t'].
Qed.

(** X13.  The parser reads back the answer format that the prompt asks
    for: of [MESSAGE: m FILES: f], where [FILES:] does not occur in [m], the
    message is [m] stripped; the selection is empty when [f] is [none] in
    any case, and it is the list [ns] when [f] is the list of the
    non-negative numbers [ns] written in decimal with [", "] between
    them. *)
Theorem parse_inverts_answer_format (m f query : list N) :
  ~ occurs (py "FILES:") m ->
  (exists file_numbers,
     _parse_search_response (py "MESSAGE:" ++ m ++ py "FILES:" ++ f) query =
       {| ar_message := Some (strip m); ar_file_numbers := Some file_numbers;
          ar_files := None |}) /\
  (lower (strip f) = py "none" ->
   _parse_search_response (py "MESSAGE:" ++ m ++ py "FILES:" ++ f) query =
     {| ar_message := Some (strip m); ar_file_numbers := Some []; ar_files := None |}) /\
  (forall ns,
     Forall (fun n => 0 <= n) ns ->
     int_max_str_digits <= 0 \/ Forall (fun n => len (str_of_Z n) <= int_max_str_digits) ns ->
     f = py " " ++ join (py ", ") (map str_of_Z ns) ->
     _parse_search_response (py "MESSAGE:" ++ m ++ py "FILES:" ++ f) query =
       {| ar_message := Some (strip m); ar_file_numbers := Some ns; ar_files := None |}).
Proof.
  intros Hno. rewrite (parse_answer m f query Hno).
  split; [by eexists |]. split.
  - intros Hnone. by rewrite Hnone.
  - intros ns Hns Hmax ->. by rewrite (parse_number_list ns Hns Hmax).
Qed.

(** X14.  From the answer to the result: when the backend answers in the
    requested format with the numbers [ns] and at least one of them is in
    range, [search] returns the message of the answer and the candidates
    at the numbers in range, in the order of the answer. *)
Theorem search_returns_ai_selection (self : engine) (query m : list N) (ns : list Z)
    (l : list file_summary) :
  let file_descriptions := _get_file_descriptions self in
  ~ occurs (py "FILES:") m ->
  Forall (fun n => 0 <= n) ns ->
  int_max_str_digits <= 0 \/ Forall (fun n => len (str_of_Z n) <= int_max_str_digits) ns ->
  _call_ai (ai_client self) (_create_search_prompt query file_descriptions) =
    Ok (py "MESSAGE:" ++ m ++ py "FILES:" ++ py " " ++ join (py ", ") (map str_of_Z ns)) ->
  _get_files_by_numbers ns file_descriptions = Ok l ->
  l <> [] ->
  search self query = Ok {| message := strip m; files := l |} /\
  Forall2 (fun num s => exists file_info,
               file_descriptions !! Z.to_nat (num - 1) = Some file_info /\
               s = summary_of file_info)
          (List.filter (in_range (len file_descriptions)) ns) l.
Proof.
  intros fds Hno Hns Hmax Hcall Hsel Hl. split.
  - unfold search. fold fds.
    destruct fds as [|d ds] eqn:Ed.
    { destruct Hl. clear -Hsel. induction ns as [|n ns IH]; cbn in Hsel; [by injection Hsel |].
      destruct (1 <=? n) eqn:E1; destruct (n <=? len []) eqn:E2; cbn in Hsel; try by apply IH.
      apply Z.leb_le in E1, E2. unfold len in E2. cbn in E2. lia. }
    unfold search_query. rewrite Hcall. cbn [mbind res_bind mret res_ret try_value].
    rewrite (parse_answer m _ query Hno), (parse_number_list ns Hns Hmax).
    unfold ai_matches. cbn [ar_file_numbers].
    destruct ns as [|n ns']; [cbn in Hsel; injection Hsel as <-; done |].
    rewrite Hsel. cbn [mbind res_bind]. destruct l as [|s l']; [done |].
    reflexivity.
  - destruct (get_files_by_numbers_selected ns fds) as (l' & Hl' & Hall).
    rewrite Hsel in Hl'. by injection Hl' as <-.
Qed.

End AnswerFormat.

(** ** Descriptions without a backend, and the tags of audio files *)

Section Fallbacks.
Context `{RT : PyRuntime}.

Lemma join_split_on (sep : N) (s : list N) : join [sep] (split_on sep s) = s.
Proof.
  induction s as [|c s IH]; [done |]. cbn [split_on].
  pose proof (split_on_nonempty sep s) as Hne.
  destruct (N.eqb_spec c sep) as [-> | Hc].
  - destruct (split_on sep s) as [|w ws]; [done |].
    change (join [sep] ([] :: w :: ws)) with (sep :: join [sep] (w :: ws)). by rewrite IH.
  - destruct (split_on sep s) as [|w ws]; [done |]. rewrite <- IH.
    by destruct ws.
Qed.

Lemma split_on_pieces (sep : N) (s : list N) :
  Forall (Forall (fun c => c <> sep)) (split_on sep s).
Proof.
  induction s as [|c s IH]; [by repeat constructor |]. cbn [split_on].
  destruct (N.eqb_spec c sep) as [-> | Hc]; [by constructor |].
  destruct (split_on sep s) as [|w ws]; [by repeat constructor |].
  apply Forall_cons in IH as [Hw Hws]. by repeat constructor.
Qed.

Lemma join_last (sep : list N) (l : list (list N)) :
  l <> [] ->
  exists dir, join sep l = dir ++ List.last l [] /\ (dir = [] \/ exists d, dir = d ++ sep).
Proof.
  induction l as [|w l IH]; [done |]. intros _. destruct l as [|w' ws].
  - exists []. by split; [| left].
  - destruct (IH ltac:(done)) as (dir & Hj & Hdir).
    change (join sep (w :: w' :: ws)) with (w ++ sep ++ join sep (w' :: ws)).
    change (List.last (w :: w' :: ws) []) with (List.last (w' :: ws) []).
    rewrite Hj. exists (w ++ sep ++ dir). split; [by rewrite <- !app_assoc |]. right.
    destruct Hdir as [-> | [d ->]]; [exists w; by rewrite app_nil_r |].
    exists (w ++ sep ++ d). by rewrite <- !app_assoc.
Qed.

Lemma basename_last_component (file_path : list N) :
  Forall (fun c => c <> 47%N) (basename file_path) /\
  exists dir, file_path = dir ++ basename file_path /\
              (dir = [] \/ exists d, dir = d ++ [47%N]).
Proof.
  unfold basename. pose proof (split_on_nonempty 47 file_path) as Hne. split.
  - pose proof (split_on_pieces 47 file_path) as Hp.
    rewrite Forall_forall in Hp. apply Hp, list_elem_of_In.
    destruct (exists_last Hne) as (l' & a & ->). rewrite last_last.
    apply in_app_iff. right. by left.
  - destruct (join_last [47%N] _ Hne) as (dir & Hj & Hdir).
    rewrite join_split_on in Hj. by exists dir.
Qed.

(** X15.  A description is an exception only when the [print] of the
    handler raises.  When the backend cannot be called, because the call
    raises or the type of the client is neither [api] nor [local], the
    handler prints a note that holds the path; if the [print] returns, the
    description is [File: ] and the last component of the path, which
    holds no slash, and if it raises, so does the call.  Otherwise the
    description is the answer, stripped. *)
Theorem description_falls_back_to_file_name (out : stdout) (self : client)
    (file_path file_content : list N) (metadata : list (list N * pyval)) :
  let prompt := _create_description_prompt file_path file_content metadata in
  let note := fun e => py "Error generating description for " ++ file_path ++ py ": " ++
                       exc_str e in
  (forall e, _call_ai self prompt = Raise e -> out (note e) = None ->
     generate_description out self file_path file_content metadata =
       Ok (py "File: " ++ basename file_path)) /\
  (forall e e', _call_ai self prompt = Raise e -> out (note e) = Some e' ->
     generate_description out self file_path file_content metadata = Raise e') /\
  (ai_type self <> py "api" -> ai_type self <> py "local" ->
   out (note (mk_exc "ValueError" (py "Unknown AI type: " ++ ai_type self))) = None ->
   generate_description out self file_path file_content metadata =
     Ok (py "File: " ++ basename file_path)) /\
  (forall response, _call_ai self prompt = Ok response ->
     generate_description out self file_path file_content metadata = Ok (strip response)) /\
  Forall (fun c => c <> 47%N) (basename file_path) /\
  exists dir, file_path = dir ++ basename file_path /\
              (dir = [] \/ exists d, dir = d ++ [47%N]).
Proof.
  intros prompt note.
  assert (forall e, _call_ai self prompt = Raise e ->
            generate_description out self file_path file_content metadata =
            match out (note e) with
            | Some e' => Raise e'
            | None => Ok (py "File: " ++ basename file_path)
            end) as Hraise.
  { intros e He. unfold generate_description, py_print. fold prompt. rewrite He.
    cbn [mbind res_bind try_except]. fold (note e). by destruct (out (note e)). }
  split; [| split; [| split; [| split]]].
  - intros e He Hout. by rewrite (Hraise e He), Hout.
  - intros e e' He Hout. by rewrite (Hraise e He), Hout.
  - intros Hapi Hlocal Hout. rewrite (Hraise (mk_exc "ValueError" (py "Unknown AI type: " ++ ai_type self))).
    + by rewrite Hout.
    + unfold _call_ai. by rewrite !str_eqb_neq.
  - intros response Hr. unfold generate_description. fold prompt. by rewrite Hr.
  - apply basename_last_component.
Qed.

Lemma audio_tags_app (before after : list (list N * tag_value))
    (metadata : list (list N * pyval)) :
  audio_tags (before ++ after) metadata = audio_tags after (audio_tags before metadata).
Proof.
  revert metadata. induction before as [|[k v] before IH]; intros metadata; [done |].
  cbn [app audio_tags]. destruct v as [[|v vs]|s|]; apply IH.
Qed.

Lemma audio_tags_other (items : list (list N * tag_value)) (metadata : list (list N * pyval))
    (k : list N) :
  Forall (fun kv => fst kv <> k) items ->
  dict_get k (audio_tags items metadata) = dict_get k metadata.
Proof.
  intros H. revert metadata. induction H as [|[k' v] items Hk _ IH]; intros metadata; [done |].
  cbn [audio_tags]. cbn [fst] in Hk.
  destruct v as [[|v vs]|s|]; rewrite IH; try done;
    rewrite dict_get_set, str_eqb_neq; done.
Qed.

(** X16.  The tags of an audio file are stored under their own names, so a
    tag may replace [file_type], [length] or [bitrate]: the value of a key
    is that of the last tag of this name that is a string or a non-empty
    list (the [str] of its first entry), and a key that no tag has keeps
    the value of the file. *)
Theorem audio_tags_shadow_file_keys (w : world) (file_path text : list N) (a : audio_file)
    (metadata : list (list N * pyval)) :
  w_audio w file_path = Ok (Some a) -> au_truth a = true ->
  audio_body w file_path = Ok (text, metadata) ->
  let base := [(py "file_type", VStr (py "audio")); (py "length", au_length a);
               (py "bitrate", au_bitrate a)] in
  text = [] /\
  (forall k, Forall (fun kv => fst kv <> k) (au_items a) ->
     dict_get k metadata = dict_get k base) /\
  (forall before k s after,
     au_items a = before ++ (k, TagStr s) :: after ->
     Forall (fun kv => fst kv <> k) after ->
     dict_get k metadata = Some (VStr s)) /\
  (forall before k v vs after,
     au_items a = before ++ (k, TagList (v :: vs)) :: after ->
     Forall (fun kv => fst kv <> k) after ->
     dict_get k metadata = Some (VStr (str_of_val v))).
Proof.
  intros Ha Ht. unfold audio_body. rewrite Ha. cbn [mbind res_bind]. rewrite Ht.
  intros [= <- <-]. split; [done |]. split; [| split].
  - intros k Hk. by apply audio_tags_other.
  - intros before k s after -> Hafter. rewrite audio_tags_app. cbn [audio_tags].
    rewrite audio_tags_other by done. by rewrite dict_get_set, str_eqb_refl.
  - intros before k v vs after -> Hafter. rewrite audio_tags_app. cbn [audio_tags].
    rewrite audio_tags_other by done. by rewrite dict_get_set, str_eqb_refl.
Qed.

End Fallbacks.

(** ** What a build leaves alone *)

Section StaleRows.
Context `{RT : PyRuntime}.

Lemma insert_rows_from (db : database) (row : file_row) (r : Z * file_row) :
  In r (Store.files (insert_or_replace_file db row)) ->
  In r (Store.files db) \/ r_path (snd r) = r_path row.
Proof.
  unfold insert_or_replace_file. cbn [Store.files].
  rewrite in_app_iff. intros [Hr | [<- | []]]; [left | by right].
  by apply filter_In in Hr as [Hr _].
Qed.

Lemma upsert_rows_from (db : database) (file_path : list N) (info : file_info)
    (indexed_time : list N) (r : Z * file_row) :
  In r (Store.files (upsert db file_path info indexed_time)) ->
  In r (Store.files db) \/ r_path (snd r) = file_path.
Proof. apply (insert_rows_from db (row_of file_path info indexed_time)). Qed.

Lemma insert_keeps_other (db : database) (row : file_row) (r : Z * file_row) :
  In r (Store.files db) -> r_path (snd r) <> r_path row ->
  In r (Store.files (insert_or_replace_file db row)) /\
  fst r <> last_insert_rowid (insert_or_replace_file db row).
Proof.
  intros Hr Hne. unfold insert_or_replace_file. cbn [Store.files last_insert_rowid]. split.
  - apply in_app_iff. left. apply filter_In. split; [done |]. by rewrite str_eqb_neq.
  - apply max_rowid_bound in Hr. lia.
Qed.

Lemma upsert_keeps_other (db : database) (file_path : list N) (info : file_info)
    (indexed_time : list N) (r : Z * file_row) :
  In r (Store.files db) -> r_path (snd r) <> file_path ->
  In r (Store.files (upsert db file_path info indexed_time)) /\
  files_fts (upsert db file_path info indexed_time) !! fst r = files_fts db !! fst r.
Proof.
  intros Hr Hne.
  destruct (insert_keeps_other db (row_of file_path info indexed_time) r Hr Hne) as [H1 H2].
  unfold upsert, insert_or_replace_fts. cbn [Store.files files_fts]. split; [done |].
  by apply lookup_insert_ne.
Qed.

(** X17.  A build only writes rows for enumerated paths and never deletes:
    every row after the build is a row from before or the row of an
    enumerated path, and the row of a path that is not enumerated (a file
    that has been deleted, say) stays in the catalog with its id, and with
    its document in the index. *)
Theorem build_never_forgets {S : Type} (w : world) (ai : client)
    (cb : option (@callback S)) (directory_path : list N) (all_files : list (list N))
    (st : @build_state S) :
  let db' := bs_db (fst (build_catalog w ai cb directory_path all_files st)) in
  (forall r, In r (Store.files db') ->
     In r (Store.files (bs_db st)) \/ In (r_path (snd r)) all_files) /\
  (forall r, In r (Store.files (bs_db st)) -> ~ In (r_path (snd r)) all_files ->
     In r (Store.files db') /\ files_fts db' !! fst r = files_fts (bs_db st) !! fst r).
Proof.
  cbv zeta. split.
  - apply (build_catalog_invariant
             (fun db => forall r, In r (Store.files db) ->
                          In r (Store.files (bs_db st)) \/ In (r_path (snd r)) all_files));
      [| | by left].
    + intros db i p info Hp Hdb _ _ _ r Hr.
      apply upsert_rows_from in Hr as [Hr | ->]; [by apply Hdb | by right].
    + intros db i p info e Hp Hdb _ _ _ _ r Hr.
      apply insert_rows_from in Hr as [Hr | ->]; [by apply Hdb | by right].
  - intros r Hr Hout.
    apply (build_catalog_invariant
             (fun db => In r (Store.files db) /\
                        files_fts db !! fst r = files_fts (bs_db st) !! fst r));
      [| | done].
    + intros db i p info Hp [Hin Hdoc] _ _ _.
      destruct (upsert_keeps_other db p info (w_now w i) r Hin) as [H1 H2]; [congruence |].
      split; [done | by rewrite H2].
    + intros db i p info e Hp [Hin Hdoc] _ _ _ _.
      destruct (insert_keeps_other db (row_of p info (w_now w i)) r Hin) as [H1 _];
        [cbn [row_of r_path]; congruence |].
      split; [done | done].
Qed.

End StaleRows.

(** ** The further statements at concrete inputs *)

Section MoreInstances.

Lemma get_all_files_exact_witness :
  In [py "docs"; py "src"; py "main.py"] (_get_all_files [py "docs"] demo_tree) /\
  ~ In [py "docs"; py ".git"; py "config"] (_get_all_files [py "docs"] demo_tree).
Proof.
  split.
  - apply (proj2 (get_all_files_exact demo_tree [py "docs"] [py "docs"; py "src"; py "main.py"])).
    exists [py "src"], (py "main.py"). split; [reflexivity |].
    split; [| split; [| reflexivity]].
    + eapply file_below; [left; reflexivity | apply file_here; left; reflexivity].
    + constructor; [reflexivity | constructor].
  - intros H.
    apply (proj1 (get_all_files_exact demo_tree [py "docs"] [py "docs"; py ".git"; py "config"]))
      in H as (ds & file & Hp & _ & Hall & _).
    cbn [app] in Hp. injection Hp as Hp.
    destruct ds as [|d [|d' ds]].
    + discriminate Hp.
    + cbn [app] in Hp. injection Hp as <- _. apply Forall_cons in Hall as [Hk _].
      by vm_compute in Hk.
    + cbn [app] in Hp. injection Hp as _ Hp. by destruct ds.
Defined.

Lemma file_hash_covers_whole_file_witness :
  _get_file_hash (RT := ascii_runtime) (one_file_world (py "v1")) (py "/docs/a.txt") = py "v1" /\
  _get_file_hash (RT := ascii_runtime) (one_file_world (py "v1")) (py "/docs/b.txt") = [].
Proof.
  split.
  - apply (proj1 (file_hash_covers_whole_file (RT := ascii_runtime)
                    (one_file_world (py "v1")) (py "/docs/a.txt")) (py "v1")).
    by vm_compute.
  - apply (proj2 (file_hash_covers_whole_file (RT := ascii_runtime)
                    (one_file_world (py "v1")) (py "/docs/b.txt")) not_found).
    by vm_compute.
Defined.

Lemma build_keeps_one_row_per_path_witness :
  catalog_ok empty_db /\ catalog_ok db_first_build.
Proof.
  assert (catalog_ok empty_db) as H by (split; constructor).
  split; [exact H |].
  apply (build_keeps_one_row_per_path (RT := ascii_runtime) (one_file_world (py "v1"))
           offline_client None (py "/docs") [py "/docs/a.txt"] (start_state empty_db) H).
Defined.

Lemma build_keeps_excerpts_bounded_witness :
  excerpts_bounded empty_db /\
  excerpts_bounded
    (bs_db (fst (build_catalog (RT := ascii_runtime) big_text_world offline_client None
                   (py "/docs") [py "/docs/a.txt"] (start_state empty_db)))).
Proof.
  assert (excerpts_bounded empty_db) as H by (split; [constructor | apply map_Forall_empty]).
  split; [exact H |].
  apply (build_keeps_excerpts_bounded (RT := ascii_runtime) big_text_world offline_client None
           (py "/docs") [py "/docs/a.txt"] (start_state empty_db) H).
Defined.

Lemma build_keeps_lockstep_on_new_paths_witness :
  index_answers (one_file_world (py "v1")) /\
  fts_lockstep empty_db /\ fts_lockstep db_first_build.
Proof.
  assert (index_answers (one_file_world (py "v1"))) as Hidx by (intros i; by split).
  assert (fts_lockstep empty_db) as H by (intros id; apply lookup_empty).
  split; [exact Hidx |]. split; [exact H |].
  apply (build_keeps_lockstep_on_new_paths (RT := ascii_runtime) (one_file_world (py "v1"))
           offline_client None (py "/docs") [py "/docs/a.txt"] (start_state empty_db) Hidx H).
  intros file_path _. left. intros r [].
Defined.

(** Why the lookups and the insertions into the index have to succeed: a
    store that fails at the insertion into the index (a damaged index,
    say) leaves the row of the file in [files] without a document. *)
Lemma index_fault_leaves_row_without_document :
  let w := {| w_stat := w_stat (one_file_world (py "v1"));
              w_read := w_read (one_file_world (py "v1"));
              w_pdf := w_pdf (one_file_world (py "v1"));
              w_docx := w_docx (one_file_world (py "v1"));
              w_workbook := w_workbook (one_file_world (py "v1"));
              w_image := w_image (one_file_world (py "v1"));
              w_audio := w_audio (one_file_world (py "v1"));
              w_now := w_now (one_file_world (py "v1"));
              w_stdout := fun _ => None;
              w_store_fault := fun s =>
                match s with
                | InsertFts _ =>
                    Some (mk_exc "DatabaseError" (py "database disk image is malformed"))
                | _ => None
                end |} in
  let out := build_catalog (RT := ascii_runtime) w offline_client None (py "/docs")
               [py "/docs/a.txt"] (start_state empty_db) in
  snd out = Ok tt /\
  map fst (Store.files (bs_db (fst out))) = [1] /\
  files_fts (bs_db (fst out)) !! 1 = None.
Proof. by vm_compute. Qed.


Lemma pdf_reads_first_five_pages_witness :
  _extract_pdf_content media_world (py "/docs/r.pdf") =
    Ok (slice_to (concat (map (fun t => t ++ nl) [py "p1"; py "p2"; py "p3"; py "p4"; py "p5"])) 5000,
        [(py "file_type", VStr (py "pdf"));
         (py "page_count", VInt 6);
         (py "char_count", VInt 15)]).
Proof.
  apply (proj1 (pdf_reads_first_five_pages media_world (py "/docs/r.pdf") _ eq_refl)
           [py "p1"; py "p2"; py "p3"; py "p4"; py "p5"]).
  reflexivity.
Defined.

Lemma image_metadata_keys_witness :
  exists metadata,
    image_body media_world (py "/docs/i.jpg") = Ok ([], metadata) /\
    dict_get (py "format") metadata = Some (VStr (py "JPEG")) /\
    Forall exif_ok metadata.
Proof.
  eexists. split; [by vm_compute |].
  destruct (image_metadata_keys media_world (py "/docs/i.jpg") [] demo_image _ eq_refl
              ltac:(by vm_compute)) as (_ & _ & Hf & _ & _ & Hall).
  split; [exact Hf | exact Hall].
Defined.

Lemma format_size_number_range_witness :
  0 <= 1536 < 1024 ^ 4 /\
  exists t unit,
    _format_file_size (Some 1536) =
      str_of_Z (t / 10) ++ py "." ++ str_of_Z (t mod 10) ++ py " " ++ unit /\
    0 <= t <= 10240.
Proof.
  assert (0 <= 1536 < 1024 ^ 4) as H by (by vm_compute).
  split; [exact H |].
  destruct (format_size_number_range 1536 H) as (t & unit & H1 & _ & H3 & _).
  exists t, unit. split; [exact H1 | exact H3].
Defined.

Lemma prompt_numbers_match_selection_witness :
  exists file_info,
    sixty_candidates !! Z.to_nat (7 - 1) = Some file_info /\
    _get_files_by_numbers [7] sixty_candidates = Ok [summary_of file_info].
Proof.
  eexists. split; [by vm_compute |].
  apply (proj2 (prompt_numbers_match_selection (py "q") sixty_candidates 7 _
                  ltac:(lia) ltac:(by vm_compute))).
Defined.

Lemma description_prompt_bounded_witness :
  len (_create_description_prompt (py "/docs/a.txt") (repeat 97%N (Z.to_nat 10001)) []) <=
  len (_create_description_prompt (py "/docs/a.txt") [] []) + 2021.
Proof.
  apply (proj1 (description_prompt_bounded (py "/docs/a.txt") (repeat 97%N (Z.to_nat 10001)) [])).
Defined.


Lemma parse_inverts_answer_format_witness :
  _parse_search_response (RT := ascii_runtime)
    (py "MESSAGE:" ++ py " two reports " ++ py "FILES:" ++
     py " " ++ join (py ", ") (map str_of_Z [3; 1])) (py "q") =
    {| ar_message := Some (strip (py " two reports "));
       ar_file_numbers := Some [3; 1];
       ar_files := None |}.
Proof.
  assert (~ occurs (py "FILES:") (py " two reports ")) as Hno.
  { intros H. apply find_occurs in H. vm_compute in H. discriminate. }
  apply (proj2 (proj2 (parse_inverts_answer_format (RT := ascii_runtime)
                         (py " two reports ") _ (py "q") Hno)) [3; 1]).
  - repeat constructor; lia.
  - left. by vm_compute.
  - reflexivity.
Defined.

Lemma search_returns_ai_selection_witness :
  let self := demo_engine (Ok demo_db) (canned_client (py "MESSAGE: two reports FILES: 3, 1")) in
  exists l,
    _get_files_by_numbers [3; 1] (_get_file_descriptions self) = Ok l /\
    search (RT := ascii_runtime) self (py "budget report") =
      Ok {| message := strip (py " two reports "); files := l |}.
Proof.
  intros self.
  assert (~ occurs (py "FILES:") (py " two reports ")) as Hno.
  { intros H. apply find_occurs in H. vm_compute in H. discriminate. }
  eexists. split; [by vm_compute |].
  apply (search_returns_ai_selection (RT := ascii_runtime) self (py "budget report")
           (py " two reports ") [3; 1] _ Hno).
  - repeat constructor; lia.
  - left. by vm_compute.
  - by vm_compute.
  - by vm_compute.
  - discriminate.
Defined.

Lemma description_falls_back_to_file_name_witness :
  generate_description (fun _ => None) offline_client (py "/docs/a.txt") [] [] =
    Ok (py "File: a.txt") /\
  (exists e, generate_description strict_stdout offline_client legacy_name [] [] = Raise e) /\
  generate_description strict_stdout (canned_client (py " a text file ")) legacy_name [] [] =
    Ok (py "a text file").
Proof.
  split; [| split].
  - apply (proj1 (description_falls_back_to_file_name (fun _ => None) offline_client
                    (py "/docs/a.txt") [] []) (mk_exc "ConnectionError" []));
      by vm_compute.
  - eexists.
    apply (proj1 (proj2 (description_falls_back_to_file_name strict_stdout offline_client
                           legacy_name [] [])) (mk_exc "ConnectionError" []));
      by vm_compute.
  - apply (proj1 (proj2 (proj2 (proj2 (description_falls_back_to_file_name strict_stdout
                                         (canned_client (py " a text file ")) legacy_name [] []))))
             (py " a text file ")).
    by vm_compute.
Defined.

Lemma audio_tags_shadow_file_keys_witness :
  exists metadata,
    audio_body media_world (py "/docs/s.flac") = Ok ([], metadata) /\
    dict_get (py "file_type") metadata = Some (VStr (py "flac")) /\
    dict_get (py "bitrate") metadata = Some (VInt 128000).
Proof.
  eexists. split; [by vm_compute |].
  destruct (audio_tags_shadow_file_keys media_world (py "/docs/s.flac") [] demo_audio _
              eq_refl eq_refl ltac:(by vm_compute)) as (_ & Hkeep & _ & Hlist).
  split.
  - apply (Hlist [(py "title", TagStr (py "Song"))] (py "file_type") (VStr (py "flac")) [] []);
      [reflexivity | constructor].
  - rewrite (Hkeep (py "bitrate")); [reflexivity |].
    repeat constructor; by vm_compute.
Defined.

Lemma build_never_forgets_witness :
  let db' := bs_db (fst (build_catalog (RT := ascii_runtime) (one_file_world (py "v1"))
                           offline_client None (py "/docs") [py "/docs/b.txt"]
                           (start_state db_first_build))) in
  Forall (fun r => In r (Store.files db') /\
                   files_fts db' !! fst r = files_fts db_first_build !! fst r)
         (Store.files db_first_build).
Proof.
  intros db'. apply List.Forall_forall. intros r Hr.
  apply (proj2 (build_never_forgets (RT := ascii_runtime) (one_file_world (py "v1"))
                  offline_client None (py "/docs") [py "/docs/b.txt"]
                  (start_state db_first_build)) r Hr).
  vm_compute in Hr. destruct Hr as [<- | []]. intros [H | []]. by vm_compute in H.
Defined.

End MoreInstances.
